(** * Health Coach AI: client screens, embedded and verified

    The repository is a React Native front-end: six screens (registration,
    home, daily log, reports, workout plans, profile) whose handlers read
    component state, read or write [AsyncStorage], call the backend through
    [axios], raise [Alert] dialogs and navigate with the router.

    The embedding keeps the handlers as they are written: each handler is a
    function from the component state of the render it closes over and the
    outside world (storage, route, dialogs shown, requests issued, console) to
    the new state and world.  What the backend answers to a request is an
    argument of the handler, so every theorem holds for every answer.

    JavaScript values are modelled as the code uses them: numbers are IEEE 754
    binary64 (Rocq's primitive floats), strings are sequences of code units in
    the Latin-1 range, [!x], [a || b] and [a && b] follow JavaScript
    truthiness. *)

From Stdlib Require Import ZArith QArith Qpower String Ascii List Floats.
From Stdlib Require Import Lia Bool.
From Stdlib Require Import DecimalString DecimalFacts DecimalPos DecimalN.
From stdpp Require Import gmap strings.

Local Open Scope string_scope.
Local Open Scope list_scope.

(** ** The JavaScript runtime the screens rely on *)

Module JS.

(** *** Values and truthiness *)

(** A JavaScript value as it reaches the screens: JSON scalars, [undefined]
    for a missing property, and an opaque reference for arrays and objects. *)
Inductive jsval : Type :=
  | VUndefined
  | VNull
  | VBool (b : bool)
  | VNum (x : float)
  | VStr (s : string)
  | VObject (ref : nat).

(** [!!s] for a string: the empty string is the only falsy one. *)
Definition str_truthy (s : string) : bool :=
  match s with EmptyString => false | String _ _ => true end.

(** [!!x] for a number: [0], [-0] and [NaN] are falsy. *)
Definition num_truthy (x : float) : bool := negb (is_zero x || is_nan x).

Definition truthy (v : jsval) : bool :=
  match v with
  | VUndefined | VNull => false
  | VBool b => b
  | VNum x => num_truthy x
  | VStr s => str_truthy s
  | VObject _ => true
  end.

(** [a || b] and [a && b]: they return one of their operands. *)
Definition or (a b : jsval) : jsval := if truthy a then a else b.
Definition and (a b : jsval) : jsval := if truthy a then b else a.

(** [!!x] for [string | null], the result of [AsyncStorage.getItem]. *)
Definition opt_truthy (o : option string) : bool :=
  match o with Some s => str_truthy s | None => false end.

(** *** Strings *)

(** White space and line terminators among the Latin-1 code units:
    TAB, LF, VT, FF, CR, SP and NBSP. *)
Definition is_white (c : ascii) : bool :=
  let n := nat_of_ascii c in
  ((9 <=? n) && (n <=? 13) || (n =? 32) || (n =? 160))%nat.

Fixpoint trimStart (s : string) : string :=
  match s with
  | String c s' => if is_white c then trimStart s' else s
  | EmptyString => EmptyString
  end.

(** Removes trailing white space: a character is kept when it is not white
    or when something is kept after it. *)
Fixpoint trimEnd (s : string) : string :=
  match s with
  | String c s' =>
      match trimEnd s' with
      | EmptyString => if is_white c then EmptyString else String c EmptyString
      | t => String c t
      end
  | EmptyString => EmptyString
  end.

Definition trim (s : string) : string := trimEnd (trimStart s).

(** *** Numbers: from integers and decimal literals to binary64 *)

(** The double nearest to an integer (round to nearest, ties to even). *)
Definition float_of_Z (z : Z) : float :=
  SF2Prim (binary_normalize prec emax z 0 false).

Definition exact_pos (z : Z) : spec_float :=
  match z with Zpos p => S754_finite false p 0 | _ => S754_zero false end.

(** The double nearest to [d * 10^e10], for a digit string [d >= 0]. *)
Definition float_of_decimal (d e10 : Z) : float :=
  if (0 <=? e10)%Z then float_of_Z (d * 10 ^ e10)
  else SF2Prim (SFdiv prec emax (exact_pos d) (exact_pos (10 ^ (- e10)))).

Definition apply_sign (neg : bool) (x : float) : float :=
  if neg then (- x)%float else x.

(** The value of a digit in a radix up to 16, when it is one. *)
Definition digit_value (radix : Z) (c : ascii) : option Z :=
  let n := Z.of_nat (nat_of_ascii c) in
  let v :=
    if ((48 <=? n) && (n <=? 57))%Z then Some (n - 48)%Z
    else if ((97 <=? n) && (n <=? 102))%Z then Some (n - 87)%Z
    else if ((65 <=? n) && (n <=? 70))%Z then Some (n - 55)%Z
    else None in
  match v with
  | Some d => if (d <? radix)%Z then Some d else None
  | None => None
  end.

(** The longest prefix of digits: its value, its length and the rest. *)
Fixpoint span_digits (radix : Z) (acc : Z) (count : nat) (s : string)
  : Z * nat * string :=
  match s with
  | String c s' =>
      match digit_value radix c with
      | Some d => span_digits radix (acc * radix + d)%Z (S count) s'
      | None => (acc, count, s)
      end
  | EmptyString => (acc, count, s)
  end.

(** An optional leading sign. *)
Definition strip_sign (s : string) : bool * string :=
  match s with
  | String "-" s' => (true, s')
  | String "+" s' => (false, s')
  | _ => (false, s)
  end.

(** [parseInt(s)] with no radix argument: leading white space, a sign, an
    optional [0x] prefix, then as many digits as there are; [NaN] when there
    is none. *)
Definition parseInt (s : string) : float :=
  let '(neg, s1) := strip_sign (trimStart s) in
  let '(radix, s2) :=
    match s1 with
    | String "0" (String "x" r) | String "0" (String "X" r) => (16%Z, r)
    | _ => (10%Z, s1)
    end in
  let '(v, count, _) := span_digits radix 0 0 s2 in
  match count with
  | O => nan
  | S _ => apply_sign neg (float_of_Z v)
  end.

(** The exponent part of a decimal literal, when it is complete. *)
Definition exponent_part (s : string) : Z :=
  match s with
  | String "e" r | String "E" r =>
      let '(neg, r1) := strip_sign r in
      let '(v, count, _) := span_digits 10 0 0 r1 in
      match count with
      | O => 0%Z
      | S _ => if neg then (- v)%Z else v
      end
  | _ => 0%Z
  end.

(** [parseFloat(s)]: leading white space, then the longest prefix that is a
    decimal literal ([Infinity], or digits with an optional fraction and
    exponent); [NaN] when there is none. *)
Definition parseFloat (s : string) : float :=
  let '(neg, s1) := strip_sign (trimStart s) in
  if String.prefix "Infinity" s1 then apply_sign neg infinity
  else
    let '(ip, nip, r1) := span_digits 10 0 0 s1 in
    let '(fp, nfp, r2) :=
      match r1 with
      | String "." r => span_digits 10 ip 0 r
      | _ => (ip, O, r1)
      end in
    match (nip + nfp)%nat with
    | O => nan
    | S _ =>
        apply_sign neg
          (float_of_decimal fp (exponent_part r2 - Z.of_nat nfp))
    end.

(** *** [Number.prototype.toFixed] *)

(** The decimal digits of a natural number, ["0"] for zero. *)
Definition decimal (n : Z) : string :=
  NilZero.string_of_uint (N.to_uint (Z.to_N n)).

Fixpoint zeros (k : nat) : string :=
  match k with O => EmptyString | S k' => String "0" (zeros k') end.

(** The digits of [n] with a decimal point before the last [fd] of them. *)
Definition fixed_digits (fd : nat) (n : Z) : string :=
  let m := decimal n in
  match fd with
  | O => m
  | S _ =>
      let m := zeros (S fd - String.length m) +:+ m in
      let k := String.length m in
      substring 0 (k - fd) m +:+ "." +:+ substring (k - fd) fd m
  end.

(** The integer [n] for which [n / 10^fd - num/den] is closest to zero, the
    larger one when two are as close. *)
Definition nearest_scaled (fd : nat) (num den : Z) : Z :=
  ((2 * num * 10 ^ Z.of_nat fd + den) / (2 * den))%Z.

(** [Number::toString] of an integer-valued double [x = N >= 10^21]: the
    fewest significant digits [s] with [s * 10^(n-k)] reading back as [x],
    the closest such [s], printed in exponent notation. *)
Fixpoint shortest_digits (fuel : nat) (k : Z) (N D : Z) (x : float) : Z * Z :=
  match fuel with
  | O => (N, D)
  | S fuel' =>
      let t := (10 ^ (D - k))%Z in
      let lo := (N / t)%Z in
      let hi := (lo + 1)%Z in
      let r := (N mod t)%Z in
      let first :=
        if (2 * r <? t)%Z then lo
        else if (t <? 2 * r)%Z then hi
        else if Z.even lo then lo else hi in
      let second := if (first =? lo)%Z then hi else lo in
      let pack s := if (s =? 10 ^ k)%Z then (1%Z, (D + 1)%Z) else (s, D) in
      if PrimFloat.eqb (float_of_Z (first * t)) x then pack first
      else if PrimFloat.eqb (float_of_Z (second * t)) x then pack second
      else shortest_digits fuel' (k + 1)%Z N D x
  end.

Definition toString_large (N : Z) (x : float) : string :=
  let D := Z.of_nat (String.length (decimal N)) in
  let '(s, n) := shortest_digits 17 1 N D x in
  let ds := decimal s in
  let mantissa :=
    match ds with
    | String d EmptyString => ds
    | String d rest => String d ("." +:+ rest)
    | EmptyString => ds
    end in
  mantissa +:+ "e+" +:+ decimal (n - 1).

(** A finite double of mantissa [m] and exponent [e] has the magnitude
    [m * 2^e], the fraction [scaled_num m e / scaled_den e]. *)
Definition scaled_num (m : positive) (e : Z) : Z :=
  (Zpos m * 2 ^ Z.max e 0)%Z.

Definition scaled_den (e : Z) : Z := (2 ^ Z.max (- e) 0)%Z.

Definition magnitude (m : positive) (e : Z) : Q :=
  scaled_num m e # Z.to_pos (scaled_den e).

(** [x.toFixed(fd)].  A double that is not finite prints as [NaN] or
    [Infinity]; one of magnitude [10^21] or more prints as [String(x)];
    otherwise the sign, then the nearest multiple of [10^-fd] of the
    magnitude. *)
Definition toFixed (fd : nat) (x : float) : string :=
  match Prim2SF x with
  | S754_nan => "NaN"
  | S754_infinity s => if s then "-Infinity" else "Infinity"
  | S754_zero _ => fixed_digits fd 0
  | S754_finite s m e =>
      let num := scaled_num m e in
      let den := scaled_den e in
      (if s then "-" else "") +:+
      (if (10 ^ 21 * den <=? num)%Z then toString_large num (abs x)
       else fixed_digits fd (nearest_scaled fd num den))
  end.

(** [x ** 2].  The engines compute [pow(x, 2)] as the correctly rounded
    square (fdlibm returns [x * x] when the exponent is 2). *)
Definition square (x : float) : float := (x * x)%float.

End JS.

(** ** The world outside a component *)

(** *** Records exchanged with the backend *)

Inductive PortionSize : Type := VerySmall | Small | Medium | Large | VeryLarge.

Inductive WaterIntake : Type := LessThan1L | From1To2L | From2To3L | MoreThan3L.

Definition PortionSize_text (p : PortionSize) : string :=
  match p with
  | VerySmall => "Very Small"
  | Small => "Small"
  | Medium => "Medium"
  | Large => "Large"
  | VeryLarge => "Very Large"
  end.

Definition WaterIntake_text (x : WaterIntake) : string :=
  match x with
  | LessThan1L => "Less than 1 L"
  | From1To2L => "1-2 L"
  | From2To3L => "2-3 L"
  | MoreThan3L => "More than 3 L"
  end.

(** The body of [POST /api/daily-logs], [logData] in [handleSubmit]. *)
Record Breakfast : Type :=
  { bk_food : string; bk_portion : PortionSize; bk_time : string }.

Record Lunch : Type :=
  { ln_food : string; ln_portion : PortionSize; ln_vegetables : bool;
    ln_protein : bool; ln_fried : bool; ln_dessert : bool }.

Record Dinner : Type :=
  { dn_food : string; dn_portion : PortionSize; dn_time : string;
    dn_after_9pm : bool }.

Record Snacks : Type :=
  { sn_had_snacks : bool; sn_details : string; sn_beverages : string }.

Record LogData : Type :=
  { log_user_id : string; log_date : string; log_breakfast : Breakfast;
    log_lunch : Lunch; log_dinner : Dinner; log_snacks : Snacks;
    log_water_intake : WaterIntake }.

(** The body of [POST /api/users]; [rb_weight] is [None] for [null]. *)
Record RegisterBody : Type :=
  { rb_name : string; rb_email : string; rb_age : float; rb_gender : string;
    rb_height : float; rb_weight : option float }.

(** What [POST /api/users] answers, as far as the client reads it. *)
Record Registered : Type := { reg_user_id : string; reg_name : string }.

(** The document the picker returns, and the file part of the upload. *)
Record PickedFile : Type :=
  { file_uri : string; file_name : string; file_size : float }.

Record FilePart : Type :=
  { part_uri : string; part_type : string; part_name : string }.

Record Report : Type :=
  { report_id : string; upload_date : string; extracted_text : string;
    ai_analysis : option string }.

Record Exercise : Type := { ex_name : string; ex_description : string }.

Record WorkoutPlan : Type :=
  { plan_id : string; plan_date : string; recommendations : string;
    exercises : list Exercise }.

(** A numeric property of a fetched record: missing, [null], or a number. *)
Inductive NumField : Type := Absent | Null | Num (x : float).

Definition NumField_value (f : NumField) : JS.jsval :=
  match f with
  | Absent => JS.VUndefined
  | Null => JS.VNull
  | Num x => JS.VNum x
  end.

Record User : Type :=
  { user_name : string; user_email : string; user_age : float;
    user_gender : string; user_height : NumField; user_weight : NumField }.

(** *** Requests, answers and errors *)

Inductive Request : Type :=
  | GetHealthReports (id : string)
  | GetDailyLogs (id : string) (limit : nat)
  | GetUser (id : string)
  | GetWorkoutPlans (id : string)
  | PostUsers (body : RegisterBody)
  | PostDailyLogs (body : LogData)
  | PostUpload (user_id : string) (file : FilePart)
  | PostAnalyze (report : string) (hf_api_key : string)
  | PostGenerate (user_id : string) (hf_api_key : string).

(** The path a request goes to, after [BACKEND_URL]. *)
Definition endpoint (r : Request) : string :=
  match r with
  | GetHealthReports id => "/api/health-reports/" +:+ id
  | GetDailyLogs id limit =>
      "/api/daily-logs/" +:+ id +:+ "?limit=" +:+ JS.decimal (Z.of_nat limit)
  | GetUser id => "/api/users/" +:+ id
  | GetWorkoutPlans id => "/api/workout-plans/" +:+ id
  | PostUsers _ => "/api/users"
  | PostDailyLogs _ => "/api/daily-logs"
  | PostUpload _ _ => "/api/health-reports/upload"
  | PostAnalyze _ _ => "/api/health-reports/analyze"
  | PostGenerate _ _ => "/api/workout-plans/generate"
  end.

(** What a [catch (error: any)] receives.  [err_response] is
    [error.response] ([None] when the failure has no response, as for a
    network error or an exception that is not axios'), [resp_data] its
    [data], and [body_detail] the [detail] property ([undefined] when the
    body has none). *)
Record ErrBody : Type := { body_detail : JS.jsval }.
Record ErrResponse : Type := { resp_data : option ErrBody }.
Record JsError : Type := { err_response : option ErrResponse }.

(** [error.response?.data?.detail] *)
Definition error_detail (e : JsError) : JS.jsval :=
  match err_response e with
  | None => JS.VUndefined
  | Some r =>
      match resp_data r with
      | None => JS.VUndefined
      | Some b => body_detail b
      end
  end.

(** The outcome of an awaited call: it resolves or it throws. *)
Inductive Reply (A : Type) : Type :=
  | Resolved (a : A)
  | Rejected (e : JsError).
Arguments Resolved {A} a.
Arguments Rejected {A} e.

(** *** Dialogs *)

(** What pressing a dialog button runs.  The two callbacks of the
    repository are the form reset of the daily log and the logout. *)
Inductive ButtonAction : Type :=
  | NoAction
  | ResetForm
  | ClearAndLeave.

Record Button : Type := { btn_text : string; btn_onPress : ButtonAction }.

Record Alert : Type :=
  { alert_title : string; alert_message : JS.jsval;
    alert_buttons : list Button }.

(** *** The world *)

Record World : Type :=
  { storage : gmap string string;   (* AsyncStorage *)
    route : string;                 (* the route the router shows *)
    alerts : list Alert;            (* dialogs raised, oldest first *)
    requests : list Request;        (* axios calls issued, oldest first *)
    console : list string }.        (* console.error labels *)

Definition Alert_alert (t : string) (m : JS.jsval) (bs : list Button)
  (w : World) : World :=
  {| storage := storage w; route := route w;
     alerts := alerts w ++ [ {| alert_title := t; alert_message := m;
                                alert_buttons := bs |} ];
     requests := requests w; console := console w |}.

Definition axios (r : Request) (w : World) : World :=
  {| storage := storage w; route := route w; alerts := alerts w;
     requests := requests w ++ [r]; console := console w |}.

Definition console_error (label : string) (w : World) : World :=
  {| storage := storage w; route := route w; alerts := alerts w;
     requests := requests w; console := console w ++ [label] |}.

(** The storage answers every call: a read or a write that is rejected is
    not modelled. *)
Definition AsyncStorage_getItem (k : string) (w : World) : option string :=
  storage w !! k.

Definition AsyncStorage_setItem (k v : string) (w : World) : World :=
  {| storage := <[k := v]> (storage w); route := route w;
     alerts := alerts w; requests := requests w; console := console w |}.

Definition AsyncStorage_clear (w : World) : World :=
  {| storage := ∅; route := route w; alerts := alerts w;
     requests := requests w; console := console w |}.

Definition router_replace (r : string) (w : World) : World :=
  {| storage := storage w; route := r; alerts := alerts w;
     requests := requests w; console := console w |}.

(** A handler changes the state of a component and the world.  The
    functions of a component belong to one render: they take the state of
    that render, [r], and read the state cells there, whatever has been set
    since; an event runs them on the state it finds ([fire]).  Each event
    runs to its end, awaited calls included, before the next one. *)
Definition Handler (S : Type) : Type := S -> World -> S * World.

Definition fire {S : Type} (f : S -> Handler S) : Handler S :=
  fun st w => f st st w.

Definition skip {S : Type} : Handler S := fun st w => (st, w).

Definition seq {S : Type} (f g : Handler S) : Handler S :=
  fun st w => let '(st', w') := f st w in g st' w'.

(** A state setter, [setX(v)]. *)
Definition set {S : Type} (f : S -> S) : Handler S := fun st w => (f st, w).

(** An effect on the world alone. *)
Definition effect {S : Type} (f : World -> World) : Handler S :=
  fun st w => (st, f w).

Notation "f >>> g" := (seq f g) (at level 62, right associativity).

(** [await AsyncStorage.getItem(k)], then the rest of the handler. *)
Definition getItem {S : Type} (k : string) (rest : option string -> Handler S)
  : Handler S :=
  fun st w => rest (AsyncStorage_getItem k w) st w.

(** The button with the given text of the dialog raised last, pressed;
    [press] is what the buttons do on the screen. *)
Definition pressButton {S : Type} (press : ButtonAction -> Handler S)
  (text : string) : Handler S :=
  fun st w =>
  match last (alerts w) with
  | Some a =>
      match find (fun b => String.eqb (btn_text b) text) (alert_buttons a)
      with
      | Some b => press (btn_onPress b) st w
      | None => (st, w)
      end
  | None => (st, w)
  end.

(** ** The daily-log screen ([daily-log.tsx]) *)

Module DailyLog.

(** The [useState] cells of [DailyLogScreen]. *)
Record State : Type :=
  { loading : bool;
    breakfastFood : string;
    breakfastPortion : PortionSize;
    breakfastTime : string;
    lunchFood : string;
    lunchPortion : PortionSize;
    lunchVegetables : bool;
    lunchProtein : bool;
    lunchFried : bool;
    lunchDessert : bool;
    dinnerFood : string;
    dinnerPortion : PortionSize;
    dinnerTime : string;
    dinnerAfter9 : bool;
    hadSnacks : bool;
    snacksDetail : string;
    beverages : string;
    waterIntake : WaterIntake }.

Definition initial : State :=
  {| loading := false;
     breakfastFood := ""; breakfastPortion := Medium; breakfastTime := "";
     lunchFood := ""; lunchPortion := Medium; lunchVegetables := false;
     lunchProtein := false; lunchFried := false; lunchDessert := false;
     dinnerFood := ""; dinnerPortion := Medium; dinnerTime := "";
     dinnerAfter9 := false;
     hadSnacks := false; snacksDetail := ""; beverages := "None";
     waterIntake := From1To2L |}.

Definition setLoading (v : bool) (st : State) : State :=
  {| loading := v; breakfastFood := breakfastFood st;
     breakfastPortion := breakfastPortion st;
     breakfastTime := breakfastTime st; lunchFood := lunchFood st;
     lunchPortion := lunchPortion st;
     lunchVegetables := lunchVegetables st;
     lunchProtein := lunchProtein st; lunchFried := lunchFried st;
     lunchDessert := lunchDessert st; dinnerFood := dinnerFood st;
     dinnerPortion := dinnerPortion st; dinnerTime := dinnerTime st;
     dinnerAfter9 := dinnerAfter9 st; hadSnacks := hadSnacks st;
     snacksDetail := snacksDetail st; beverages := beverages st;
     waterIntake := waterIntake st |}.

Definition setBreakfastFood (v : string) (st : State) : State :=
  {| loading := loading st; breakfastFood := v;
     breakfastPortion := breakfastPortion st;
     breakfastTime := breakfastTime st; lunchFood := lunchFood st;
     lunchPortion := lunchPortion st;
     lunchVegetables := lunchVegetables st;
     lunchProtein := lunchProtein st; lunchFried := lunchFried st;
     lunchDessert := lunchDessert st; dinnerFood := dinnerFood st;
     dinnerPortion := dinnerPortion st; dinnerTime := dinnerTime st;
     dinnerAfter9 := dinnerAfter9 st; hadSnacks := hadSnacks st;
     snacksDetail := snacksDetail st; beverages := beverages st;
     waterIntake := waterIntake st |}.

Definition setBreakfastPortion (v : PortionSize) (st : State) : State :=
  {| loading := loading st; breakfastFood := breakfastFood st;
     breakfastPortion := v; breakfastTime := breakfastTime st;
     lunchFood := lunchFood st; lunchPortion := lunchPortion st;
     lunchVegetables := lunchVegetables st;
     lunchProtein := lunchProtein st; lunchFried := lunchFried st;
     lunchDessert := lunchDessert st; dinnerFood := dinnerFood st;
     dinnerPortion := dinnerPortion st; dinnerTime := dinnerTime st;
     dinnerAfter9 := dinnerAfter9 st; hadSnacks := hadSnacks st;
     snacksDetail := snacksDetail st; beverages := beverages st;
     waterIntake := waterIntake st |}.

Definition setBreakfastTime (v : string) (st : State) : State :=
  {| loading := loading st; breakfastFood := breakfastFood st;
     breakfastPortion := breakfastPortion st; breakfastTime := v;
     lunchFood := lunchFood st; lunchPortion := lunchPortion st;
     lunchVegetables := lunchVegetables st;
     lunchProtein := lunchProtein st; lunchFried := lunchFried st;
     lunchDessert := lunchDessert st; dinnerFood := dinnerFood st;
     dinnerPortion := dinnerPortion st; dinnerTime := dinnerTime st;
     dinnerAfter9 := dinnerAfter9 st; hadSnacks := hadSnacks st;
     snacksDetail := snacksDetail st; beverages := beverages st;
     waterIntake := waterIntake st |}.

Definition setLunchFood (v : string) (st : State) : State :=
  {| loading := loading st; breakfastFood := breakfastFood st;
     breakfastPortion := breakfastPortion st;
     breakfastTime := breakfastTime st; lunchFood := v;
     lunchPortion := lunchPortion st;
     lunchVegetables := lunchVegetables st;
     lunchProtein := lunchProtein st; lunchFried := lunchFried st;
     lunchDessert := lunchDessert st; dinnerFood := dinnerFood st;
     dinnerPortion := dinnerPortion st; dinnerTime := dinnerTime st;
     dinnerAfter9 := dinnerAfter9 st; hadSnacks := hadSnacks st;
     snacksDetail := snacksDetail st; beverages := beverages st;
     waterIntake := waterIntake st |}.

Definition setLunchPortion (v : PortionSize) (st : State) : State :=
  {| loading := loading st; breakfastFood := breakfastFood st;
     breakfastPortion := breakfastPortion st;
     breakfastTime := breakfastTime st; lunchFood := lunchFood st;
     lunchPortion := v; lunchVegetables := lunchVegetables st;
     lunchProtein := lunchProtein st; lunchFried := lunchFried st;
     lunchDessert := lunchDessert st; dinnerFood := dinnerFood st;
     dinnerPortion := dinnerPortion st; dinnerTime := dinnerTime st;
     dinnerAfter9 := dinnerAfter9 st; hadSnacks := hadSnacks st;
     snacksDetail := snacksDetail st; beverages := beverages st;
     waterIntake := waterIntake st |}.

Definition setLunchVegetables (v : bool) (st : State) : State :=
  {| loading := loading st; breakfastFood := breakfastFood st;
     breakfastPortion := breakfastPortion st;
     breakfastTime := breakfastTime st; lunchFood := lunchFood st;
     lunchPortion := lunchPortion st; lunchVegetables := v;
     lunchProtein := lunchProtein st; lunchFried := lunchFried st;
     lunchDessert := lunchDessert st; dinnerFood := dinnerFood st;
     dinnerPortion := dinnerPortion st; dinnerTime := dinnerTime st;
     dinnerAfter9 := dinnerAfter9 st; hadSnacks := hadSnacks st;
     snacksDetail := snacksDetail st; beverages := beverages st;
     waterIntake := waterIntake st |}.

Definition setLunchProtein (v : bool) (st : State) : State :=
  {| loading := loading st; breakfastFood := breakfastFood st;
     breakfastPortion := breakfastPortion st;
     breakfastTime := breakfastTime st; lunchFood := lunchFood st;
     lunchPortion := lunchPortion st;
     lunchVegetables := lunchVegetables st; lunchProtein := v;
     lunchFried := lunchFried st; lunchDessert := lunchDessert st;
     dinnerFood := dinnerFood st; dinnerPortion := dinnerPortion st;
     dinnerTime := dinnerTime st; dinnerAfter9 := dinnerAfter9 st;
     hadSnacks := hadSnacks st; snacksDetail := snacksDetail st;
     beverages := beverages st; waterIntake := waterIntake st |}.

Definition setLunchFried (v : bool) (st : State) : State :=
  {| loading := loading st; breakfastFood := breakfastFood st;
     breakfastPortion := breakfastPortion st;
     breakfastTime := breakfastTime st; lunchFood := lunchFood st;
     lunchPortion := lunchPortion st;
     lunchVegetables := lunchVegetables st;
     lunchProtein := lunchProtein st; lunchFried := v;
     lunchDessert := lunchDessert st; dinnerFood := dinnerFood st;
     dinnerPortion := dinnerPortion st; dinnerTime := dinnerTime st;
     dinnerAfter9 := dinnerAfter9 st; hadSnacks := hadSnacks st;
     snacksDetail := snacksDetail st; beverages := beverages st;
     waterIntake := waterIntake st |}.

Definition setLunchDessert (v : bool) (st : State) : State :=
  {| loading := loading st; breakfastFood := breakfastFood st;
     breakfastPortion := breakfastPortion st;
     breakfastTime := breakfastTime st; lunchFood := lunchFood st;
     lunchPortion := lunchPortion st;
     lunchVegetables := lunchVegetables st;
     lunchProtein := lunchProtein st; lunchFried := lunchFried st;
     lunchDessert := v; dinnerFood := dinnerFood st;
     dinnerPortion := dinnerPortion st; dinnerTime := dinnerTime st;
     dinnerAfter9 := dinnerAfter9 st; hadSnacks := hadSnacks st;
     snacksDetail := snacksDetail st; beverages := beverages st;
     waterIntake := waterIntake st |}.

Definition setDinnerFood (v : string) (st : State) : State :=
  {| loading := loading st; breakfastFood := breakfastFood st;
     breakfastPortion := breakfastPortion st;
     breakfastTime := breakfastTime st; lunchFood := lunchFood st;
     lunchPortion := lunchPortion st;
     lunchVegetables := lunchVegetables st;
     lunchProtein := lunchProtein st; lunchFried := lunchFried st;
     lunchDessert := lunchDessert st; dinnerFood := v;
     dinnerPortion := dinnerPortion st; dinnerTime := dinnerTime st;
     dinnerAfter9 := dinnerAfter9 st; hadSnacks := hadSnacks st;
     snacksDetail := snacksDetail st; beverages := beverages st;
     waterIntake := waterIntake st |}.

Definition setDinnerPortion (v : PortionSize) (st : State) : State :=
  {| loading := loading st; breakfastFood := breakfastFood st;
     breakfastPortion := breakfastPortion st;
     breakfastTime := breakfastTime st; lunchFood := lunchFood st;
     lunchPortion := lunchPortion st;
     lunchVegetables := lunchVegetables st;
     lunchProtein := lunchProtein st; lunchFried := lunchFried st;
     lunchDessert := lunchDessert st; dinnerFood := dinnerFood st;
     dinnerPortion := v; dinnerTime := dinnerTime st;
     dinnerAfter9 := dinnerAfter9 st; hadSnacks := hadSnacks st;
     snacksDetail := snacksDetail st; beverages := beverages st;
     waterIntake := waterIntake st |}.

Definition setDinnerTime (v : string) (st : State) : State :=
  {| loading := loading st; breakfastFood := breakfastFood st;
     breakfastPortion := breakfastPortion st;
     breakfastTime := breakfastTime st; lunchFood := lunchFood st;
     lunchPortion := lunchPortion st;
     lunchVegetables := lunchVegetables st;
     lunchProtein := lunchProtein st; lunchFried := lunchFried st;
     lunchDessert := lunchDessert st; dinnerFood := dinnerFood st;
     dinnerPortion := dinnerPortion st; dinnerTime := v;
     dinnerAfter9 := dinnerAfter9 st; hadSnacks := hadSnacks st;
     snacksDetail := snacksDetail st; beverages := beverages st;
     waterIntake := waterIntake st |}.

Definition setDinnerAfter9 (v : bool) (st : State) : State :=
  {| loading := loading st; breakfastFood := breakfastFood st;
     breakfastPortion := breakfastPortion st;
     breakfastTime := breakfastTime st; lunchFood := lunchFood st;
     lunchPortion := lunchPortion st;
     lunchVegetables := lunchVegetables st;
     lunchProtein := lunchProtein st; lunchFried := lunchFried st;
     lunchDessert := lunchDessert st; dinnerFood := dinnerFood st;
     dinnerPortion := dinnerPortion st; dinnerTime := dinnerTime st;
     dinnerAfter9 := v; hadSnacks := hadSnacks st;
     snacksDetail := snacksDetail st; beverages := beverages st;
     waterIntake := waterIntake st |}.

Definition setHadSnacks (v : bool) (st : State) : State :=
  {| loading := loading st; breakfastFood := breakfastFood st;
     breakfastPortion := breakfastPortion st;
     breakfastTime := breakfastTime st; lunchFood := lunchFood st;
     lunchPortion := lunchPortion st;
     lunchVegetables := lunchVegetables st;
     lunchProtein := lunchProtein st; lunchFried := lunchFried st;
     lunchDessert := lunchDessert st; dinnerFood := dinnerFood st;
     dinnerPortion := dinnerPortion st; dinnerTime := dinnerTime st;
     dinnerAfter9 := dinnerAfter9 st; hadSnacks := v;
     snacksDetail := snacksDetail st; beverages := beverages st;
     waterIntake := waterIntake st |}.

Definition setSnacksDetail (v : string) (st : State) : State :=
  {| loading := loading st; breakfastFood := breakfastFood st;
     breakfastPortion := breakfastPortion st;
     breakfastTime := breakfastTime st; lunchFood := lunchFood st;
     lunchPortion := lunchPortion st;
     lunchVegetables := lunchVegetables st;
     lunchProtein := lunchProtein st; lunchFried := lunchFried st;
     lunchDessert := lunchDessert st; dinnerFood := dinnerFood st;
     dinnerPortion := dinnerPortion st; dinnerTime := dinnerTime st;
     dinnerAfter9 := dinnerAfter9 st; hadSnacks := hadSnacks st;
     snacksDetail := v; beverages := beverages st;
     waterIntake := waterIntake st |}.

Definition setBeverages (v : string) (st : State) : State :=
  {| loading := loading st; breakfastFood := breakfastFood st;
     breakfastPortion := breakfastPortion st;
     breakfastTime := breakfastTime st; lunchFood := lunchFood st;
     lunchPortion := lunchPortion st;
     lunchVegetables := lunchVegetables st;
     lunchProtein := lunchProtein st; lunchFried := lunchFried st;
     lunchDessert := lunchDessert st; dinnerFood := dinnerFood st;
     dinnerPortion := dinnerPortion st; dinnerTime := dinnerTime st;
     dinnerAfter9 := dinnerAfter9 st; hadSnacks := hadSnacks st;
     snacksDetail := snacksDetail st; beverages := v;
     waterIntake := waterIntake st |}.

Definition setWaterIntake (v : WaterIntake) (st : State) : State :=
  {| loading := loading st; breakfastFood := breakfastFood st;
     breakfastPortion := breakfastPortion st;
     breakfastTime := breakfastTime st; lunchFood := lunchFood st;
     lunchPortion := lunchPortion st;
     lunchVegetables := lunchVegetables st;
     lunchProtein := lunchProtein st; lunchFried := lunchFried st;
     lunchDessert := lunchDessert st; dinnerFood := dinnerFood st;
     dinnerPortion := dinnerPortion st; dinnerTime := dinnerTime st;
     dinnerAfter9 := dinnerAfter9 st; hadSnacks := hadSnacks st;
     snacksDetail := snacksDetail st; beverages := beverages st;
     waterIntake := v |}.

(** The [onPress] of the OK button of the success dialog. *)
Definition resetForm : Handler State :=
  set (setBreakfastFood "") >>>
  set (setLunchFood "") >>>
  set (setDinnerFood "") >>>
  set (setBreakfastTime "") >>>
  set (setDinnerTime "") >>>
  set (setSnacksDetail "") >>>
  set (setHadSnacks false) >>>
  set (setLunchVegetables false) >>>
  set (setLunchProtein false) >>>
  set (setLunchFried false) >>>
  set (setLunchDessert false) >>>
  set (setDinnerAfter9 false).

Definition logData (st : State) (userId today : string) : LogData :=
  {| log_user_id := userId;
     log_date := today;
     log_breakfast :=
       {| bk_food := breakfastFood st; bk_portion := breakfastPortion st;
          bk_time := breakfastTime st |};
     log_lunch :=
       {| ln_food := lunchFood st; ln_portion := lunchPortion st;
          ln_vegetables := lunchVegetables st; ln_protein := lunchProtein st;
          ln_fried := lunchFried st; ln_dessert := lunchDessert st |};
     log_dinner :=
       {| dn_food := dinnerFood st; dn_portion := dinnerPortion st;
          dn_time := dinnerTime st; dn_after_9pm := dinnerAfter9 st |};
     log_snacks :=
       {| sn_had_snacks := hadSnacks st; sn_details := snacksDetail st;
          sn_beverages := beverages st |};
     log_water_intake := waterIntake st |}.

(** [handleSubmit].  [today] is [format(new Date(), 'yyyy-MM-dd')] and
    [reply] is what the awaited POST does, when it is issued. *)
Definition handleSubmit (r : State) (today : string) (reply : Reply unit)
  : Handler State :=
  if negb (JS.str_truthy (breakfastFood r))
     || negb (JS.str_truthy (lunchFood r))
     || negb (JS.str_truthy (dinnerFood r))
  then
    effect (Alert_alert "Incomplete"
              (JS.VStr "Please fill in all meal details") [])
  else
    set (setLoading true) >>>
    (* try *)
    getItem "user_id" (fun userId =>
      if negb (JS.opt_truthy userId) then
        effect (Alert_alert "Error"
                  (JS.VStr "User not found. Please login again.") [])
      else
        effect (axios (PostDailyLogs (logData r (default "" userId) today)))
        >>>
        match reply with
        | Resolved _ =>
            effect (Alert_alert "Success"
                      (JS.VStr "Daily log saved successfully!")
                      [ {| btn_text := "OK"; btn_onPress := ResetForm |} ])
        | Rejected error =>
            (* catch *)
            effect (console_error "Submit error:") >>>
            effect (Alert_alert "Error"
                      (JS.or (error_detail error)
                             (JS.VStr "Failed to save log")) [])
        end) >>>
    (* finally *)
    set (setLoading false).

(** Pressing the submit button. *)
Definition onSubmit (today : string) (reply : Reply unit) : Handler State :=
  fire (fun r => handleSubmit r today reply).

(** What a dialog button does on this screen. *)
Definition press (a : ButtonAction) : Handler State :=
  match a with
  | ResetForm => resetForm
  | _ => skip
  end.

(** Pressing a button of the dialog on top. *)
Definition onPress (text : string) : Handler State := pressButton press text.

End DailyLog.

(** ** The reports screen ([ReportsScreen]) *)

Module Reports.

Record State : Type :=
  { userId : string;
    reports : list Report;
    loading : bool;
    uploading : bool;
    analyzing : bool;
    hfApiKey : string;
    showApiKeyInput : bool;
    selectedFile : option PickedFile;
    selectedReportForAnalysis : option string }.

Definition initial : State :=
  {| userId := ""; reports := []; loading := false; uploading := false;
     analyzing := false; hfApiKey := ""; showApiKeyInput := false;
     selectedFile := None; selectedReportForAnalysis := None |}.

Definition setUserId (v : string) (st : State) : State :=
  {| userId := v; reports := reports st; loading := loading st;
     uploading := uploading st; analyzing := analyzing st;
     hfApiKey := hfApiKey st; showApiKeyInput := showApiKeyInput st;
     selectedFile := selectedFile st;
     selectedReportForAnalysis := selectedReportForAnalysis st |}.

Definition setReports (v : list Report) (st : State) : State :=
  {| userId := userId st; reports := v; loading := loading st;
     uploading := uploading st; analyzing := analyzing st;
     hfApiKey := hfApiKey st; showApiKeyInput := showApiKeyInput st;
     selectedFile := selectedFile st;
     selectedReportForAnalysis := selectedReportForAnalysis st |}.

Definition setLoading (v : bool) (st : State) : State :=
  {| userId := userId st; reports := reports st; loading := v;
     uploading := uploading st; analyzing := analyzing st;
     hfApiKey := hfApiKey st; showApiKeyInput := showApiKeyInput st;
     selectedFile := selectedFile st;
     selectedReportForAnalysis := selectedReportForAnalysis st |}.

Definition setUploading (v : bool) (st : State) : State :=
  {| userId := userId st; reports := reports st; loading := loading st;
     uploading := v; analyzing := analyzing st; hfApiKey := hfApiKey st;
     showApiKeyInput := showApiKeyInput st;
     selectedFile := selectedFile st;
     selectedReportForAnalysis := selectedReportForAnalysis st |}.

Definition setAnalyzing (v : bool) (st : State) : State :=
  {| userId := userId st; reports := reports st; loading := loading st;
     uploading := uploading st; analyzing := v; hfApiKey := hfApiKey st;
     showApiKeyInput := showApiKeyInput st;
     selectedFile := selectedFile st;
     selectedReportForAnalysis := selectedReportForAnalysis st |}.

Definition setHfApiKey (v : string) (st : State) : State :=
  {| userId := userId st; reports := reports st; loading := loading st;
     uploading := uploading st; analyzing := analyzing st; hfApiKey := v;
     showApiKeyInput := showApiKeyInput st;
     selectedFile := selectedFile st;
     selectedReportForAnalysis := selectedReportForAnalysis st |}.

Definition setShowApiKeyInput (v : bool) (st : State) : State :=
  {| userId := userId st; reports := reports st; loading := loading st;
     uploading := uploading st; analyzing := analyzing st;
     hfApiKey := hfApiKey st; showApiKeyInput := v;
     selectedFile := selectedFile st;
     selectedReportForAnalysis := selectedReportForAnalysis st |}.

Definition setSelectedFile (v : option PickedFile) (st : State) : State :=
  {| userId := userId st; reports := reports st; loading := loading st;
     uploading := uploading st; analyzing := analyzing st;
     hfApiKey := hfApiKey st; showApiKeyInput := showApiKeyInput st;
     selectedFile := v;
     selectedReportForAnalysis := selectedReportForAnalysis st |}.

Definition setSelectedReportForAnalysis (v : option string) (st : State)
  : State :=
  {| userId := userId st; reports := reports st; loading := loading st;
     uploading := uploading st; analyzing := analyzing st;
     hfApiKey := hfApiKey st; showApiKeyInput := showApiKeyInput st;
     selectedFile := selectedFile st; selectedReportForAnalysis := v |}.

(** [loadReports]; [reply] is what the awaited GET does. *)
Definition loadReports (reply : Reply (list Report)) : Handler State :=
  getItem "user_id" (fun id =>
    if JS.opt_truthy id then
      set (setUserId (default "" id)) >>>
      set (setLoading true) >>>
      effect (axios (GetHealthReports (default "" id))) >>>
      match reply with
      | Resolved data => set (setReports data)
      | Rejected _ => effect (console_error "Error loading reports:")
      end >>>
      set (setLoading false)
    else skip).

(** [pickDocument]; [result] is the first asset of the picker's result,
    [None] when it was cancelled or has no asset. *)
Definition pickDocument (result : Reply (option PickedFile))
  : Handler State :=
  match result with
  | Resolved (Some asset) =>
      set (setSelectedFile (Some asset)) >>>
      effect (Alert_alert "File Selected"
                (JS.VStr ("Selected: " +:+ file_name asset)) [])
  | Resolved None => skip
  | Rejected _ =>
      effect (console_error "Error picking document:") >>>
      effect (Alert_alert "Error" (JS.VStr "Failed to pick document") [])
  end.

(** The [catch] of [uploadReport]. *)
Definition uploadFailed (error : JsError) : Handler State :=
  effect (console_error "Upload error:") >>>
  effect (Alert_alert "Error"
            (JS.or (error_detail error) (JS.VStr "Failed to upload report"))
            []).

(** [uploadReport]; [fileRead] is what reading the file as base64 does,
    [reply] what the POST does and [listReply] what the GET of the refresh
    does. *)
Definition uploadReport (r : State) (fileRead : Reply string)
  (reply : Reply unit) (listReply : Reply (list Report)) : Handler State :=
  match selectedFile r with
  | None =>
      effect (Alert_alert "No File"
                (JS.VStr "Please select a PDF file first") [])
  | Some file =>
      set (setUploading true) >>>
      (* try *)
      match fileRead with
      | Rejected error => uploadFailed error
      | Resolved base64 =>
          effect (axios (PostUpload (userId r)
                           {| part_uri := file_uri file;
                              part_type := "application/pdf";
                              part_name := file_name file |})) >>>
          match reply with
          | Rejected error => uploadFailed error
          | Resolved _ =>
              effect (Alert_alert "Success"
                        (JS.VStr "Report uploaded successfully!") []) >>>
              set (setSelectedFile None) >>>
              loadReports listReply
          end
      end >>>
      (* finally *)
      set (setUploading false)
  end.

(** [analyzeReport(reportId)] *)
Definition analyzeReport (r : State) (reportId : string)
  (reply : Reply unit) (listReply : Reply (list Report)) : Handler State :=
  if negb (JS.str_truthy (hfApiKey r)) then
    set (setSelectedReportForAnalysis (Some reportId)) >>>
    set (setShowApiKeyInput true)
  else
    set (setAnalyzing true) >>>
    (* try *)
    effect (axios (PostAnalyze reportId (hfApiKey r))) >>>
    match reply with
    | Resolved _ =>
        effect (Alert_alert "Success"
                  (JS.VStr "Report analyzed successfully!") []) >>>
        loadReports listReply
    | Rejected error =>
        effect (console_error "Analysis error:") >>>
        effect (Alert_alert "Error"
                  (JS.or (error_detail error)
                         (JS.VStr "Failed to analyze report")) [])
    end >>>
    (* finally *)
    set (setAnalyzing false).

(** [submitApiKeyAndAnalyze] *)
Definition submitApiKeyAndAnalyze (r : State) (reply : Reply unit)
  (listReply : Reply (list Report)) : Handler State :=
  if negb (JS.str_truthy (JS.trim (hfApiKey r))) then
    effect (Alert_alert "Error"
              (JS.VStr "Please enter your Hugging Face API key") [])
  else if JS.opt_truthy (selectedReportForAnalysis r) then
    set (setShowApiKeyInput false) >>>
    analyzeReport r (default "" (selectedReportForAnalysis r))
      reply listReply >>>
    set (setSelectedReportForAnalysis None)
  else skip.

(** What the user and the component life cycle can do on this screen. *)
Inductive Event : Type :=
  | Mount (listReply : Reply (list Report))
  | PressSelect (result : Reply (option PickedFile))
  | PressClearFile
  | PressUpload (fileRead : Reply string) (reply : Reply unit)
      (listReply : Reply (list Report))
  | ChangeApiKey (text : string)
  | PressCancel
  | PressConfirm (reply : Reply unit) (listReply : Reply (list Report))
  | PressAnalyze (reportId : string) (reply : Reply unit)
      (listReply : Reply (list Report)).

Definition step (e : Event) : Handler State :=
  match e with
  | Mount listReply => loadReports listReply
  | PressSelect result => pickDocument result
  | PressClearFile => set (setSelectedFile None)
  | PressUpload fileRead reply listReply =>
      fire (fun r => uploadReport r fileRead reply listReply)
  | ChangeApiKey text => set (setHfApiKey text)
  | PressCancel =>
      set (setShowApiKeyInput false) >>>
      set (setSelectedReportForAnalysis None)
  | PressConfirm reply listReply =>
      fire (fun r => submitApiKeyAndAnalyze r reply listReply)
  | PressAnalyze reportId reply listReply =>
      fire (fun r => analyzeReport r reportId reply listReply)
  end.

Fixpoint run (es : list Event) : Handler State :=
  match es with
  | [] => skip
  | e :: es' => step e >>> run es'
  end.

End Reports.

(** ** The workout screen ([workout.tsx], [WorkoutScreen]) *)

Module Workout.

Record State : Type :=
  { loading : bool;
    generating : bool;
    workoutPlans : list WorkoutPlan;
    hfApiKey : string;
    showApiKeyInput : bool }.

Definition initial : State :=
  {| loading := false; generating := false; workoutPlans := [];
     hfApiKey := ""; showApiKeyInput := false |}.

Definition setLoading (v : bool) (st : State) : State :=
  {| loading := v; generating := generating st;
     workoutPlans := workoutPlans st; hfApiKey := hfApiKey st;
     showApiKeyInput := showApiKeyInput st |}.

Definition setGenerating (v : bool) (st : State) : State :=
  {| loading := loading st; generating := v;
     workoutPlans := workoutPlans st; hfApiKey := hfApiKey st;
     showApiKeyInput := showApiKeyInput st |}.

Definition setWorkoutPlans (v : list WorkoutPlan) (st : State) : State :=
  {| loading := loading st; generating := generating st; workoutPlans := v;
     hfApiKey := hfApiKey st; showApiKeyInput := showApiKeyInput st |}.

Definition setHfApiKey (v : string) (st : State) : State :=
  {| loading := loading st; generating := generating st;
     workoutPlans := workoutPlans st; hfApiKey := v;
     showApiKeyInput := showApiKeyInput st |}.

Definition setShowApiKeyInput (v : bool) (st : State) : State :=
  {| loading := loading st; generating := generating st;
     workoutPlans := workoutPlans st; hfApiKey := hfApiKey st;
     showApiKeyInput := v |}.

(** [loadWorkoutPlans] *)
Definition loadWorkoutPlans (reply : Reply (list WorkoutPlan))
  : Handler State :=
  getItem "user_id" (fun userId =>
    if JS.opt_truthy userId then
      set (setLoading true) >>>
      effect (axios (GetWorkoutPlans (default "" userId))) >>>
      match reply with
      | Resolved data => set (setWorkoutPlans data)
      | Rejected _ => effect (console_error "Error loading plans:")
      end >>>
      set (setLoading false)
    else skip).

(** [generateWorkoutPlan] *)
Definition generateWorkoutPlan (r : State) (reply : Reply unit)
  (listReply : Reply (list WorkoutPlan)) : Handler State :=
  if negb (JS.str_truthy (hfApiKey r)) then
    set (setShowApiKeyInput true)
  else
    getItem "user_id" (fun userId =>
      if negb (JS.opt_truthy userId) then
        effect (Alert_alert "Error" (JS.VStr "User not found") [])
      else
        set (setGenerating true) >>>
        (* try *)
        effect (axios (PostGenerate (default "" userId) (hfApiKey r))) >>>
        match reply with
        | Resolved _ =>
            effect (Alert_alert "Success"
                      (JS.VStr "New workout plan generated!") []) >>>
            loadWorkoutPlans listReply
        | Rejected error =>
            effect (console_error "Generation error:") >>>
            effect (Alert_alert "Error"
                      (JS.or (error_detail error)
                             (JS.VStr "Failed to generate plan")) [])
        end >>>
        (* finally *)
        set (setGenerating false)).

(** [submitApiKeyAndGenerate] *)
Definition submitApiKeyAndGenerate (r : State) (reply : Reply unit)
  (listReply : Reply (list WorkoutPlan)) : Handler State :=
  if negb (JS.str_truthy (JS.trim (hfApiKey r))) then
    effect (Alert_alert "Error"
              (JS.VStr "Please enter your Hugging Face API key") [])
  else
    set (setShowApiKeyInput false) >>>
    generateWorkoutPlan r reply listReply.

Inductive Event : Type :=
  | Mount (listReply : Reply (list WorkoutPlan))
  | PressGenerate (reply : Reply unit) (listReply : Reply (list WorkoutPlan))
  | ChangeApiKey (text : string)
  | PressCancel
  | PressConfirm (reply : Reply unit) (listReply : Reply (list WorkoutPlan)).

Definition step (e : Event) : Handler State :=
  match e with
  | Mount listReply => loadWorkoutPlans listReply
  | PressGenerate reply listReply =>
      fire (fun r => generateWorkoutPlan r reply listReply)
  | ChangeApiKey text => set (setHfApiKey text)
  | PressCancel => set (setShowApiKeyInput false)
  | PressConfirm reply listReply =>
      fire (fun r => submitApiKeyAndGenerate r reply listReply)
  end.

Fixpoint run (es : list Event) : Handler State :=
  match es with
  | [] => skip
  | e :: es' => step e >>> run es'
  end.

End Workout.

(** ** The registration screen ([RegisterScreen]) *)

Module Register.

Record State : Type :=
  { name : string;
    email : string;
    age : string;
    gender : string;
    height : string;
    weight : string;
    loading : bool }.

Definition initial : State :=
  {| name := ""; email := ""; age := ""; gender := "Male"; height := "";
     weight := ""; loading := false |}.

Definition setName (v : string) (st : State) : State :=
  {| name := v; email := email st; age := age st; gender := gender st;
     height := height st; weight := weight st; loading := loading st |}.

Definition setEmail (v : string) (st : State) : State :=
  {| name := name st; email := v; age := age st; gender := gender st;
     height := height st; weight := weight st; loading := loading st |}.

Definition setAge (v : string) (st : State) : State :=
  {| name := name st; email := email st; age := v; gender := gender st;
     height := height st; weight := weight st; loading := loading st |}.

Definition setGender (v : string) (st : State) : State :=
  {| name := name st; email := email st; age := age st; gender := v;
     height := height st; weight := weight st; loading := loading st |}.

Definition setHeight (v : string) (st : State) : State :=
  {| name := name st; email := email st; age := age st;
     gender := gender st; height := v; weight := weight st;
     loading := loading st |}.

Definition setWeight (v : string) (st : State) : State :=
  {| name := name st; email := email st; age := age st;
     gender := gender st; height := height st; weight := v;
     loading := loading st |}.

Definition setLoading (v : bool) (st : State) : State :=
  {| name := name st; email := email st; age := age st;
     gender := gender st; height := height st; weight := weight st;
     loading := v |}.

(** The object passed to [axios.post]. *)
Definition body (r : State) : RegisterBody :=
  {| rb_name := name r;
     rb_email := email r;
     rb_age := JS.parseInt (age r);
     rb_gender := gender r;
     rb_height := JS.parseFloat (height r);
     rb_weight :=
       if JS.str_truthy (weight r) then Some (JS.parseFloat (weight r))
       else None |}.

(** [handleRegister]; [reply] is what the awaited POST does, with
    [response.data] when it resolves ([None] when it is empty). *)
Definition handleRegister (r : State) (reply : Reply (option Registered))
  : Handler State :=
  if negb (JS.str_truthy (name r)) || negb (JS.str_truthy (email r))
     || negb (JS.str_truthy (age r)) || negb (JS.str_truthy (height r))
  then
    effect (Alert_alert "Error"
              (JS.VStr "Please fill in all required fields") [])
  else
    set (setLoading true) >>>
    (* try *)
    effect (axios (PostUsers (body r))) >>>
    match reply with
    | Resolved (Some data) =>
        effect (AsyncStorage_setItem "user_id" (reg_user_id data)) >>>
        effect (AsyncStorage_setItem "user_name" (reg_name data)) >>>
        effect (Alert_alert "Success"
                  (JS.VStr "Registration successful!") []) >>>
        effect (router_replace "/(tabs)/home")
    | Resolved None => skip
    | Rejected error =>
        effect (console_error "Registration error:") >>>
        effect (Alert_alert "Error"
                  (JS.or (error_detail error)
                         (JS.VStr "Registration failed")) [])
    end >>>
    (* finally *)
    set (setLoading false).

(** Pressing the register button. *)
Definition onRegister (reply : Reply (option Registered)) : Handler State :=
  fire (fun r => handleRegister r reply).

(** [checkExistingUser], run when the screen mounts. *)
Definition checkExistingUser : Handler State :=
  getItem "user_id" (fun userId =>
    if JS.opt_truthy userId then effect (router_replace "/(tabs)/home")
    else skip).

End Register.

(** ** The home screen ([home.tsx]) *)

Module Home.

Record State : Type :=
  { userName : string;
    userId : string;
    latestReport : option Report;
    recentLogs : list LogData;
    refreshing : bool }.

Definition initial : State :=
  {| userName := ""; userId := ""; latestReport := None; recentLogs := [];
     refreshing := false |}.

Definition setUserName (v : string) (st : State) : State :=
  {| userName := v; userId := userId st; latestReport := latestReport st;
     recentLogs := recentLogs st; refreshing := refreshing st |}.

Definition setUserId (v : string) (st : State) : State :=
  {| userName := userName st; userId := v; latestReport := latestReport st;
     recentLogs := recentLogs st; refreshing := refreshing st |}.

Definition setLatestReport (v : option Report) (st : State) : State :=
  {| userName := userName st; userId := userId st; latestReport := v;
     recentLogs := recentLogs st; refreshing := refreshing st |}.

Definition setRecentLogs (v : list LogData) (st : State) : State :=
  {| userName := userName st; userId := userId st;
     latestReport := latestReport st; recentLogs := v;
     refreshing := refreshing st |}.


(** [loadDashboardData(id)] *)
Definition loadDashboardData (id : string)
  (reportsRes : Reply (list Report)) (logsRes : Reply (list LogData))
  : Handler State :=
  (* try *)
  effect (axios (GetHealthReports id)) >>>
  match reportsRes with
  | Rejected _ => effect (console_error "Error loading dashboard:")
  | Resolved data =>
      match data with
      | first :: _ => set (setLatestReport (Some first))
      | [] => skip
      end >>>
      effect (axios (GetDailyLogs id 3)) >>>
      match logsRes with
      | Rejected _ => effect (console_error "Error loading dashboard:")
      | Resolved logs => set (setRecentLogs logs)
      end
  end.

(** [loadUserData] *)
Definition loadUserData (reportsRes : Reply (list Report))
  (logsRes : Reply (list LogData)) : Handler State :=
  getItem "user_name" (fun name =>
  getItem "user_id" (fun id =>
    (if JS.opt_truthy name then set (setUserName (default "" name))
     else skip) >>>
    (if JS.opt_truthy id then
       set (setUserId (default "" id)) >>>
       loadDashboardData (default "" id) reportsRes logsRes
     else skip))).


End Home.

(** ** The profile screen ([profile.tsx]) *)

Module Profile.

Record State : Type := { user : option User }.

Definition initial : State := {| user := None |}.

Definition setUser (v : option User) (st : State) : State := {| user := v |}.

(** [loadUserProfile] *)
Definition loadUserProfile (reply : Reply User) : Handler State :=
  getItem "user_id" (fun userId =>
    if JS.opt_truthy userId then
      (* try *)
      effect (axios (GetUser (default "" userId))) >>>
      match reply with
      | Resolved data => set (setUser (Some data))
      | Rejected _ => effect (console_error "Error loading profile:")
      end
    else skip).

(** [handleLogout]: the dialog, whose Logout button clears the storage. *)
Definition handleLogout : Handler State :=
  effect (Alert_alert "Logout" (JS.VStr "Are you sure you want to logout?")
            [ {| btn_text := "Cancel"; btn_onPress := NoAction |};
              {| btn_text := "Logout"; btn_onPress := ClearAndLeave |} ]).

(** What a dialog button does on this screen. *)
Definition press (a : ButtonAction) : Handler State :=
  match a with
  | ClearAndLeave =>
      effect AsyncStorage_clear >>>
      effect (router_replace "/")
  | _ => skip
  end.

(** Pressing a button of the dialog on top. *)
Definition onPress (text : string) : Handler State := pressButton press text.

(** A number where an arithmetic operator wants one ([ToNumber]). *)
Definition ToNumber (f : NumField) : float :=
  match f with
  | Absent => nan
  | Null => 0%float
  | Num x => x
  end.

(** [const bmi = user.weight && user.height ? (...).toFixed(1) : null] *)
Definition bmi (user : User) : option string :=
  if JS.truthy (JS.and (NumField_value (user_weight user))
                       (NumField_value (user_height user)))
  then
    Some (JS.toFixed 1
            (ToNumber (user_weight user)
             / JS.square (ToNumber (user_height user) / 100))%float)
  else None.

(** A child of the info card: a row, or the falsy value that [cond && row]
    leaves in its place.  The content of a row is the list of its text
    children, numbers not yet printed. *)
Inductive Child : Type :=
  | InfoRow (label : string) (content : list JS.jsval)
  | Leftover (v : JS.jsval).

(** [{user.weight && (...)}] *)
Definition weightRow (user : User) : Child :=
  let weight := NumField_value (user_weight user) in
  if JS.truthy weight then InfoRow "Weight" [weight; JS.VStr " kg"]
  else Leftover weight.

(** [{bmi && (...)}] *)
Definition bmiRow (user : User) : Child :=
  match bmi user with
  | Some s =>
      if JS.str_truthy s then InfoRow "BMI" [JS.VStr s]
      else Leftover (JS.VStr s)
  | None => Leftover JS.VNull
  end.

(** The rows of the card once a user is loaded. *)
Definition infoCard (user : User) : list Child :=
  [ InfoRow "Age" [JS.VNum (user_age user); JS.VStr " years"];
    InfoRow "Gender" [JS.VStr (user_gender user)];
    InfoRow "Height" [NumField_value (user_height user); JS.VStr " cm"];
    weightRow user;
    bmiRow user ].

End Profile.

(** ** Sample inputs *)

Module Samples.

(** A device on which a user is registered; a third key stands for
    whatever else the device keeps in the same storage. *)
Definition registered : World :=
  {| storage :=
       <["user_id" := "u-1"]> (<["user_name" := "Asha"]>
         (<["theme" := "dark"]> ∅));
     route := "/(tabs)/home"; alerts := []; requests := []; console := [] |}.

(** A device on which nobody is registered. *)
Definition fresh : World :=
  {| storage := ∅; route := "/(tabs)/home"; alerts := []; requests := [];
     console := [] |}.

(** A daily log with the three meals filled in and three selectors moved
    away from their defaults. *)
Definition filledLog : DailyLog.State :=
  DailyLog.setBreakfastFood "2 idli + 1 cup sambar"
    (DailyLog.setLunchFood "rice and dal"
      (DailyLog.setDinnerFood "2 chapati"
        (DailyLog.setBreakfastPortion Large
          (DailyLog.setLunchVegetables true
            (DailyLog.setBeverages "1 cup"
              (DailyLog.setWaterIntake From2To3L DailyLog.initial)))))).

(** A registration form, complete but for the name, with an age that is
    not a number. *)
Definition namelessForm : Register.State :=
  Register.setEmail "asha@example.org"
    (Register.setAge "abc" (Register.setHeight "170" Register.initial)).

(** The same form with a name. *)
Definition namedForm : Register.State :=
  Register.setName "Asha" namelessForm.

(** A server error whose body has an empty [detail]. *)
Definition emptyDetail : JsError :=
  {| err_response :=
       Some {| resp_data := Some {| body_detail := JS.VStr "" |} |} |}.

(** A server error whose body has a [detail] message. *)
Definition withDetail : JsError :=
  {| err_response :=
       Some {| resp_data :=
                 Some {| body_detail := JS.VStr "Email already registered" |}
            |} |}.

(** A failure with no response at all. *)
Definition networkDown : JsError := {| err_response := None |}.

Definition somePdf : PickedFile :=
  {| file_uri := "file:///cache/report.pdf"; file_name := "report.pdf";
     file_size := 20480%float |}.

(** A fetched user of the given height and weight. *)
Definition user (h w : NumField) : User :=
  {| user_name := "Asha"; user_email := "asha@example.org";
     user_age := 30%float; user_gender := "Female";
     user_height := h; user_weight := w |}.

(** The double nearest to [1e-200]: a height that is not zero, but whose
    square is below the smallest double. *)
Definition tinyHeight : float := 0x1.87e92154ef7acp-665%float.

(** The reports screen with a file selected, and with a key typed. *)
Definition fileSelected : Reports.State :=
  Reports.setSelectedFile (Some somePdf) Reports.initial.

Definition keyTyped : Reports.State :=
  Reports.setHfApiKey "hf_secret" Reports.initial.

(** The workout screen with a key typed. *)
Definition workoutKeyTyped : Workout.State :=
  Workout.setHfApiKey "hf_secret" Workout.initial.

(** A session on the reports screen: the list loads, the user asks for an
    analysis, is prompted, types a key and confirms. *)
Definition analysisSession : list Reports.Event :=
  [ Reports.Mount (Resolved []);
    Reports.PressAnalyze "rep-1" (Resolved tt) (Resolved []);
    Reports.ChangeApiKey "hf_secret";
    Reports.PressConfirm (Resolved tt) (Resolved []) ].


(** On a device where nobody is registered: the reports screen opens, the
    user selects a file and uploads it. *)
Definition anonymousUpload : list Reports.Event :=
  [ Reports.Mount (Resolved []);
    Reports.PressSelect (Resolved (Some somePdf));
    Reports.PressUpload (Resolved "JVBERi0xLjQK") (Resolved tt)
      (Resolved []) ].

End Samples.

(** ** Dialogs the handlers raise *)

Definition incompleteDialog : Alert :=
  {| alert_title := "Incomplete";
     alert_message := JS.VStr "Please fill in all meal details";
     alert_buttons := [] |}.

Definition requiredFieldsDialog : Alert :=
  {| alert_title := "Error";
     alert_message := JS.VStr "Please fill in all required fields";
     alert_buttons := [] |}.

Definition logoutDialog : Alert :=
  {| alert_title := "Logout";
     alert_message := JS.VStr "Are you sure you want to logout?";
     alert_buttons :=
       [ {| btn_text := "Cancel"; btn_onPress := NoAction |};
         {| btn_text := "Logout"; btn_onPress := ClearAndLeave |} ] |}.

Definition savedDialog : Alert :=
  {| alert_title := "Success";
     alert_message := JS.VStr "Daily log saved successfully!";
     alert_buttons := [ {| btn_text := "OK"; btn_onPress := ResetForm |} ] |}.

(** The dialog of a [catch]: the server's [detail] or the fallback of the
    action. *)
Definition errorDialog (error : JsError) (fallback : string) : Alert :=
  {| alert_title := "Error";
     alert_message := JS.or (error_detail error) (JS.VStr fallback);
     alert_buttons := [] |}.

Definition notFoundDialog (message : string) : Alert :=
  {| alert_title := "Error"; alert_message := JS.VStr message;
     alert_buttons := [] |}.

(** ** Requests behind the credential gate *)




(** ** Profile fields *)

(** A numeric field that is missing, [null] or zero ([0] or [-0]). *)
Definition missing_or_zero (f : NumField) : Prop :=
  match f with
  | Absent | Null => True
  | Num x => is_zero x = true
  end.

(** A numeric field that [&&] and [?:] take for true: a number that is
    neither zero nor [NaN]. *)
Definition present (f : NumField) : bool := JS.truthy (NumField_value f).

(** ** Decimal digits *)

(** A digit string with more digits at its end. *)
Fixpoint snoc (d last : Decimal.uint) : Decimal.uint :=
  match d with
  | Decimal.Nil => last
  | Decimal.D0 l => Decimal.D0 (snoc l last)
  | Decimal.D1 l => Decimal.D1 (snoc l last)
  | Decimal.D2 l => Decimal.D2 (snoc l last)
  | Decimal.D3 l => Decimal.D3 (snoc l last)
  | Decimal.D4 l => Decimal.D4 (snoc l last)
  | Decimal.D5 l => Decimal.D5 (snoc l last)
  | Decimal.D6 l => Decimal.D6 (snoc l last)
  | Decimal.D7 l => Decimal.D7 (snoc l last)
  | Decimal.D8 l => Decimal.D8 (snoc l last)
  | Decimal.D9 l => Decimal.D9 (snoc l last)
  end.

(** A digit string that starts with a digit other than 0. *)
Definition leading (d : Decimal.uint) : Prop :=
  match d with
  | Decimal.Nil | Decimal.D0 _ => False
  | _ => True
  end.

(** ** The daily-log form, event by event ([daily-log.tsx], the JSX) *)

Module DailyLogForm.

(** What the user can do on the form.  A text input hands its new text to
    the setter; a portion, beverage or water button hands its option; a
    checkbox negates the value of the render; the yes/no buttons set it. *)
Inductive Event : Type :=
  | ChangeBreakfastFood (text : string)
  | SelectBreakfastPortion (size : PortionSize)
  | ChangeBreakfastTime (text : string)
  | ChangeLunchFood (text : string)
  | SelectLunchPortion (size : PortionSize)
  | ToggleLunchVegetables
  | ToggleLunchProtein
  | ToggleLunchFried
  | ToggleLunchDessert
  | ChangeDinnerFood (text : string)
  | SelectDinnerPortion (size : PortionSize)
  | ChangeDinnerTime (text : string)
  | PressDinnerAfter9 (yes : bool)
  | PressHadSnacks (yes : bool)
  | ChangeSnacksDetail (text : string)
  | SelectBeverages (option : string)
  | SelectWaterIntake (option : WaterIntake)
  | PressSubmit (today : string) (reply : Reply unit)
  | PressDialog (text : string).

Definition step (e : Event) : Handler DailyLog.State :=
  match e with
  | ChangeBreakfastFood text => set (DailyLog.setBreakfastFood text)
  | SelectBreakfastPortion size => set (DailyLog.setBreakfastPortion size)
  | ChangeBreakfastTime text => set (DailyLog.setBreakfastTime text)
  | ChangeLunchFood text => set (DailyLog.setLunchFood text)
  | SelectLunchPortion size => set (DailyLog.setLunchPortion size)
  | ToggleLunchVegetables =>
      fire (fun r =>
        set (DailyLog.setLunchVegetables (negb (DailyLog.lunchVegetables r))))
  | ToggleLunchProtein =>
      fire (fun r =>
        set (DailyLog.setLunchProtein (negb (DailyLog.lunchProtein r))))
  | ToggleLunchFried =>
      fire (fun r =>
        set (DailyLog.setLunchFried (negb (DailyLog.lunchFried r))))
  | ToggleLunchDessert =>
      fire (fun r =>
        set (DailyLog.setLunchDessert (negb (DailyLog.lunchDessert r))))
  | ChangeDinnerFood text => set (DailyLog.setDinnerFood text)
  | SelectDinnerPortion size => set (DailyLog.setDinnerPortion size)
  | ChangeDinnerTime text => set (DailyLog.setDinnerTime text)
  | PressDinnerAfter9 yes => set (DailyLog.setDinnerAfter9 yes)
  | PressHadSnacks yes => set (DailyLog.setHadSnacks yes)
  | ChangeSnacksDetail text => set (DailyLog.setSnacksDetail text)
  | SelectBeverages option => set (DailyLog.setBeverages option)
  | SelectWaterIntake option => set (DailyLog.setWaterIntake option)
  | PressSubmit today reply => DailyLog.onSubmit today reply
  | PressDialog text => DailyLog.onPress text
  end.

Fixpoint run (es : list Event) : Handler DailyLog.State :=
  match es with
  | [] => skip
  | e :: es' => step e >>> run es'
  end.

(** The options the selectors offer. *)
Definition portions : list PortionSize :=
  [VerySmall; Small; Medium; Large; VeryLarge].

Definition waterOptions : list WaterIntake :=
  [LessThan1L; From1To2L; From2To3L; MoreThan3L].

Definition beverageOptions : list string :=
  ["None"; "1 cup"; "2-3 cups"; "More than 3"].

End DailyLogForm.

(** A daily log as the screen may post it: the three meals and the user
    identifier are not empty. *)
Definition complete_log (b : LogData) : bool :=
  JS.str_truthy (bk_food (log_breakfast b))
  && JS.str_truthy (ln_food (log_lunch b))
  && JS.str_truthy (dn_food (log_dinner b))
  && JS.str_truthy (log_user_id b).

Definition log_ok (r : Request) : bool :=
  match r with
  | PostDailyLogs b => complete_log b
  | _ => true
  end.

(** ** The exercises of a plan ([workout.tsx], [openExerciseInfo] and the
    exercise card) *)

Module Exercises.

(** Is there a [>] further on? *)
Fixpoint has_gt (s : string) : bool :=
  match s with
  | EmptyString => false
  | String c s' => if Ascii.eqb c ">" then true else has_gt s'
  end.

(** [description.replace(/<[^>]*>/g, '')], as the scan the expression
    stands for: a [<] that has a [>] further on opens a match, which runs to
    the first [>] and is dropped; any other character is kept.  [inTag]
    says that the scan is inside a match. *)
Fixpoint strip (inTag : bool) (s : string) : string :=
  match s with
  | EmptyString => EmptyString
  | String c s' =>
      if inTag then
        if Ascii.eqb c ">" then strip false s' else strip true s'
      else if Ascii.eqb c "<" && has_gt s' then strip true s'
      else String c (strip false s')
  end.

Definition stripTags (s : string) : string := strip false s.

(** [{exercise.description && (<Text>...</Text>)}]: the text under the
    name of the exercise, when there is one. *)
Definition descriptionText (e : Exercise) : option string :=
  if JS.str_truthy (ex_description e) then Some (stripTags (ex_description e))
  else None.

(** The characters [encodeURIComponent] leaves as they are: letters,
    digits and [- _ . ! ~ * ' ( )]. *)
Definition unreserved (c : ascii) : bool :=
  let n := nat_of_ascii c in
  ((65 <=? n) && (n <=? 90) || (97 <=? n) && (n <=? 122)
   || (48 <=? n) && (n <=? 57)
   || (n =? 45) || (n =? 95) || (n =? 46) || (n =? 33) || (n =? 126)
   || (n =? 42) || (n =? 39) || (n =? 40) || (n =? 41))%nat.

Definition hex_digit (n : nat) : ascii :=
  ascii_of_nat (if (n <? 10)%nat then 48 + n else 55 + n).

(** [%XX] for an octet. *)
Definition percent (octet : nat) : string :=
  String "%" (String (hex_digit (octet / 16))
                (String (hex_digit (octet mod 16)) EmptyString)).

(** The octets of the UTF-8 form of a code unit of the Latin-1 range. *)
Definition utf8 (c : ascii) : list nat :=
  let n := nat_of_ascii c in
  if (n <? 128)%nat then [n] else [192 + n / 64; 128 + n mod 64]%nat.

Definition encode_unit (c : ascii) : string :=
  if unreserved c then String c EmptyString
  else fold_right (fun octet rest => percent octet +:+ rest) EmptyString
         (utf8 c).

Fixpoint encodeURIComponent (s : string) : string :=
  match s with
  | EmptyString => EmptyString
  | String c s' => encode_unit c +:+ encodeURIComponent s'
  end.

(** [openExerciseInfo(exerciseName)]: the address handed to
    [Linking.openURL]. *)
Definition openExerciseInfo (exerciseName : string) : string :=
  let query := encodeURIComponent (exerciseName +:+ " exercise how to") in
  "https://www.youtube.com/results?search_query=" +:+ query.

(** Reading an encoded component back: [%XX] sequences are octets, one for
    a code unit below 128 and two for one of the rest of the Latin-1 range;
    [None] for what [encodeURIComponent] does not write. *)
Definition hex_value (c : ascii) : option nat :=
  let n := nat_of_ascii c in
  if ((48 <=? n) && (n <=? 57))%nat then Some (n - 48)%nat
  else if ((65 <=? n) && (n <=? 70))%nat then Some (n - 55)%nat
  else None.

Definition octet_of (h l : ascii) : option nat :=
  match hex_value h, hex_value l with
  | Some a, Some b => Some (16 * a + b)%nat
  | _, _ => None
  end.

Fixpoint decode (s : string) : option string :=
  match s with
  | EmptyString => Some EmptyString
  | String "%" (String h (String l rest)) =>
      match octet_of h l with
      | Some o =>
          if (o <? 128)%nat then
            option_map (String (ascii_of_nat o)) (decode rest)
          else
            match rest with
            | String "%" (String h' (String l' rest')) =>
                match octet_of h' l' with
                | Some o' =>
                    option_map
                      (String (ascii_of_nat ((o - 192) * 64 + (o' - 128))))
                      (decode rest')
                | None => None
                end
            | _ => None
            end
      | None => None
      end
  | String "%" _ => None
  | String c rest => option_map (String c) (decode rest)
  end.

End Exercises.

(** ** What the profile screen shows ([profile.tsx], the render) *)

Module ProfileView.

(** [if (!user) return <Loading profile... />], else the card. *)
Inductive View : Type :=
  | Loading
  | Card (name email : string) (rows : list Profile.Child).

Definition render (st : Profile.State) : View :=
  match Profile.user st with
  | None => Loading
  | Some u => Card (user_name u) (user_email u) (Profile.infoCard u)
  end.

End ProfileView.

(** ** What the home screen shows ([home.tsx], the render) *)

Module HomeView.

(** [Hello, {userName || 'User'}!] *)
Definition greetingName (st : Home.State) : string :=
  if JS.str_truthy (Home.userName st) then Home.userName st else "User".

(** [{latestReport ? '1+' : '0'}] *)
Definition reportsStat (st : Home.State) : string :=
  match Home.latestReport st with Some _ => "1+" | None => "0" end.

(** The text of the card of the latest report: its analysis, or the
    pending notice. *)
Definition latestReportText (st : Home.State) : option string :=
  match Home.latestReport st with
  | Some report =>
      Some (if JS.opt_truthy (ai_analysis report)
            then default "" (ai_analysis report)
            else "Analysis pending... Visit Reports tab to analyze.")
  | None => None
  end.

End HomeView.

(** ** Texts and addresses *)

(** A text with no [<] that has a [>] after it: nothing the expression
    [/<[^>]*>/] matches. *)
Fixpoint tagless (s : string) : bool :=
  match s with
  | EmptyString => true
  | String c s' =>
      negb (Ascii.eqb c "<" && Exercises.has_gt s') && tagless s'
  end.

(** Every character of a text passes a test. *)
Fixpoint all_chars (test : ascii -> bool) (s : string) : bool :=
  match s with
  | EmptyString => true
  | String c s' => test c && all_chars test s'
  end.

(** A character that cannot end or split the query of an address: an
    unreserved character, or the [%] of an escape. *)
Definition query_safe (c : ascii) : bool :=
  Exercises.unreserved c || Ascii.eqb c "%".

(** ** Numbers typed with text after them *)

Definition digit_char (c : ascii) : bool :=
  let n := nat_of_ascii c in ((48 <=? n) && (n <=? 57))%nat.

(** What may follow the digits of [n] for [parseInt] to stop there and
    read [n]: no further digit, and no [x] after a lone [0], which would
    start a hexadecimal number. *)
Definition ends_integer (n : Z) (rest : string) : bool :=
  match rest with
  | EmptyString => true
  | String c _ =>
      negb (digit_char c)
      && negb ((n =? 0)%Z && (Ascii.eqb c "x" || Ascii.eqb c "X"))
  end.

(** What may follow the digits for [parseFloat] to stop there: no further
    digit, no point and no exponent mark. *)
Definition ends_decimal (rest : string) : bool :=
  match rest with
  | EmptyString => true
  | String c _ =>
      negb (digit_char c)
      && negb (Ascii.eqb c "." || Ascii.eqb c "e" || Ascii.eqb c "E")
  end.

(** ** Busy flags *)



(** The refresh of the list that follows an upload or an analysis: one
    GET when the device holds a user identifier. *)
Definition reportsRefresh (w : World) : list Request :=
  if JS.opt_truthy (storage w !! "user_id")
  then [GetHealthReports (default "" (storage w !! "user_id"))]
  else [].

Definition plansRefresh (w : World) : list Request :=
  if JS.opt_truthy (storage w !! "user_id")
  then [GetWorkoutPlans (default "" (storage w !! "user_id"))]
  else [].

(** The refresh happens after a call that resolved. *)
Definition after {A : Type} (reply : Reply A) (refresh : list Request)
  : list Request :=
  match reply with
  | Resolved _ => refresh
  | Rejected _ => []
  end.

Definition keyDialog : Alert :=
  {| alert_title := "Error";
     alert_message := JS.VStr "Please enter your Hugging Face API key";
     alert_buttons := [] |}.

Definition noFileDialog : Alert :=
  {| alert_title := "No File";
     alert_message := JS.VStr "Please select a PDF file first";
     alert_buttons := [] |}.

Definition pdfPart (file : PickedFile) : FilePart :=
  {| part_uri := file_uri file; part_type := "application/pdf";
     part_name := file_name file |}.

Definition uploadedDialog : Alert :=
  {| alert_title := "Success";
     alert_message := JS.VStr "Report uploaded successfully!";
     alert_buttons := [] |}.

Definition registeredDialog : Alert :=
  {| alert_title := "Success";
     alert_message := JS.VStr "Registration successful!";
     alert_buttons := [] |}.

(** ** More sample inputs *)

Module MoreSamples.

(** A morning on the daily-log form: the meals are typed, a box is
    ticked, the log is submitted and confirmed, and the button is pressed
    once more. *)
Definition morning : list DailyLogForm.Event :=
  [ DailyLogForm.ChangeBreakfastFood "3 bread slices + omelette";
    DailyLogForm.SelectBreakfastPortion Small;
    DailyLogForm.ChangeLunchFood "rice and dal";
    DailyLogForm.ToggleLunchVegetables;
    DailyLogForm.ChangeDinnerFood "2 chapati";
    DailyLogForm.PressSubmit "2024-05-01" (Resolved tt);
    DailyLogForm.PressDialog "OK";
    DailyLogForm.PressSubmit "2024-05-01" (Resolved tt) ].

(** What the server answers to a registration. *)
Definition asha : Registered :=
  {| reg_user_id := "u-7"; reg_name := "Asha" |}.

(** A registration form that passes the required-field check. *)
Definition completeForm : Register.State :=
  Register.setName "Asha"
    (Register.setEmail "asha@example.org"
      (Register.setAge "30" (Register.setHeight "165.5" Register.initial))).

(** A device at the entry screen, nobody registered. *)
Definition atEntry : World :=
  {| storage := ∅; route := "/"; alerts := []; requests := [];
     console := [] |}.

Definition oneReport : Report :=
  {| report_id := "rep-1"; upload_date := "2024-04-30T10:00:00";
     extracted_text := "Hemoglobin 13.5 g/dL"; ai_analysis := None |}.

(** The reports screen showing one report, and the home screen showing
    it as the latest. *)
Definition listed : Reports.State :=
  Reports.setReports [oneReport] (Reports.setUserId "u-1" Reports.initial).

Definition homeWithReport : Home.State :=
  Home.setLatestReport (Some oneReport) Home.initial.

(** A key of white space only. *)
Definition blankKey : string := "   ".

(** A registration form on which units were typed after the numbers. *)
Definition withUnits : Register.State :=
  Register.setAge "30 years"
    (Register.setHeight "170cm" Samples.namedForm).

End MoreSamples.

(** * Properties *)

(** ** Truthiness *)

Lemma str_truthy_false (s : string) : JS.str_truthy s = false <-> s = "".
Proof. destruct s; simpl; split; congruence. Qed.

Lemma str_truthy_true (s : string) : JS.str_truthy s = true <-> s <> "".
Proof. destruct s; simpl; split; congruence. Qed.

(** [a || b] is [a] when [a] is truthy and [b] otherwise. *)
Lemma or_truthy (a b : JS.jsval) : JS.truthy a = true -> JS.or a b = a.
Proof. unfold JS.or. now intros ->. Qed.

Lemma or_falsy (a b : JS.jsval) : JS.truthy a = false -> JS.or a b = b.
Proof. unfold JS.or. now intros ->. Qed.

(** ** Dialog buttons *)

Lemma pressButton_last {S : Type} (press : ButtonAction -> Handler S)
  (text : string) (a : Alert) (b : Button) (st : S) (w : World) :
  last (alerts w) = Some a ->
  find (fun b => String.eqb (btn_text b) text) (alert_buttons a) = Some b ->
  pressButton press text st w = press (btn_onPress b) st w.
Proof. intros Ha Hb. unfold pressButton. now rewrite Ha, Hb. Qed.

(** ** Daily log *)

(** The validation of [handleSubmit], as a condition on the three meals. *)
Lemma meals_missing (st : DailyLog.State) :
  DailyLog.breakfastFood st = "" \/ DailyLog.lunchFood st = ""
  \/ DailyLog.dinnerFood st = "" ->
  negb (JS.str_truthy (DailyLog.breakfastFood st))
  || negb (JS.str_truthy (DailyLog.lunchFood st))
  || negb (JS.str_truthy (DailyLog.dinnerFood st)) = true.
Proof.
  intros [H | [H | H]]; rewrite H; simpl.
  - reflexivity.
  - now rewrite orb_true_r.
  - now rewrite orb_true_r.
Qed.

Lemma meals_present (st : DailyLog.State) :
  DailyLog.breakfastFood st <> "" -> DailyLog.lunchFood st <> "" ->
  DailyLog.dinnerFood st <> "" ->
  negb (JS.str_truthy (DailyLog.breakfastFood st))
  || negb (JS.str_truthy (DailyLog.lunchFood st))
  || negb (JS.str_truthy (DailyLog.dinnerFood st)) = false.
Proof.
  intros Hb Hl Hd. apply str_truthy_true in Hb, Hl, Hd.
  now rewrite Hb, Hl, Hd.
Qed.

(** C7. A daily-log submission with the breakfast, lunch or dinner text
    empty issues no request, raises the 'Incomplete' dialog and leaves the
    whole form state, the storage and the route as they were. *)
Theorem daily_log_missing_meal_rejected
  (st : DailyLog.State) (w : World) (today : string) (reply : Reply unit) :
  DailyLog.breakfastFood st = "" \/ DailyLog.lunchFood st = ""
  \/ DailyLog.dinnerFood st = "" ->
  let '(st', w') := DailyLog.onSubmit today reply st w in
  st' = st /\ requests w' = requests w
  /\ alerts w' = alerts w ++ [incompleteDialog]
  /\ storage w' = storage w /\ route w' = route w.
Proof.
  intros H. unfold DailyLog.onSubmit, fire, DailyLog.handleSubmit.
  rewrite (meals_missing st H). simpl. repeat split.
Qed.

Lemma daily_log_missing_meal_rejected_witness :
  let '(st', w') :=
    DailyLog.onSubmit "2024-05-01" (Resolved tt)
      (DailyLog.setLunchFood "" Samples.filledLog) Samples.registered in
  st' = DailyLog.setLunchFood "" Samples.filledLog
  /\ requests w' = requests Samples.registered
  /\ alerts w' = alerts Samples.registered ++ [incompleteDialog]
  /\ storage w' = storage Samples.registered
  /\ route w' = route Samples.registered.
Proof.
  apply (daily_log_missing_meal_rejected
           (DailyLog.setLunchFood "" Samples.filledLog) Samples.registered
           "2024-05-01" (Resolved tt)).
  right; left; reflexivity.
Defined.

(** What the form reset sets, and what it leaves. *)
Lemma resetForm_effect (st : DailyLog.State) (w : World) :
  DailyLog.resetForm st w =
  ({| DailyLog.loading := DailyLog.loading st;
      DailyLog.breakfastFood := "";
      DailyLog.breakfastPortion := DailyLog.breakfastPortion st;
      DailyLog.breakfastTime := "";
      DailyLog.lunchFood := "";
      DailyLog.lunchPortion := DailyLog.lunchPortion st;
      DailyLog.lunchVegetables := false;
      DailyLog.lunchProtein := false;
      DailyLog.lunchFried := false;
      DailyLog.lunchDessert := false;
      DailyLog.dinnerFood := "";
      DailyLog.dinnerPortion := DailyLog.dinnerPortion st;
      DailyLog.dinnerTime := "";
      DailyLog.dinnerAfter9 := false;
      DailyLog.hadSnacks := false;
      DailyLog.snacksDetail := "";
      DailyLog.beverages := DailyLog.beverages st;
      DailyLog.waterIntake := DailyLog.waterIntake st |}, w).
Proof. reflexivity. Qed.

(** A submission that passes validation on a registered device and
    resolves: one POST, the success dialog, and the form as it was. *)
Lemma daily_log_saved (st : DailyLog.State) (w : World) (today : string) :
  DailyLog.breakfastFood st <> "" -> DailyLog.lunchFood st <> "" ->
  DailyLog.dinnerFood st <> "" ->
  JS.opt_truthy (storage w !! "user_id") = true ->
  DailyLog.onSubmit today (Resolved tt) st w =
  (DailyLog.setLoading false st,
   Alert_alert "Success" (JS.VStr "Daily log saved successfully!")
     [ {| btn_text := "OK"; btn_onPress := ResetForm |} ]
     (axios (PostDailyLogs
               (DailyLog.logData st (default "" (storage w !! "user_id"))
                  today)) w)).
Proof.
  intros Hb Hl Hd Hid.
  unfold DailyLog.onSubmit, fire, DailyLog.handleSubmit.
  rewrite (meals_present st Hb Hl Hd).
  unfold seq, set, effect, getItem, AsyncStorage_getItem. simpl.
  rewrite Hid. reflexivity.
Qed.

(** After a submission that is saved and confirmed, whatever the form
    held: the texts are empty and the toggles off, and the five selectors
    hold what they held. *)
Lemma daily_log_confirmed (st : DailyLog.State) (w : World) (today : string) :
  DailyLog.breakfastFood st <> "" -> DailyLog.lunchFood st <> "" ->
  DailyLog.dinnerFood st <> "" ->
  JS.opt_truthy (storage w !! "user_id") = true ->
  let st' :=
    ((DailyLog.onSubmit today (Resolved tt) >>> DailyLog.onPress "OK")
       st w).1 in
  (DailyLog.breakfastFood st' = "" /\ DailyLog.breakfastTime st' = ""
   /\ DailyLog.lunchFood st' = "" /\ DailyLog.dinnerFood st' = ""
   /\ DailyLog.dinnerTime st' = "" /\ DailyLog.snacksDetail st' = "")
  /\ (DailyLog.lunchVegetables st' = false
      /\ DailyLog.lunchProtein st' = false
      /\ DailyLog.lunchFried st' = false
      /\ DailyLog.lunchDessert st' = false
      /\ DailyLog.dinnerAfter9 st' = false
      /\ DailyLog.hadSnacks st' = false)
  /\ (DailyLog.breakfastPortion st' = DailyLog.breakfastPortion st
      /\ DailyLog.lunchPortion st' = DailyLog.lunchPortion st
      /\ DailyLog.dinnerPortion st' = DailyLog.dinnerPortion st
      /\ DailyLog.beverages st' = DailyLog.beverages st
      /\ DailyLog.waterIntake st' = DailyLog.waterIntake st).
Proof.
  intros Hb Hl Hd Hid st'. unfold st', seq.
  rewrite (daily_log_saved st w today Hb Hl Hd Hid).
  unfold DailyLog.onPress.
  rewrite (pressButton_last DailyLog.press "OK" savedDialog
             {| btn_text := "OK"; btn_onPress := ResetForm |}).
  - simpl. repeat split.
  - simpl. apply last_snoc.
  - reflexivity.
Qed.

(** C1. After a daily-log submission that the server accepts and the user
    confirms with OK, the texts are empty and the toggles are off, but the
    selectors keep what the user chose: here the breakfast portion is still
    'Large', the beverages '1 cup' and the water intake '2-3 L', where the
    defaults are 'Medium', 'None' and '1-2 L'. *)
Theorem daily_log_reset_leaves_selectors :
  let '(st', w') :=
    (DailyLog.onSubmit "2024-05-01" (Resolved tt) >>> DailyLog.onPress "OK")
      Samples.filledLog Samples.registered in
  requests w' =
    [PostDailyLogs (DailyLog.logData Samples.filledLog "u-1" "2024-05-01")]
  /\ alerts w' = [savedDialog]
  /\ DailyLog.breakfastFood st' = "" /\ DailyLog.lunchFood st' = ""
  /\ DailyLog.dinnerFood st' = "" /\ DailyLog.lunchVegetables st' = false
  /\ DailyLog.breakfastPortion st' = Large
  /\ DailyLog.breakfastPortion DailyLog.initial = Medium
  /\ DailyLog.beverages st' = "1 cup"
  /\ DailyLog.beverages DailyLog.initial = "None"
  /\ DailyLog.waterIntake st' = From2To3L
  /\ DailyLog.waterIntake DailyLog.initial = From1To2L.
Proof. vm_compute. repeat split. Qed.

(** ** Registration *)

Lemma required_missing (st : Register.State) :
  Register.name st = "" \/ Register.email st = "" \/ Register.age st = ""
  \/ Register.height st = "" ->
  negb (JS.str_truthy (Register.name st))
  || negb (JS.str_truthy (Register.email st))
  || negb (JS.str_truthy (Register.age st))
  || negb (JS.str_truthy (Register.height st)) = true.
Proof.
  intros [H | [H | [H | H]]]; rewrite H; simpl;
    rewrite ?orb_true_r; reflexivity.
Qed.

Lemma required_present (st : Register.State) :
  Register.name st <> "" -> Register.email st <> "" ->
  Register.age st <> "" -> Register.height st <> "" ->
  negb (JS.str_truthy (Register.name st))
  || negb (JS.str_truthy (Register.email st))
  || negb (JS.str_truthy (Register.age st))
  || negb (JS.str_truthy (Register.height st)) = false.
Proof.
  intros Hn He Ha Hh. apply str_truthy_true in Hn, He, Ha, Hh.
  now rewrite Hn, He, Ha, Hh.
Qed.

(** A complete form is posted, whatever the server then answers. *)
Lemma register_posts (st : Register.State) (w : World)
  (reply : Reply (option Registered)) :
  Register.name st <> "" -> Register.email st <> "" ->
  Register.age st <> "" -> Register.height st <> "" ->
  requests (Register.onRegister reply st w).2 =
  requests w ++ [PostUsers (Register.body st)].
Proof.
  intros Hn He Ha Hh.
  unfold Register.onRegister, fire, Register.handleRegister.
  rewrite (required_present st Hn He Ha Hh).
  destruct reply as [[data |] | error]; reflexivity.
Qed.

(** C6. A registration with the name, email, age or height empty issues no
    request and raises an error dialog, the form unchanged; with the four
    of them filled the request is issued, whatever the weight and the
    gender are, empty included. *)
Theorem register_requires_four_fields
  (st : Register.State) (w : World) (reply : Reply (option Registered)) :
  (Register.name st = "" \/ Register.email st = "" \/ Register.age st = ""
   \/ Register.height st = "" ->
   let '(st', w') := Register.onRegister reply st w in
   st' = st /\ requests w' = requests w
   /\ alerts w' = alerts w ++ [requiredFieldsDialog])
  /\ (Register.name st <> "" -> Register.email st <> "" ->
      Register.age st <> "" -> Register.height st <> "" ->
      forall weight gender : string,
      let filled := Register.setWeight weight (Register.setGender gender st) in
      requests (Register.onRegister reply filled w).2 =
      requests w ++ [PostUsers (Register.body filled)]).
Proof.
  split.
  - intros H. unfold Register.onRegister, fire, Register.handleRegister.
    rewrite (required_missing st H). simpl. repeat split.
  - intros Hn He Ha Hh weight gender filled.
    apply register_posts; assumption.
Qed.

Lemma register_requires_four_fields_witness :
  (let '(st', w') :=
     Register.onRegister (Resolved None) Samples.namelessForm Samples.fresh in
   st' = Samples.namelessForm /\ requests w' = requests Samples.fresh
   /\ alerts w' = alerts Samples.fresh ++ [requiredFieldsDialog])
  /\ requests (Register.onRegister (Resolved None)
                 (Register.setWeight "" (Register.setGender ""
                    Samples.namedForm)) Samples.fresh).2 =
     requests Samples.fresh
     ++ [PostUsers (Register.body (Register.setWeight ""
                      (Register.setGender "" Samples.namedForm)))].
Proof.
  split.
  - apply (proj1 (register_requires_four_fields
                    Samples.namelessForm Samples.fresh (Resolved None))).
    left; reflexivity.
  - apply (proj2 (register_requires_four_fields
                    Samples.namedForm Samples.fresh (Resolved None)));
      discriminate.
Defined.

(** A string that starts with neither white space, a sign nor a decimal
    digit is not an integer for [parseInt]. *)
Lemma parseInt_no_digit (c : ascii) (s : string) :
  JS.is_white c = false -> JS.digit_value 10 c = None ->
  c <> "-"%char -> c <> "+"%char ->
  JS.parseInt (String c s) = nan.
Proof.
  intros Hw Hd Hm Hp. unfold JS.parseInt. simpl. rewrite Hw.
  destruct c as [[] [] [] [] [] [] [] []];
    try discriminate; try congruence; simpl; reflexivity.
Qed.

(** Counterexample to C9 as stated.  With an age that is not a number,
    and no name, the form is stopped by the required-field check: nothing
    is sent. *)
Lemma register_nan_age_without_name_blocked :
  let '(st', w') :=
    Register.onRegister (Resolved None) Samples.namelessForm Samples.fresh in
  Register.age Samples.namelessForm = "abc"
  /\ is_nan (JS.parseInt "abc") = true
  /\ requests w' = []
  /\ alerts w' = [requiredFieldsDialog].
Proof. vm_compute. repeat split. Qed.

(** A string that starts with neither white space, a sign, a decimal
    digit, a point nor an [I] is not a number for [parseFloat]. *)
Lemma parseFloat_no_digit (c : ascii) (s : string) :
  JS.is_white c = false -> JS.digit_value 10 c = None ->
  c <> "-"%char -> c <> "+"%char -> c <> "."%char -> c <> "I"%char ->
  JS.parseFloat (String c s) = nan.
Proof.
  intros Hw Hd Hm Hp Hdot Hi. unfold JS.parseFloat. simpl JS.trimStart.
  rewrite Hw.
  destruct c as [[] [] [] [] [] [] [] []];
    try discriminate; try congruence; simpl; reflexivity.
Qed.

(** C9, amended. A registration whose four required fields are filled is
    sent without numeric validation: the request is issued, and its body
    carries NaN for the age when [parseInt] makes nothing of the age field,
    and NaN for the height when [parseFloat] makes nothing of the height
    field. *)
Theorem register_sends_nan
  (st : Register.State) (w : World) (reply : Reply (option Registered)) :
  Register.name st <> "" -> Register.email st <> "" ->
  Register.age st <> "" -> Register.height st <> "" ->
  exists body : RegisterBody,
    requests (Register.onRegister reply st w).2 =
      requests w ++ [PostUsers body]
    /\ rb_name body = Register.name st
    /\ (is_nan (JS.parseInt (Register.age st)) = true ->
        is_nan (rb_age body) = true)
    /\ (is_nan (JS.parseFloat (Register.height st)) = true ->
        is_nan (rb_height body) = true).
Proof.
  intros Hn He Ha Hh. exists (Register.body st).
  split; [now apply register_posts |].
  split; [reflexivity |]. split; intros H; exact H.
Qed.

Lemma register_sends_nan_witness :
  exists body : RegisterBody,
    requests (Register.onRegister (Resolved None)
                (Register.setHeight "tall" Samples.namedForm)
                Samples.fresh).2 =
      requests Samples.fresh ++ [PostUsers body]
    /\ rb_name body = "Asha"
    /\ is_nan (rb_age body) = true
    /\ is_nan (rb_height body) = true.
Proof.
  destruct (register_sends_nan
              (Register.setHeight "tall" Samples.namedForm) Samples.fresh
              (Resolved None)) as (body & Hreq & Hname & Hage & Hheight);
    try discriminate.
  exists body. refine (conj Hreq (conj Hname (conj _ _))).
  - apply Hage. vm_compute. reflexivity.
  - apply Hheight. vm_compute. reflexivity.
Defined.

(** ** Profile: logout *)

(** Counterexample to C2 as stated.  A confirmed logout on a device that
    keeps a third key: the third key is gone as well. *)
Lemma logout_forgets_other_keys :
  let '(_, w') :=
    (Profile.handleLogout >>> Profile.onPress "Logout")
      Profile.initial Samples.registered in
  storage Samples.registered !! "theme" = Some "dark"
  /\ storage w' !! "theme" = None.
Proof. vm_compute. split; reflexivity. Qed.

(** C2, amended. A confirmed logout clears the whole local storage, the
    two keys 'user_id' and 'user_name' with every other key, then shows the
    registration screen at '/'; it issues no request and leaves the
    component state alone. *)
Theorem logout_clears_storage (st : Profile.State) (w : World) :
  let '(st', w') :=
    (Profile.handleLogout >>> Profile.onPress "Logout") st w in
  storage w' = ∅
  /\ (forall k : string, storage w' !! k = None)
  /\ route w' = "/"
  /\ alerts w' = alerts w ++ [logoutDialog]
  /\ requests w' = requests w
  /\ st' = st.
Proof.
  unfold seq, Profile.handleLogout, effect, Profile.onPress.
  rewrite (pressButton_last Profile.press "Logout" logoutDialog
             {| btn_text := "Logout"; btn_onPress := ClearAndLeave |}).
  - simpl. repeat split.
  - simpl. apply last_snoc.
  - reflexivity.
Qed.

(** Cancelling the logout dialog changes nothing but the dialog shown. *)
Lemma logout_cancelled (st : Profile.State) (w : World) :
  (Profile.handleLogout >>> Profile.onPress "Cancel") st w =
  (st, Alert_alert "Logout" (JS.VStr "Are you sure you want to logout?")
         (alert_buttons logoutDialog) w).
Proof.
  unfold seq, Profile.handleLogout, effect, Profile.onPress.
  rewrite (pressButton_last Profile.press "Cancel" logoutDialog
             {| btn_text := "Cancel"; btn_onPress := NoAction |}).
  - reflexivity.
  - simpl. apply last_snoc.
  - reflexivity.
Qed.

(** On a device that keeps nothing but the two keys of the application,
    clearing the storage is removing the two keys. *)
Lemma clear_is_removing_both (m : gmap string string) :
  dom m ⊆ ({[ "user_id"; "user_name" ]} : gset string) ->
  (∅ : gmap string string) = delete "user_id" (delete "user_name" m).
Proof.
  intros Hdom. apply map_eq. intros k. rewrite lookup_empty.
  destruct (decide (k = "user_id")) as [-> | Hid].
  - now rewrite lookup_delete_eq.
  - rewrite lookup_delete_ne by congruence.
    destruct (decide (k = "user_name")) as [-> | Hname].
    + now rewrite lookup_delete_eq.
    + rewrite lookup_delete_ne by congruence.
      symmetry. apply not_elem_of_dom. intros Hin. apply Hdom in Hin.
      apply elem_of_union in Hin as [Hin | Hin];
        apply elem_of_singleton in Hin; congruence.
Qed.

(** ** The credential gate *)

(** Case analysis on everything a handler branches on. *)
Ltac branches :=
  repeat match goal with
    | |- context [match ?r with Resolved _ => _ | Rejected _ => _ end] =>
        destruct r
    | |- context [if ?b then _ else _] => destruct b eqn:?
    | |- context [match ?o with Some _ => _ | None => _ end] =>
        destruct o eqn:?
    end.


Lemma negb_false_truthy (s : string) :
  negb (JS.str_truthy s) = false -> JS.str_truthy s = true.
Proof. now destruct (JS.str_truthy s). Qed.










(** The session of the sample, run: the analyze request goes out once,
    after the key was typed, and carries it. *)
Example analysis_session_requests :
  requests (Reports.run Samples.analysisSession Reports.initial
              Samples.registered).2 =
  [ GetHealthReports "u-1"; PostAnalyze "rep-1" "hf_secret";
    GetHealthReports "u-1" ].
Proof. vm_compute. reflexivity. Qed.

(** ** Failures *)

(** What the dialog of a [catch] says. *)
Lemma errorDialog_message (error : JsError) (fallback : string) :
  (JS.truthy (error_detail error) = true ->
   alert_message (errorDialog error fallback) = error_detail error)
  /\ (JS.truthy (error_detail error) = false ->
      alert_message (errorDialog error fallback) = JS.VStr fallback)
  /\ (forall d : string, d <> "" -> error_detail error = JS.VStr d ->
      alert_message (errorDialog error fallback) = JS.VStr d)
  /\ (error_detail error = JS.VUndefined ->
      alert_message (errorDialog error fallback) = JS.VStr fallback)
  /\ (err_response error = None ->
      alert_message (errorDialog error fallback) = JS.VStr fallback)
  /\ (alert_message (errorDialog error fallback) = JS.VUndefined -> False).
Proof.
  unfold errorDialog; simpl. repeat split.
  - apply or_truthy.
  - apply or_falsy.
  - intros d Hd ->. apply or_truthy. now apply str_truthy_true.
  - intros ->. reflexivity.
  - unfold error_detail. intros ->. reflexivity.
  - unfold JS.or. destruct (JS.truthy (error_detail error)) eqn:Ht.
    + intros Hu. rewrite Hu in Ht. discriminate.
    + discriminate.
Qed.

Lemma daily_log_failed (error : JsError) (st : DailyLog.State) (w : World)
  (today : string) :
  DailyLog.breakfastFood st <> "" -> DailyLog.lunchFood st <> "" ->
  DailyLog.dinnerFood st <> "" ->
  JS.opt_truthy (storage w !! "user_id") = true ->
  alerts (DailyLog.onSubmit today (Rejected error) st w).2 =
  alerts w ++ [errorDialog error "Failed to save log"].
Proof.
  intros Hb Hl Hd Hid.
  unfold DailyLog.onSubmit, fire, DailyLog.handleSubmit.
  rewrite (meals_present st Hb Hl Hd).
  unfold seq, set, effect, getItem, AsyncStorage_getItem. simpl.
  rewrite Hid. reflexivity.
Qed.

Lemma upload_failed (error : JsError) (st : Reports.State) (w : World)
  (file : PickedFile) (base64 : string) (listReply : Reply (list Report)) :
  Reports.selectedFile st = Some file ->
  alerts (Reports.step
            (Reports.PressUpload (Resolved base64) (Rejected error) listReply)
            st w).2 =
  alerts w ++ [errorDialog error "Failed to upload report"].
Proof.
  intros Hfile. simpl. unfold fire, Reports.uploadReport.
  rewrite Hfile. reflexivity.
Qed.

Lemma upload_read_failed (error : JsError) (st : Reports.State) (w : World)
  (file : PickedFile) (reply : Reply unit) (listReply : Reply (list Report)) :
  Reports.selectedFile st = Some file ->
  let w' :=
    (Reports.step (Reports.PressUpload (Rejected error) reply listReply)
       st w).2 in
  alerts w' = alerts w ++ [errorDialog error "Failed to upload report"]
  /\ requests w' = requests w.
Proof.
  intros Hfile. simpl. unfold fire, Reports.uploadReport.
  rewrite Hfile. split; reflexivity.
Qed.

Lemma analyze_failed (error : JsError) (st : Reports.State) (w : World)
  (reportId : string) (listReply : Reply (list Report)) :
  Reports.hfApiKey st <> "" ->
  alerts (Reports.step
            (Reports.PressAnalyze reportId (Rejected error) listReply)
            st w).2 =
  alerts w ++ [errorDialog error "Failed to analyze report"].
Proof.
  intros Hkey. apply str_truthy_true in Hkey. simpl.
  unfold fire, Reports.analyzeReport. rewrite Hkey. reflexivity.
Qed.

Lemma generate_failed (error : JsError) (st : Workout.State) (w : World)
  (listReply : Reply (list WorkoutPlan)) :
  Workout.hfApiKey st <> "" ->
  JS.opt_truthy (storage w !! "user_id") = true ->
  alerts (Workout.step (Workout.PressGenerate (Rejected error) listReply)
            st w).2 =
  alerts w ++ [errorDialog error "Failed to generate plan"].
Proof.
  intros Hkey Hid. apply str_truthy_true in Hkey. simpl.
  unfold fire, Workout.generateWorkoutPlan. rewrite Hkey.
  unfold seq, set, effect, getItem, AsyncStorage_getItem. simpl.
  rewrite Hid. reflexivity.
Qed.

Lemma register_failed (error : JsError) (st : Register.State) (w : World) :
  Register.name st <> "" -> Register.email st <> "" ->
  Register.age st <> "" -> Register.height st <> "" ->
  alerts (Register.onRegister (Rejected error) st w).2 =
  alerts w ++ [errorDialog error "Registration failed"].
Proof.
  intros Hn He Ha Hh.
  unfold Register.onRegister, fire, Register.handleRegister.
  rewrite (required_present st Hn He Ha Hh). reflexivity.
Qed.

(** Counterexample to C8 as stated.  A daily log that the server refuses
    with an empty [detail]: the dialog shows the fallback, not the
    detail. *)
Lemma daily_log_empty_detail_falls_back :
  let '(_, w') :=
    DailyLog.onSubmit "2024-05-01" (Rejected Samples.emptyDetail)
      Samples.filledLog Samples.registered in
  error_detail Samples.emptyDetail = JS.VStr ""
  /\ alerts w' =
     [ {| alert_title := "Error";
          alert_message := JS.VStr "Failed to save log";
          alert_buttons := [] |} ].
Proof. vm_compute. split; reflexivity. Qed.

(** C8, amended. When the request of a submitting action fails (saving the
    daily log, uploading or analyzing a report, generating a plan,
    registering), the action raises one 'Error' dialog.  Its message is the
    [detail] of the error response when that is truthy, as a detail string
    that is not empty is; it is the fixed fallback of the action when there
    is no response, no body, no detail, or a falsy detail such as the empty
    string; it is never undefined. *)
Theorem failure_dialog (error : JsError) :
  (forall fallback : string,
     (JS.truthy (error_detail error) = true ->
      alert_message (errorDialog error fallback) = error_detail error)
     /\ (JS.truthy (error_detail error) = false ->
         alert_message (errorDialog error fallback) = JS.VStr fallback)
     /\ (forall d : string, d <> "" -> error_detail error = JS.VStr d ->
         alert_message (errorDialog error fallback) = JS.VStr d)
     /\ (error_detail error = JS.VUndefined ->
         alert_message (errorDialog error fallback) = JS.VStr fallback)
     /\ (err_response error = None ->
         alert_message (errorDialog error fallback) = JS.VStr fallback)
     /\ (alert_message (errorDialog error fallback) = JS.VUndefined -> False))
  /\ (forall (st : DailyLog.State) (w : World) (today : string),
        DailyLog.breakfastFood st <> "" -> DailyLog.lunchFood st <> "" ->
        DailyLog.dinnerFood st <> "" ->
        JS.opt_truthy (storage w !! "user_id") = true ->
        alerts (DailyLog.onSubmit today (Rejected error) st w).2 =
        alerts w ++ [errorDialog error "Failed to save log"])
  /\ (forall (st : Reports.State) (w : World) (file : PickedFile)
        (base64 : string) (listReply : Reply (list Report)),
        Reports.selectedFile st = Some file ->
        alerts (Reports.step
                  (Reports.PressUpload (Resolved base64) (Rejected error)
                     listReply) st w).2 =
        alerts w ++ [errorDialog error "Failed to upload report"])
  /\ (forall (st : Reports.State) (w : World) (reportId : string)
        (listReply : Reply (list Report)),
        Reports.hfApiKey st <> "" ->
        alerts (Reports.step
                  (Reports.PressAnalyze reportId (Rejected error) listReply)
                  st w).2 =
        alerts w ++ [errorDialog error "Failed to analyze report"])
  /\ (forall (st : Workout.State) (w : World)
        (listReply : Reply (list WorkoutPlan)),
        Workout.hfApiKey st <> "" ->
        JS.opt_truthy (storage w !! "user_id") = true ->
        alerts (Workout.step
                  (Workout.PressGenerate (Rejected error) listReply) st w).2 =
        alerts w ++ [errorDialog error "Failed to generate plan"])
  /\ (forall (st : Register.State) (w : World),
        Register.name st <> "" -> Register.email st <> "" ->
        Register.age st <> "" -> Register.height st <> "" ->
        alerts (Register.onRegister (Rejected error) st w).2 =
        alerts w ++ [errorDialog error "Registration failed"]).
Proof.
  refine (conj _ (conj _ (conj _ (conj _ (conj _ _))))).
  - intros fallback. apply errorDialog_message.
  - intros st w today. apply daily_log_failed.
  - intros st w file base64 listReply. apply upload_failed.
  - intros st w reportId listReply. apply analyze_failed.
  - intros st w listReply. apply generate_failed.
  - intros st w. apply register_failed.
Qed.

Lemma failure_dialog_witness :
  alert_message (errorDialog Samples.withDetail "Registration failed") =
    JS.VStr "Email already registered"
  /\ alert_message (errorDialog Samples.networkDown "Failed to save log") =
     JS.VStr "Failed to save log"
  /\ alerts (DailyLog.onSubmit "2024-05-01" (Rejected Samples.networkDown)
               Samples.filledLog Samples.registered).2 =
     alerts Samples.registered
     ++ [errorDialog Samples.networkDown "Failed to save log"]
  /\ alerts (Reports.step
               (Reports.PressUpload (Resolved "JVBERi0xLjQK")
                  (Rejected Samples.networkDown) (Resolved []))
               Samples.fileSelected Samples.registered).2 =
     alerts Samples.registered
     ++ [errorDialog Samples.networkDown "Failed to upload report"]
  /\ alerts (Reports.step
               (Reports.PressAnalyze "rep-1" (Rejected Samples.networkDown)
                  (Resolved []))
               Samples.keyTyped Samples.registered).2 =
     alerts Samples.registered
     ++ [errorDialog Samples.networkDown "Failed to analyze report"]
  /\ alerts (Workout.step
               (Workout.PressGenerate (Rejected Samples.networkDown)
                  (Resolved []))
               Samples.workoutKeyTyped Samples.registered).2 =
     alerts Samples.registered
     ++ [errorDialog Samples.networkDown "Failed to generate plan"]
  /\ alerts (Register.onRegister (Rejected Samples.withDetail)
               Samples.namedForm Samples.fresh).2 =
     alerts Samples.fresh
     ++ [errorDialog Samples.withDetail "Registration failed"].
Proof.
  destruct (failure_dialog Samples.withDetail)
    as (Hmsg & _ & _ & _ & _ & Hreg).
  destruct (failure_dialog Samples.networkDown)
    as (Hmsg' & Hlog & Hupload & Hanalyze & Hgenerate & _).
  destruct (Hmsg "Registration failed") as (_ & _ & Hd & _).
  destruct (Hmsg' "Failed to save log") as (_ & _ & _ & _ & Hnone & _).
  refine (conj _ (conj _ (conj _ (conj _ (conj _ (conj _ _)))))).
  - apply Hd; [discriminate | reflexivity].
  - apply Hnone. reflexivity.
  - apply Hlog; try discriminate. vm_compute. reflexivity.
  - apply (Hupload Samples.fileSelected Samples.registered Samples.somePdf).
    reflexivity.
  - apply Hanalyze. discriminate.
  - apply Hgenerate; [discriminate |]. vm_compute. reflexivity.
  - apply Hreg; discriminate.
Defined.

(** ** The user identifier *)

(** Counterexample to C3 as stated.  On a device where nobody is
    registered, the reports screen still uploads: the request goes out with
    an empty [user_id], and the route stays where it was. *)
Lemma anonymous_upload_is_sent :
  let '(_, w') :=
    Reports.run Samples.anonymousUpload Reports.initial Samples.fresh in
  storage Samples.fresh !! "user_id" = None
  /\ requests w' =
     [ PostUpload ""
         {| part_uri := "file:///cache/report.pdf";
            part_type := "application/pdf";
            part_name := "report.pdf" |} ]
  /\ route w' = route Samples.fresh.
Proof. vm_compute. repeat split. Qed.

(** C3, amended. With no user identifier in the local storage, the
    fetches of the home, reports, workout and profile screens, the
    daily-log submission and the workout-plan generation issue no request.
    The fetches do nothing else either; the daily-log submission, once the
    meals are filled, and the generation, once a credential is entered,
    raise an 'Error' dialog saying the user was not found.  None of them
    changes the route: the user is not taken to the registration screen. *)
Theorem no_identifier_no_request (w : World) :
  JS.opt_truthy (storage w !! "user_id") = false ->
  (forall (st : Home.State) (reportsRes : Reply (list Report))
     (logsRes : Reply (list LogData)),
     let w' := (Home.loadUserData reportsRes logsRes st w).2 in
     requests w' = requests w /\ route w' = route w /\ alerts w' = alerts w)
  /\ (forall (st : Reports.State) (reply : Reply (list Report)),
        Reports.loadReports reply st w = (st, w))
  /\ (forall (st : Workout.State) (reply : Reply (list WorkoutPlan)),
        Workout.loadWorkoutPlans reply st w = (st, w))
  /\ (forall (st : Profile.State) (reply : Reply User),
        Profile.loadUserProfile reply st w = (st, w))
  /\ (forall (st : DailyLog.State) (today : string) (reply : Reply unit),
        let w' := (DailyLog.onSubmit today reply st w).2 in
        requests w' = requests w /\ route w' = route w
        /\ (DailyLog.breakfastFood st <> "" -> DailyLog.lunchFood st <> "" ->
            DailyLog.dinnerFood st <> "" ->
            alerts w' =
            alerts w
            ++ [notFoundDialog "User not found. Please login again."]))
  /\ (forall (st : Workout.State) (reply : Reply unit)
        (listReply : Reply (list WorkoutPlan)),
        let w' :=
          (Workout.step (Workout.PressGenerate reply listReply) st w).2 in
        requests w' = requests w /\ route w' = route w
        /\ (Workout.hfApiKey st <> "" ->
            alerts w' = alerts w ++ [notFoundDialog "User not found"])).
Proof.
  intros Hno. refine (conj _ (conj _ (conj _ (conj _ (conj _ _))))).
  - intros st reportsRes logsRes.
    unfold Home.loadUserData, getItem, AsyncStorage_getItem, seq.
    rewrite Hno.
    destruct (JS.opt_truthy (storage w !! "user_name")); simpl; repeat split.
  - intros st reply. unfold Reports.loadReports, getItem, AsyncStorage_getItem.
    now rewrite Hno.
  - intros st reply.
    unfold Workout.loadWorkoutPlans, getItem, AsyncStorage_getItem.
    now rewrite Hno.
  - intros st reply.
    unfold Profile.loadUserProfile, getItem, AsyncStorage_getItem.
    now rewrite Hno.
  - intros st today reply.
    unfold DailyLog.onSubmit, fire, DailyLog.handleSubmit.
    destruct (negb (JS.str_truthy (DailyLog.breakfastFood st))
              || negb (JS.str_truthy (DailyLog.lunchFood st))
              || negb (JS.str_truthy (DailyLog.dinnerFood st))) eqn:Hmeals.
    + simpl. repeat split. intros Hb Hl Hd.
      rewrite (meals_present st Hb Hl Hd) in Hmeals. discriminate.
    + unfold seq, set, effect, getItem, AsyncStorage_getItem. simpl.
      rewrite Hno. simpl. repeat split.
  - intros st reply listReply. simpl.
    unfold fire, Workout.generateWorkoutPlan.
    destruct (negb (JS.str_truthy (Workout.hfApiKey st))) eqn:Hkey.
    + simpl. repeat split. intros Hne. apply str_truthy_true in Hne.
      rewrite Hne in Hkey. discriminate.
    + unfold seq, set, effect, getItem, AsyncStorage_getItem.
      rewrite Hno. simpl. repeat split.
Qed.

Lemma no_identifier_no_request_witness :
  requests (Home.loadUserData (Resolved []) (Resolved []) Home.initial
              Samples.fresh).2 = requests Samples.fresh
  /\ Reports.loadReports (Resolved []) Reports.initial Samples.fresh =
     (Reports.initial, Samples.fresh)
  /\ Workout.loadWorkoutPlans (Resolved []) Workout.initial Samples.fresh =
     (Workout.initial, Samples.fresh)
  /\ Profile.loadUserProfile (Rejected Samples.networkDown) Profile.initial
       Samples.fresh = (Profile.initial, Samples.fresh)
  /\ requests (DailyLog.onSubmit "2024-05-01" (Resolved tt)
                 Samples.filledLog Samples.fresh).2 = requests Samples.fresh
  /\ alerts (DailyLog.onSubmit "2024-05-01" (Resolved tt)
               Samples.filledLog Samples.fresh).2 =
     alerts Samples.fresh
     ++ [notFoundDialog "User not found. Please login again."]
  /\ requests (Workout.step
                 (Workout.PressGenerate (Resolved tt) (Resolved []))
                 Samples.workoutKeyTyped Samples.fresh).2 =
     requests Samples.fresh
  /\ alerts (Workout.step
               (Workout.PressGenerate (Resolved tt) (Resolved []))
               Samples.workoutKeyTyped Samples.fresh).2 =
     alerts Samples.fresh ++ [notFoundDialog "User not found"].
Proof.
  assert (Hno : JS.opt_truthy (storage Samples.fresh !! "user_id") = false)
    by reflexivity.
  destruct (no_identifier_no_request Samples.fresh Hno)
    as (Hhome & Hreports & Hworkout & Hprofile & Hlog & Hgenerate).
  destruct (Hlog Samples.filledLog "2024-05-01" (Resolved tt))
    as (Hreq & _ & Halert).
  destruct (Hgenerate Samples.workoutKeyTyped (Resolved tt) (Resolved []))
    as (Hreq' & _ & Halert').
  refine (conj _ (conj _ (conj _ (conj _ (conj _ (conj _ (conj _ _))))))).
  - apply (Hhome Home.initial (Resolved []) (Resolved [])).
  - apply Hreports.
  - apply Hworkout.
  - apply Hprofile.
  - exact Hreq.
  - apply Halert; discriminate.
  - exact Hreq'.
  - apply Halert'. discriminate.
Defined.

(** ** Numbers printed with one decimal *)

Lemma scaled_den_pos (e : Z) : (0 < JS.scaled_den e)%Z.
Proof. unfold JS.scaled_den. apply Z.pow_pos_nonneg; lia. Qed.

(** The magnitude is [m * 2^e]. *)
Lemma magnitude_value (m : positive) (e : Z) :
  (JS.magnitude m e == inject_Z (Zpos m) * inject_Z 2 ^ e)%Q.
Proof.
  unfold JS.magnitude, JS.scaled_num, JS.scaled_den.
  destruct (Z.le_gt_cases 0 e) as [He | He].
  - rewrite (Z.max_l e 0), (Z.max_r (- e) 0) by lia.
    rewrite <- Zpower_Qpower by lia. rewrite <- inject_Z_mult.
    reflexivity.
  - rewrite (Z.max_r e 0), (Z.max_l (- e) 0) by lia.
    replace e with (- - e)%Z at 2 by lia. rewrite Qpower_opp.
    rewrite <- Zpower_Qpower by lia.
    rewrite Z.pow_0_r, Z.mul_1_r.
    assert (Hp : (0 < 2 ^ (- e))%Z) by (apply Z.pow_pos_nonneg; lia).
    destruct (2 ^ (- e))%Z as [| p | p] eqn:E; try lia.
    unfold Qeq, Qmult, Qinv, inject_Z. simpl. lia.
Qed.

(** The division of [nearest_scaled], between its bounds. *)
Lemma nearest_scaled_bounds (num den : Z) :
  (0 < den)%Z ->
  let n := JS.nearest_scaled 1 num den in
  (2 * den * n <= 20 * num + den < 2 * den * n + 2 * den)%Z.
Proof.
  intros Hden n. unfold n, JS.nearest_scaled.
  change (10 ^ Z.of_nat 1)%Z with 10%Z.
  pose proof (Z.div_mod (2 * num * 10 + den) (2 * den) ltac:(lia)) as Hdm.
  pose proof (Z.mod_pos_bound (2 * num * 10 + den) (2 * den) ltac:(lia))
    as Hb.
  lia.
Qed.

(** The integer that [toFixed(1)] prints, read in tenths, is the magnitude
    rounded to the nearest tenth; a magnitude half way goes up. *)
Lemma nearest_tenth (m : positive) (e : Z) :
  let n := JS.nearest_scaled 1 (JS.scaled_num m e) (JS.scaled_den e) in
  (- (1 # 20) < inject_Z n / 10 - JS.magnitude m e)%Q
  /\ (inject_Z n / 10 - JS.magnitude m e <= 1 # 20)%Q.
Proof.
  intros n. pose proof (scaled_den_pos e) as Hden.
  pose proof (nearest_scaled_bounds (JS.scaled_num m e) (JS.scaled_den e)
                Hden) as Hn.
  fold n in Hn. cbv zeta in Hn.
  assert (Hp : Z.pos (Z.to_pos (JS.scaled_den e)) = JS.scaled_den e)
    by (apply Z2Pos.id; lia).
  unfold JS.magnitude. generalize dependent (Z.to_pos (JS.scaled_den e)).
  intros p Hp.
  unfold Qlt, Qle, Qminus, Qplus, Qopp, Qdiv, Qmult, Qinv, inject_Z. simpl.
  split; lia.
Qed.

(** A magnitude below [10^21], in integers. *)
Lemma magnitude_small (m : positive) (e : Z) :
  (JS.magnitude m e < inject_Z (10 ^ 21))%Q ->
  (10 ^ 21 * JS.scaled_den e <=? JS.scaled_num m e)%Z = false.
Proof.
  intros Hlt. apply Z.leb_gt. pose proof (scaled_den_pos e) as Hden.
  assert (Hp : Z.pos (Z.to_pos (JS.scaled_den e)) = JS.scaled_den e)
    by (apply Z2Pos.id; lia).
  unfold JS.magnitude, Qlt, inject_Z in Hlt. simpl Qnum in Hlt.
  simpl Qden in Hlt. rewrite Hp in Hlt. lia.
Qed.

Lemma append_truthy (a b : string) :
  JS.str_truthy b = true -> JS.str_truthy (a +:+ b) = true.
Proof. destruct a; simpl; auto. Qed.

Lemma fixed_digits_truthy (n : Z) : JS.str_truthy (JS.fixed_digits 1 n) = true.
Proof. unfold JS.fixed_digits. apply append_truthy. reflexivity. Qed.

Lemma toString_large_truthy (N : Z) (x : float) :
  JS.str_truthy (JS.toString_large N x) = true.
Proof.
  unfold JS.toString_large.
  destruct (JS.shortest_digits 17 1 N _ x) as [s n].
  apply append_truthy. reflexivity.
Qed.

(** [toFixed(1)] never prints the empty string. *)
Lemma toFixed_truthy (x : float) : JS.str_truthy (JS.toFixed 1 x) = true.
Proof.
  unfold JS.toFixed. destruct (Prim2SF x) as [s | s | | s m e].
  - reflexivity.
  - now destruct s.
  - reflexivity.
  - apply append_truthy.
    destruct (10 ^ 21 * JS.scaled_den e <=? JS.scaled_num m e)%Z.
    + apply toString_large_truthy.
    + apply fixed_digits_truthy.
Qed.

Lemma nearest_scaled_nonneg (m : positive) (e : Z) :
  (0 <= JS.nearest_scaled 1 (JS.scaled_num m e) (JS.scaled_den e))%Z.
Proof.
  pose proof (scaled_den_pos e) as Hden. unfold JS.nearest_scaled.
  apply Z.div_pos; [| lia].
  assert (0 <= JS.scaled_num m e)%Z; [| lia].
  unfold JS.scaled_num. apply Z.mul_nonneg_nonneg; [lia |].
  apply Z.pow_nonneg. lia.
Qed.

(** What [toFixed(1)] prints for a finite double below [10^21]. *)
Lemma toFixed_finite (x : float) (s : bool) (m : positive) (e : Z) :
  Prim2SF x = S754_finite s m e ->
  (JS.magnitude m e < inject_Z (10 ^ 21))%Q ->
  JS.toFixed 1 x =
  (if s then "-" else "") +:+
  JS.fixed_digits 1
    (JS.nearest_scaled 1 (JS.scaled_num m e) (JS.scaled_den e)).
Proof.
  intros Hx Hsmall. unfold JS.toFixed. rewrite Hx.
  cbv zeta. now rewrite (magnitude_small m e Hsmall).
Qed.

(** ** Decimal digits *)

(** A property that holds of the ten digits holds below ten. *)
Lemma below_ten (P : N -> Prop) :
  (forall k : nat, (k < 10)%nat -> P (N.of_nat k)) ->
  forall b : N, (b < 10)%N -> P b.
Proof.
  intros H b Hb. rewrite <- (N2Nat.id b). apply H. lia.
Qed.

Tactic Notation "each_digit" ident(k) "by" tactic(tac) :=
  do 10 (destruct k as [| k]; [solve [tac] |]); exfalso; lia.

Lemma of_uint_acc_snoc (d last : Decimal.uint) (acc : positive) :
  Pos.of_uint_acc (snoc d last) acc =
  Pos.of_uint_acc last (Pos.of_uint_acc d acc).
Proof. revert acc. induction d; intros acc; simpl; auto. Qed.

Lemma of_uint_snoc (d : Decimal.uint) (b : N) :
  (b < 10)%N ->
  N.of_uint (snoc d (N.to_uint b)) = (10 * N.of_uint d + b)%N.
Proof.
  revert b. apply (below_ten (fun b => _)). intros k Hk. unfold N.of_uint.
  induction d; simpl; try exact IHd; rewrite ?of_uint_acc_snoc;
    each_digit k by (simpl; lia).
Qed.

Lemma string_of_uint_snoc (d last : Decimal.uint) :
  NilEmpty.string_of_uint (snoc d last) =
  NilEmpty.string_of_uint d +:+ NilEmpty.string_of_uint last.
Proof. induction d; simpl; rewrite ?IHd; reflexivity. Qed.

Lemma to_uint_leading (p : positive) : leading (Pos.to_uint p).
Proof.
  pose proof (DecimalPos.Unsigned.to_of (Pos.to_uint p)) as H.
  rewrite DecimalPos.Unsigned.of_to in H. simpl in H.
  destruct (Pos.to_uint p) as [| l | l | l | l | l | l | l | l | l | l] eqn:E;
    simpl; auto.
  - now apply (DecimalPos.Unsigned.to_uint_nonnil p).
  - unfold Decimal.unorm in H. rewrite nzhead_D0 in H.
    destruct (Decimal.nzhead l) eqn:En; try discriminate.
    + injection H as Hl. subst l.
      now apply (DecimalPos.Unsigned.to_uint_nonzero p).
    + exfalso. apply (nzhead_nonzero l l). congruence.
Qed.

Lemma unorm_leading (d : Decimal.uint) : leading d -> Decimal.unorm d = d.
Proof. destruct d; simpl; tauto. Qed.

Lemma snoc_leading (d last : Decimal.uint) :
  leading d -> leading (snoc d last).
Proof. destruct d; simpl; tauto. Qed.

Lemma leading_nonnil (d : Decimal.uint) : leading d -> d <> Decimal.Nil.
Proof. destruct d; simpl; try tauto; discriminate. Qed.

Lemma NilZero_NilEmpty (d : Decimal.uint) :
  d <> Decimal.Nil -> NilZero.string_of_uint d = NilEmpty.string_of_uint d.
Proof. destruct d; simpl; congruence. Qed.

(** A digit prints the same with both conventions for zero, as one
    character. *)
Lemma digit_string (b : N) :
  (b < 10)%N ->
  NilEmpty.string_of_uint (N.to_uint b) = NilZero.string_of_uint (N.to_uint b)
  /\ String.length (NilZero.string_of_uint (N.to_uint b)) = 1%nat.
Proof.
  revert b. apply (below_ten (fun b => _)). intros k Hk.
  each_digit k by (split; reflexivity).
Qed.

(** The digits of [10 * a + b] are those of [a], then the digit [b]. *)
Lemma decimal_step (n : Z) :
  (10 <= n)%Z ->
  JS.decimal n = JS.decimal (n / 10) +:+ JS.decimal (n mod 10).
Proof.
  intros Hn. unfold JS.decimal.
  pose proof (Z.div_mod n 10 ltac:(lia)) as Hdm.
  pose proof (Z.mod_pos_bound n 10 ltac:(lia)) as Hb.
  assert (Ha : (0 < n / 10)%Z) by (apply Z.div_str_pos; lia).
  destruct (Z.to_N (n / 10)) as [| p] eqn:Ep; [lia |].
  set (b := Z.to_N (n mod 10)).
  assert (Hsplit : Z.to_N n = (10 * N.pos p + b)%N) by (unfold b; lia).
  assert (Hb' : (b < 10)%N) by (unfold b; lia).
  pose proof (to_uint_leading p) as Hlead.
  rewrite Hsplit.
  rewrite <- (DecimalN.Unsigned.of_to (N.pos p)) at 1.
  rewrite <- of_uint_snoc by exact Hb'.
  rewrite DecimalN.Unsigned.to_of.
  change (N.to_uint (N.pos p)) with (Pos.to_uint p).
  rewrite unorm_leading by (now apply snoc_leading).
  rewrite NilZero_NilEmpty by (apply leading_nonnil; now apply snoc_leading).
  rewrite string_of_uint_snoc.
  rewrite <- NilZero_NilEmpty by (now apply leading_nonnil).
  f_equal. apply (digit_string b Hb').
Qed.

Lemma string_length_app (a b : string) :
  String.length (a +:+ b) = (String.length a + String.length b)%nat.
Proof. induction a; simpl; auto. Qed.

Lemma substring_all (b : string) : substring 0 (String.length b) b = b.
Proof. induction b; simpl; congruence. Qed.

Lemma substring_app_l (a b : string) :
  substring 0 (String.length a) (a +:+ b) = a.
Proof. induction a; simpl; [now destruct b | congruence]. Qed.

Lemma substring_app_r (a b : string) :
  substring (String.length a) (String.length b) (a +:+ b) = b.
Proof. induction a; simpl; [apply substring_all | exact IHa]. Qed.

Lemma decimal_digit (n : Z) :
  (0 <= n < 10)%Z -> String.length (JS.decimal n) = 1%nat.
Proof.
  intros H. unfold JS.decimal. apply digit_string. lia.
Qed.

Lemma decimal_nonempty (n : Z) : (1 <= String.length (JS.decimal n))%nat.
Proof.
  unfold JS.decimal. destruct (N.to_uint (Z.to_N n)) eqn:E; simpl; lia.
Qed.

(** A number below ten prints as [0.] and its digit. *)
Lemma fixed_digits_small (b : N) :
  (b < 10)%N ->
  JS.fixed_digits 1 (Z.of_N b) =
  "0." +:+ NilZero.string_of_uint (N.to_uint b).
Proof.
  revert b. apply (below_ten (fun b => _)). intros k Hk.
  each_digit k by reflexivity.
Qed.

(** [fixed_digits 1 n] is the digits of [n / 10], a point, and the digit
    [n mod 10]. *)
Lemma fixed_digits_layout (n : Z) :
  (0 <= n)%Z ->
  JS.fixed_digits 1 n =
  JS.decimal (n / 10) +:+ "." +:+ JS.decimal (n mod 10).
Proof.
  intros Hn. destruct (Z.lt_ge_cases n 10) as [Hlt | Hge].
  - rewrite Z.div_small, Z.mod_small by lia.
    rewrite <- (Z2N.id n) at 1 by lia.
    rewrite fixed_digits_small by lia. reflexivity.
  - unfold JS.fixed_digits. rewrite (decimal_step n Hge).
    pose proof (Z.mod_pos_bound n 10 ltac:(lia)) as Hb.
    pose proof (decimal_digit (n mod 10) Hb) as Hd.
    pose proof (decimal_nonempty (n / 10)) as Ha.
    set (a := JS.decimal (n / 10)) in *.
    set (b := JS.decimal (n mod 10)) in *.
    cbv zeta. rewrite (string_length_app a b), Hd.
    replace (2 - (String.length a + 1))%nat with 0%nat by lia.
    simpl JS.zeros. change ("" +:+ (a +:+ b)) with (a +:+ b).
    rewrite ?string_length_app, ?Hd.
    replace (String.length a + 1 - 1)%nat with (String.length a) by lia.
    rewrite substring_app_l. rewrite <- Hd at 1.
    now rewrite substring_app_r.
Qed.

(** What [toFixed(1)] prints for a finite double below [10^21]: the sign,
    the integer part, a point and one digit, of the magnitude rounded to
    the nearest tenth. *)
Lemma toFixed_rounds (x : float) (s : bool) (m : positive) (e : Z) :
  Prim2SF x = S754_finite s m e ->
  (JS.magnitude m e < inject_Z (10 ^ 21))%Q ->
  exists n : Z,
    (0 <= n)%Z
    /\ JS.toFixed 1 x =
       (if s then "-" else "") +:+
       JS.decimal (n / 10) +:+ "." +:+ JS.decimal (n mod 10)
    /\ (- (1 # 20) < inject_Z n / 10 - JS.magnitude m e)%Q
    /\ (inject_Z n / 10 - JS.magnitude m e <= 1 # 20)%Q.
Proof.
  intros Hx Hsmall.
  exists (JS.nearest_scaled 1 (JS.scaled_num m e) (JS.scaled_den e)).
  pose proof (nearest_scaled_nonneg m e) as Hn.
  refine (conj Hn (conj _ (nearest_tenth m e))).
  rewrite (toFixed_finite x s m e Hx Hsmall).
  now rewrite fixed_digits_layout.
Qed.

(** ** Profile: the body-mass index *)

Lemma and_truthy (a b : JS.jsval) :
  JS.truthy (JS.and a b) = JS.truthy a && JS.truthy b.
Proof. unfold JS.and. destruct (JS.truthy a) eqn:Ha; simpl; auto. Qed.

Lemma missing_or_zero_falsy (f : NumField) :
  missing_or_zero f -> present f = false.
Proof.
  destruct f as [| | x]; simpl; try reflexivity.
  unfold present, JS.num_truthy. simpl. unfold JS.num_truthy.
  now intros ->.
Qed.

Lemma num_truthy_nonzero (x : float) :
  JS.num_truthy x = true -> is_zero x = false /\ is_nan x = false.
Proof.
  unfold JS.num_truthy. destruct (is_zero x), (is_nan x); simpl;
    intros H; try discriminate; split; reflexivity.
Qed.

(** Without a truthy weight and a truthy height there is no index. *)
Lemma bmi_none (u : User) :
  present (user_weight u) = false \/ present (user_height u) = false ->
  Profile.bmi u = None /\ Profile.bmiRow u = Profile.Leftover JS.VNull.
Proof.
  intros H.
  assert (Hb : Profile.bmi u = None).
  { unfold Profile.bmi. rewrite and_truthy. fold (present (user_weight u)).
    fold (present (user_height u)).
    destruct H as [-> | ->]; [| rewrite andb_false_r]; reflexivity. }
  split; [exact Hb |]. unfold Profile.bmiRow. now rewrite Hb.
Qed.

(** With both, the index is the quotient printed by [toFixed(1)]. *)
Lemma bmi_some (u : User) (w h : float) :
  user_weight u = Num w -> user_height u = Num h ->
  JS.num_truthy w = true -> JS.num_truthy h = true ->
  Profile.bmi u = Some (JS.toFixed 1 (w / JS.square (h / 100))).
Proof.
  intros Hw Hh Tw Th. unfold Profile.bmi. rewrite and_truthy, Hw, Hh.
  simpl. now rewrite Tw, Th.
Qed.

(** The index that is computed comes from two numbers, none of them zero. *)
Lemma bmi_some_inv (u : User) (s : string) :
  Profile.bmi u = Some s ->
  exists w h : float,
    user_weight u = Num w /\ user_height u = Num h
    /\ is_zero h = false /\ is_zero w = false
    /\ s = JS.toFixed 1 (w / JS.square (h / 100)).
Proof.
  unfold Profile.bmi. rewrite and_truthy.
  destruct (user_weight u) as [| | w]; simpl; try discriminate.
  destruct (JS.num_truthy w) eqn:Tw; simpl; try discriminate.
  destruct (user_height u) as [| | h]; simpl; try discriminate.
  destruct (JS.num_truthy h) eqn:Th; simpl; try discriminate.
  intros [= <-]. exists w, h.
  apply num_truthy_nonzero in Tw, Th. tauto.
Qed.

(** Counterexample to C5 as stated.  A record with both fields present,
    the weight being 0: no index is computed and no BMI row is shown, where
    the quotient rounded to one decimal would be 0.0. *)
Lemma bmi_zero_weight_not_displayed :
  Profile.bmi (Samples.user (Num 170) (Num 0)) = None
  /\ Profile.bmiRow (Samples.user (Num 170) (Num 0)) =
     Profile.Leftover JS.VNull
  /\ JS.toFixed 1 (0 / JS.square (170 / 100)) = "0.0".
Proof. vm_compute. repeat split. Qed.

(** C5, amended. For every fetched user whose weight and height are
    numbers other than 0 and NaN, the BMI row shows the binary64 quotient
    weight / (height/100)^2 printed by toFixed(1): when the quotient is
    finite and below 10^21 in magnitude, that is the sign and the magnitude
    rounded to the nearest tenth, half way going up, with one decimal.  For
    height 170 and weight 70 the row shows 24.2.  When the weight or the
    height is missing, null, 0 or NaN no index is computed and no row is
    shown. *)
Theorem bmi_displayed :
  (forall (u : User) (w h : float),
     user_weight u = Num w -> user_height u = Num h ->
     JS.num_truthy w = true -> JS.num_truthy h = true ->
     let q := (w / JS.square (h / 100))%float in
     Profile.bmi u = Some (JS.toFixed 1 q)
     /\ Profile.bmiRow u = Profile.InfoRow "BMI" [JS.VStr (JS.toFixed 1 q)]
     /\ (forall (s : bool) (m : positive) (e : Z),
           Prim2SF q = S754_finite s m e ->
           (JS.magnitude m e < inject_Z (10 ^ 21))%Q ->
           exists n : Z,
             (0 <= n)%Z
             /\ JS.toFixed 1 q =
                (if s then "-" else "") +:+
                JS.decimal (n / 10) +:+ "." +:+ JS.decimal (n mod 10)
             /\ (- (1 # 20) < inject_Z n / 10 - JS.magnitude m e)%Q
             /\ (inject_Z n / 10 - JS.magnitude m e <= 1 # 20)%Q))
  /\ Profile.bmiRow (Samples.user (Num 170) (Num 70)) =
     Profile.InfoRow "BMI" [JS.VStr "24.2"]
  /\ (forall u : User,
        present (user_weight u) = false \/ present (user_height u) = false ->
        Profile.bmi u = None
        /\ Profile.bmiRow u = Profile.Leftover JS.VNull).
Proof.
  refine (conj _ (conj _ _)).
  - intros u w h Hw Hh Tw Th q.
    pose proof (bmi_some u w h Hw Hh Tw Th) as Hb. fold q in Hb.
    refine (conj Hb (conj _ _)).
    + unfold Profile.bmiRow. rewrite Hb. now rewrite toFixed_truthy.
    + intros s m e Hq Hsmall. now apply toFixed_rounds.
  - vm_compute. reflexivity.
  - apply bmi_none.
Qed.

Lemma bmi_displayed_witness :
  Profile.bmi (Samples.user (Num 170) (Num 70)) = Some "24.2"
  /\ (exists n : Z,
        (0 <= n)%Z
        /\ "24.2" = "" +:+ JS.decimal (n / 10) +:+ "." +:+ JS.decimal (n mod 10)
        /\ (- (1 # 20) <
            inject_Z n / 10 - JS.magnitude 6817732999912084 (-48))%Q
        /\ (inject_Z n / 10 - JS.magnitude 6817732999912084 (-48)
            <= 1 # 20)%Q)
  /\ Profile.bmi (Samples.user Null (Num 70)) = None.
Proof.
  destruct bmi_displayed as (Hsome & _ & Hnone).
  destruct (Hsome (Samples.user (Num 170) (Num 70)) 70%float 170%float
              eq_refl eq_refl eq_refl eq_refl) as (Hb & _ & Hround).
  refine (conj Hb (conj _ _)).
  - apply (Hround false 6817732999912084%positive (-48)%Z).
    + vm_compute. reflexivity.
    + vm_compute. reflexivity.
  - apply (Hnone (Samples.user Null (Num 70))). right. reflexivity.
Defined.

(** Counterexample to C10 as stated.  The guard looks at the height, not
    at the divisor: a height that is not zero but whose square underflows
    passes it, the quotient is taken by zero and the row shows it. *)
Lemma bmi_of_a_tiny_height :
  JS.num_truthy Samples.tinyHeight = true
  /\ JS.square (Samples.tinyHeight / 100) = 0%float
  /\ (70 / JS.square (Samples.tinyHeight / 100))%float = infinity
  /\ Profile.bmiRow (Samples.user (Num Samples.tinyHeight) (Num 70)) =
     Profile.InfoRow "BMI" [JS.VStr "Infinity"].
Proof. vm_compute. repeat split. Qed.

(** C10, amended. The index is computed under the guard [user.weight &&
    user.height], so a division with a height or a weight of zero is not
    reachable: for every user whose height is 0, whose weight is 0, or who
    has one of them null or missing, the quotient is not evaluated and the
    BMI row is not shown; with a weight of 0, null or missing the weight
    row is not shown either; and whenever the quotient is evaluated, the
    height and the weight are numbers other than zero. *)
Theorem bmi_guarded (u : User) :
  (missing_or_zero (user_height u) \/ missing_or_zero (user_weight u) ->
   Profile.bmi u = None
   /\ Profile.bmiRow u = Profile.Leftover JS.VNull)
  /\ (missing_or_zero (user_weight u) ->
      Profile.weightRow u =
      Profile.Leftover (NumField_value (user_weight u)))
  /\ (forall s : string, Profile.bmi u = Some s ->
      exists w h : float,
        user_weight u = Num w /\ user_height u = Num h
        /\ is_zero h = false /\ is_zero w = false
        /\ s = JS.toFixed 1 (w / JS.square (h / 100))).
Proof.
  refine (conj _ (conj _ _)).
  - intros [H | H]; apply bmi_none; [right | left];
      now apply missing_or_zero_falsy.
  - intros H. apply missing_or_zero_falsy in H. unfold Profile.weightRow.
    unfold present in H. now rewrite H.
  - apply bmi_some_inv.
Qed.

Lemma bmi_guarded_witness :
  (Profile.bmi (Samples.user (Num 0) (Num 70)) = None
   /\ Profile.bmiRow (Samples.user (Num 0) (Num 70)) =
      Profile.Leftover JS.VNull)
  /\ Profile.weightRow (Samples.user (Num 170) (Num 0)) =
     Profile.Leftover (JS.VNum 0)
  /\ (exists w h : float,
        user_weight (Samples.user (Num 170) (Num 70)) = Num w
        /\ user_height (Samples.user (Num 170) (Num 70)) = Num h
        /\ is_zero h = false /\ is_zero w = false
        /\ "24.2" = JS.toFixed 1 (w / JS.square (h / 100))).
Proof.
  refine (conj _ (conj _ _)).
  - apply (proj1 (bmi_guarded (Samples.user (Num 0) (Num 70)))).
    left. reflexivity.
  - apply (proj1 (proj2 (bmi_guarded (Samples.user (Num 170) (Num 0))))).
    reflexivity.
  - apply (proj2 (proj2 (bmi_guarded (Samples.user (Num 170) (Num 70))))).
    vm_compute. reflexivity.
Defined.


(** * Further properties *)

(** ** The daily-log form over sequences of events *)

Lemma opt_truthy_default (o : option string) :
  JS.opt_truthy o = true -> JS.str_truthy (default "" o) = true.
Proof. destruct o; simpl; auto. Qed.

Lemma negb_false_opt_truthy (o : option string) :
  negb (JS.opt_truthy o) = false -> JS.opt_truthy o = true.
Proof. now destruct (JS.opt_truthy o). Qed.

(** What a dialog button can do on the form: reset it, or nothing. *)
Lemma daily_log_press_world (a : ButtonAction) (st : DailyLog.State)
  (w : World) : (DailyLog.press a st w).2 = w.
Proof. destruct a; reflexivity. Qed.

Lemma daily_log_onPress_world (text : string) (st : DailyLog.State)
  (w : World) : (DailyLog.onPress text st w).2 = w.
Proof.
  unfold DailyLog.onPress, pressButton.
  destruct (last (alerts w)) as [a |]; [| reflexivity].
  destruct (find _ (alert_buttons a)) as [b |]; [| reflexivity].
  apply daily_log_press_world.
Qed.

Lemma daily_log_step_keeps (e : DailyLogForm.Event) (st : DailyLog.State)
  (w : World) :
  Forall (fun r => log_ok r = true) (requests w) ->
  let w' := (DailyLogForm.step e st w).2 in
  Forall (fun r => log_ok r = true) (requests w')
  /\ storage w' = storage w /\ route w' = route w.
Proof.
  intros Hw. destruct e; try (simpl; repeat split; assumption).
  - (* submit *)
    simpl. unfold DailyLog.onSubmit, fire, DailyLog.handleSubmit.
    destruct (negb (JS.str_truthy (DailyLog.breakfastFood st))
              || negb (JS.str_truthy (DailyLog.lunchFood st))
              || negb (JS.str_truthy (DailyLog.dinnerFood st))) eqn:Hmeals.
    + simpl. repeat split; assumption.
    + unfold seq, set, effect, getItem, AsyncStorage_getItem. simpl.
      destruct (negb (JS.opt_truthy (storage w !! "user_id"))) eqn:Hid.
      * simpl. repeat split; assumption.
      * apply negb_false_opt_truthy, opt_truthy_default in Hid.
        apply orb_false_elim in Hmeals as [Hmeals Hd].
        apply orb_false_elim in Hmeals as [Hb Hl].
        apply negb_false_truthy in Hb, Hl, Hd.
        assert (Hok : log_ok (PostDailyLogs
                        (DailyLog.logData st
                           (default "" (storage w !! "user_id")) today))
                      = true).
        { simpl. unfold complete_log. simpl. now rewrite Hb, Hl, Hd, Hid. }
        destruct reply; simpl; repeat split;
          apply Forall_app; split; try assumption; now constructor.
  - (* a dialog button *)
    cbv zeta. simpl DailyLogForm.step. rewrite daily_log_onPress_world.
    repeat split; assumption.
Qed.

(** X1. Whatever the user does on the daily-log form, in whatever order,
    and whatever the server answers: every daily log the screen posts has
    its three meals and its user identifier filled in, and the screen
    neither writes the local storage nor leaves its route. *)
Theorem daily_log_posts_complete_logs (es : list DailyLogForm.Event) :
  forall (st : DailyLog.State) (w : World),
  Forall (fun r => log_ok r = true) (requests w) ->
  let w' := (DailyLogForm.run es st w).2 in
  Forall (fun r => log_ok r = true) (requests w')
  /\ storage w' = storage w /\ route w' = route w.
Proof.
  induction es as [| e es IH]; intros st w Hw; simpl.
  - repeat split; assumption.
  - unfold seq. pose proof (daily_log_step_keeps e st w Hw) as Hstep.
    destruct (DailyLogForm.step e st w) as [st1 w1]. simpl in Hstep.
    destruct Hstep as (H1 & Hs & Hr).
    destruct (IH st1 w1 H1) as (H2 & Hs' & Hr').
    repeat split; [assumption | congruence | congruence].
Qed.

Lemma daily_log_posts_complete_logs_witness :
  Forall (fun r => log_ok r = true)
    (requests (DailyLogForm.run MoreSamples.morning DailyLog.initial
                 Samples.registered).2)
  /\ storage (DailyLogForm.run MoreSamples.morning DailyLog.initial
                Samples.registered).2 = storage Samples.registered
  /\ route (DailyLogForm.run MoreSamples.morning DailyLog.initial
              Samples.registered).2 = route Samples.registered.
Proof.
  apply (daily_log_posts_complete_logs MoreSamples.morning DailyLog.initial
           Samples.registered).
  constructor.
Defined.

(** X2. Once a daily log is saved and the dialog confirmed, pressing the
    submit button again sends nothing: the reset has emptied the meals, so
    the second press stops at the 'Incomplete' dialog and the server has
    received the log once. *)
Theorem daily_log_no_resubmission (st : DailyLog.State) (w : World)
  (today again : string) (reply : Reply unit) :
  DailyLog.breakfastFood st <> "" -> DailyLog.lunchFood st <> "" ->
  DailyLog.dinnerFood st <> "" ->
  JS.opt_truthy (storage w !! "user_id") = true ->
  let w' :=
    (DailyLogForm.run
       [ DailyLogForm.PressSubmit today (Resolved tt);
         DailyLogForm.PressDialog "OK";
         DailyLogForm.PressSubmit again reply ] st w).2 in
  requests w' =
    requests w
    ++ [PostDailyLogs
          (DailyLog.logData st (default "" (storage w !! "user_id")) today)]
  /\ alerts w' = alerts w ++ [savedDialog; incompleteDialog].
Proof.
  intros Hb Hl Hd Hid. cbv zeta. simpl DailyLogForm.run. unfold seq.
  simpl DailyLogForm.step.
  rewrite (daily_log_saved st w today Hb Hl Hd Hid).
  unfold DailyLog.onPress.
  rewrite (pressButton_last DailyLog.press "OK" savedDialog
             {| btn_text := "OK"; btn_onPress := ResetForm |});
    [| simpl; apply last_snoc | reflexivity].
  simpl. split; [reflexivity |]. now rewrite <- app_assoc.
Qed.

Lemma daily_log_no_resubmission_witness :
  requests
    (DailyLogForm.run
       [ DailyLogForm.PressSubmit "2024-05-01" (Resolved tt);
         DailyLogForm.PressDialog "OK";
         DailyLogForm.PressSubmit "2024-05-01" (Resolved tt) ]
       Samples.filledLog Samples.registered).2 =
    requests Samples.registered
    ++ [PostDailyLogs
          (DailyLog.logData Samples.filledLog
             (default "" (storage Samples.registered !! "user_id"))
             "2024-05-01")]
  /\ alerts
       (DailyLogForm.run
          [ DailyLogForm.PressSubmit "2024-05-01" (Resolved tt);
            DailyLogForm.PressDialog "OK";
            DailyLogForm.PressSubmit "2024-05-01" (Resolved tt) ]
          Samples.filledLog Samples.registered).2 =
     alerts Samples.registered ++ [savedDialog; incompleteDialog].
Proof.
  apply (daily_log_no_resubmission Samples.filledLog Samples.registered
           "2024-05-01" "2024-05-01" (Resolved tt));
    try discriminate.
  vm_compute. reflexivity.
Defined.

(** ** Busy flags *)

Ltac reports_handlers :=
  unfold fire, Reports.loadReports, Reports.pickDocument,
    Reports.uploadReport, Reports.submitApiKeyAndAnalyze,
    Reports.analyzeReport, Reports.uploadFailed, Reports.loadReports,
    getItem, seq, set, effect, skip, AsyncStorage_getItem.

Ltac workout_handlers :=
  unfold fire, Workout.loadWorkoutPlans, Workout.submitApiKeyAndGenerate,
    Workout.generateWorkoutPlan, Workout.loadWorkoutPlans,
    getItem, seq, set, effect, skip, AsyncStorage_getItem.






(** ** The reports and workout screens *)

Lemma trim_truthy (s : string) :
  JS.str_truthy (JS.trim s) = true -> JS.str_truthy s = true.
Proof. destruct s; simpl; auto. Qed.

Lemma reports_step_keeps_storage (e : Reports.Event) (st : Reports.State)
  (w : World) :
  storage (Reports.step e st w).2 = storage w
  /\ route (Reports.step e st w).2 = route w.
Proof.
  destruct e; simpl; reports_handlers; simpl; branches; simpl;
    split; reflexivity.
Qed.

Lemma workout_step_keeps_storage (e : Workout.Event) (st : Workout.State)
  (w : World) :
  storage (Workout.step e st w).2 = storage w
  /\ route (Workout.step e st w).2 = route w.
Proof.
  destruct e; simpl; workout_handlers; simpl; branches; simpl;
    split; reflexivity.
Qed.

(** X4. The credential lives in the component only: whatever the user
    does on the reports or on the workout screen, key typing included, and
    whatever the server answers, the local storage is left as it was, and
    so is the route. *)
Theorem credential_never_stored :
  (forall (es : list Reports.Event) (st : Reports.State) (w : World),
     storage (Reports.run es st w).2 = storage w
     /\ route (Reports.run es st w).2 = route w)
  /\ (forall (es : list Workout.Event) (st : Workout.State) (w : World),
        storage (Workout.run es st w).2 = storage w
        /\ route (Workout.run es st w).2 = route w).
Proof.
  split.
  - induction es as [| e es IH]; intros st w; simpl; [split; reflexivity |].
    unfold seq. pose proof (reports_step_keeps_storage e st w) as [Hs Hr].
    destruct (Reports.step e st w) as [st1 w1]. simpl in Hs, Hr.
    destruct (IH st1 w1) as [Hs' Hr']. split; congruence.
  - induction es as [| e es IH]; intros st w; simpl; [split; reflexivity |].
    unfold seq. pose proof (workout_step_keeps_storage e st w) as [Hs Hr].
    destruct (Workout.step e st w) as [st1 w1]. simpl in Hs, Hr.
    destruct (IH st1 w1) as [Hs' Hr']. split; congruence.
Qed.

(** With a key in the component, the trigger sends the analysis at once,
    then refreshes the list if the analysis resolved. *)
Lemma analyze_sends (st : Reports.State) (w : World) (reportId : string)
  (reply : Reply unit) (listReply : Reply (list Report)) :
  Reports.hfApiKey st <> "" ->
  requests (Reports.step (Reports.PressAnalyze reportId reply listReply)
              st w).2 =
  requests w
  ++ PostAnalyze reportId (Reports.hfApiKey st)
     :: after reply (reportsRefresh w).
Proof.
  intros Hkey. apply str_truthy_true in Hkey. simpl.
  unfold fire, Reports.analyzeReport. rewrite Hkey. simpl.
  unfold reportsRefresh, after. reports_handlers. simpl.
  destruct reply; simpl; [| reflexivity].
  destruct (JS.opt_truthy (storage w !! "user_id")); simpl;
    destruct listReply; simpl; rewrite <- ?app_assoc, ?app_nil_r;
    reflexivity.
Qed.

Lemma generate_sends (st : Workout.State) (w : World) (reply : Reply unit)
  (listReply : Reply (list WorkoutPlan)) :
  Workout.hfApiKey st <> "" ->
  JS.opt_truthy (storage w !! "user_id") = true ->
  requests (Workout.step (Workout.PressGenerate reply listReply) st w).2 =
  requests w
  ++ PostGenerate (default "" (storage w !! "user_id")) (Workout.hfApiKey st)
     :: after reply (plansRefresh w).
Proof.
  intros Hkey Hid. apply str_truthy_true in Hkey. simpl.
  unfold fire, Workout.generateWorkoutPlan. rewrite Hkey. simpl.
  unfold plansRefresh, after. workout_handlers. simpl. rewrite Hid. simpl.
  destruct reply; simpl; [| reflexivity].
  rewrite Hid. destruct listReply; simpl; rewrite <- ?app_assoc;
    reflexivity.
Qed.

(** X5. The prompt on the reports screen, from the first trigger to the
    request: with no key yet, asking for the analysis of a report, typing a
    key that is not blank and confirming sends exactly one analysis
    request, for that report and with that key, followed by the refresh of
    the list when it resolved; the prompt is closed, the pending report
    forgotten, and the key stays in the component for the next trigger. *)
Theorem analysis_prompt_flow (st : Reports.State) (w : World)
  (reportId key : string) (first reply : Reply unit)
  (firstList listReply : Reply (list Report)) :
  Reports.hfApiKey st = "" -> reportId <> "" -> JS.trim key <> "" ->
  let '(st', w') :=
    Reports.run
      [ Reports.PressAnalyze reportId first firstList;
        Reports.ChangeApiKey key;
        Reports.PressConfirm reply listReply ] st w in
  requests w' =
    requests w ++ PostAnalyze reportId key :: after reply (reportsRefresh w)
  /\ Reports.showApiKeyInput st' = false
  /\ Reports.selectedReportForAnalysis st' = None
  /\ Reports.hfApiKey st' = key
  /\ Reports.analyzing st' = false.
Proof.
  intros Hempty Hid Hkey.
  apply str_truthy_true in Hid, Hkey.
  pose proof (trim_truthy key Hkey) as Hkey'.
  simpl Reports.run. unfold seq. simpl Reports.step.
  unfold fire at 1. unfold Reports.analyzeReport at 1. rewrite Hempty.
  simpl. unfold fire, Reports.submitApiKeyAndAnalyze. simpl.
  rewrite Hkey. simpl. rewrite Hid. simpl.
  unfold Reports.analyzeReport. simpl. rewrite Hkey'. simpl.
  unfold reportsRefresh, after. reports_handlers. simpl.
  destruct reply; simpl; [| repeat split].
  destruct (JS.opt_truthy (storage w !! "user_id")); simpl;
    destruct listReply; simpl; rewrite <- ?app_assoc, ?app_nil_r;
    repeat split.
Qed.

Lemma analysis_prompt_flow_witness :
  let '(st', w') :=
    Reports.run
      [ Reports.PressAnalyze "rep-1" (Resolved tt) (Resolved []);
        Reports.ChangeApiKey "hf_secret";
        Reports.PressConfirm (Resolved tt)
          (Resolved [MoreSamples.oneReport]) ]
      MoreSamples.listed Samples.registered in
  requests w' =
    requests Samples.registered
    ++ PostAnalyze "rep-1" "hf_secret"
       :: after (Resolved tt) (reportsRefresh Samples.registered)
  /\ Reports.showApiKeyInput st' = false
  /\ Reports.selectedReportForAnalysis st' = None
  /\ Reports.hfApiKey st' = "hf_secret"
  /\ Reports.analyzing st' = false.
Proof.
  apply (analysis_prompt_flow MoreSamples.listed Samples.registered
           "rep-1" "hf_secret" (Resolved tt) (Resolved tt) (Resolved [])
           (Resolved [MoreSamples.oneReport]));
    [reflexivity | discriminate | discriminate].
Defined.

(** X6. The two checks of the key differ.  A key that is blank but not
    empty is refused by the confirm button of the prompt, with a dialog
    and nothing sent; the trigger itself tests emptiness only and sends
    the blank key: the analysis on the reports screen, the generation on
    the workout screen. *)
Theorem blank_key_checks (key : string) :
  key <> "" -> JS.trim key = "" ->
  (forall (st : Reports.State) (w : World) (reply : Reply unit)
     (listReply : Reply (list Report)),
     Reports.hfApiKey st = key ->
     Reports.step (Reports.PressConfirm reply listReply) st w =
       (st, Alert_alert "Error"
              (JS.VStr "Please enter your Hugging Face API key") [] w)
     /\ forall reportId : string,
        requests (Reports.step
                    (Reports.PressAnalyze reportId reply listReply) st w).2 =
        requests w
        ++ PostAnalyze reportId key :: after reply (reportsRefresh w))
  /\ (forall (st : Workout.State) (w : World) (reply : Reply unit)
        (listReply : Reply (list WorkoutPlan)),
        Workout.hfApiKey st = key ->
        Workout.step (Workout.PressConfirm reply listReply) st w =
          (st, Alert_alert "Error"
                 (JS.VStr "Please enter your Hugging Face API key") [] w)
        /\ (JS.opt_truthy (storage w !! "user_id") = true ->
            requests (Workout.step
                        (Workout.PressGenerate reply listReply) st w).2 =
            requests w
            ++ PostGenerate (default "" (storage w !! "user_id")) key
               :: after reply (plansRefresh w))).
Proof.
  intros Hne Hblank. split.
  - intros st w reply listReply Hkey. split.
    + simpl. unfold fire, Reports.submitApiKeyAndAnalyze.
      rewrite Hkey, Hblank. reflexivity.
    + intros reportId. rewrite <- Hkey. apply analyze_sends. congruence.
  - intros st w reply listReply Hkey. split.
    + simpl. unfold fire, Workout.submitApiKeyAndGenerate.
      rewrite Hkey, Hblank. reflexivity.
    + intros Hid. rewrite <- Hkey. apply generate_sends; congruence.
Qed.

Lemma blank_key_checks_witness :
  Reports.step (Reports.PressConfirm (Resolved tt) (Resolved []))
    (Reports.setHfApiKey MoreSamples.blankKey Reports.initial)
    Samples.registered =
    (Reports.setHfApiKey MoreSamples.blankKey Reports.initial,
     Alert_alert "Error" (JS.VStr "Please enter your Hugging Face API key")
       [] Samples.registered)
  /\ requests (Reports.step
                 (Reports.PressAnalyze "rep-1" (Resolved tt) (Resolved []))
                 (Reports.setHfApiKey MoreSamples.blankKey Reports.initial)
                 Samples.registered).2 =
     requests Samples.registered
     ++ PostAnalyze "rep-1" MoreSamples.blankKey
        :: after (Resolved tt) (reportsRefresh Samples.registered)
  /\ requests (Workout.step
                 (Workout.PressGenerate (Resolved tt) (Resolved []))
                 (Workout.setHfApiKey MoreSamples.blankKey Workout.initial)
                 Samples.registered).2 =
     requests Samples.registered
     ++ PostGenerate (default "" (storage Samples.registered !! "user_id"))
          MoreSamples.blankKey
        :: after (Resolved tt) (plansRefresh Samples.registered).
Proof.
  assert (Hne : MoreSamples.blankKey <> "") by discriminate.
  assert (Hblank : JS.trim MoreSamples.blankKey = "") by reflexivity.
  destruct (blank_key_checks MoreSamples.blankKey Hne Hblank) as [Hr Hw].
  destruct (Hr (Reports.setHfApiKey MoreSamples.blankKey Reports.initial)
              Samples.registered (Resolved tt) (Resolved []) eq_refl)
    as [Hconfirm Hsend].
  destruct (Hw (Workout.setHfApiKey MoreSamples.blankKey Workout.initial)
              Samples.registered (Resolved tt) (Resolved []) eq_refl)
    as [_ Hgen].
  refine (conj Hconfirm (conj (Hsend "rep-1") _)).
  apply Hgen. vm_compute. reflexivity.
Defined.

(** X7. The life of an upload.  With no file selected the button raises
    the 'No File' dialog and nothing else.  With a file, a read and a POST
    that resolve send the file under the identifier the screen holds, raise
    the success dialog, clear the selection and refresh the list.  When
    the read or the POST fails, the selection and the list stay as they
    were and no refresh is made; a failed read sends nothing at all.  A
    file picked just before is the file that is sent. *)
Theorem upload_lifecycle (st : Reports.State) (w : World) :
  (forall (fileRead : Reply string) (reply : Reply unit)
     (listReply : Reply (list Report)),
     Reports.selectedFile st = None ->
     Reports.step (Reports.PressUpload fileRead reply listReply) st w =
     (st, Alert_alert "No File" (JS.VStr "Please select a PDF file first")
            [] w))
  /\ (forall (file : PickedFile) (base64 : string)
        (listReply : Reply (list Report)),
        Reports.selectedFile st = Some file ->
        let '(st', w') :=
          Reports.step
            (Reports.PressUpload (Resolved base64) (Resolved tt) listReply)
            st w in
        requests w' =
          requests w
          ++ PostUpload (Reports.userId st) (pdfPart file)
             :: reportsRefresh w
        /\ alerts w' = alerts w ++ [uploadedDialog]
        /\ Reports.selectedFile st' = None
        /\ Reports.uploading st' = false)
  /\ (forall (file : PickedFile) (fileRead : Reply string)
        (error : JsError) (listReply : Reply (list Report)),
        Reports.selectedFile st = Some file ->
        let '(st', w') :=
          Reports.step
            (Reports.PressUpload fileRead (Rejected error) listReply) st w in
        requests w' =
          requests w
          ++ after fileRead [PostUpload (Reports.userId st) (pdfPart file)]
        /\ Reports.selectedFile st' = Some file
        /\ Reports.reports st' = Reports.reports st
        /\ Reports.uploading st' = false)
  /\ (forall (file : PickedFile) (base64 : string)
        (listReply : Reply (list Report)),
        requests
          (Reports.run
             [ Reports.PressSelect (Resolved (Some file));
               Reports.PressUpload (Resolved base64) (Resolved tt)
                 listReply ] st w).2 =
        requests w
        ++ PostUpload (Reports.userId st) (pdfPart file)
           :: reportsRefresh w).
Proof.
  refine (conj _ (conj _ (conj _ _))).
  - intros fileRead reply listReply Hnone. simpl.
    unfold fire, Reports.uploadReport. now rewrite Hnone.
  - intros file base64 listReply Hfile. simpl.
    unfold fire, Reports.uploadReport. rewrite Hfile.
    unfold reportsRefresh. reports_handlers. simpl.
    destruct (JS.opt_truthy (storage w !! "user_id")); simpl;
      destruct listReply; simpl; rewrite <- ?app_assoc; repeat split.
  - intros file fileRead error listReply Hfile. simpl.
    unfold fire, Reports.uploadReport. rewrite Hfile.
    destruct fileRead; simpl; rewrite ?app_nil_r; repeat split;
      exact Hfile.
  - intros file base64 listReply. simpl Reports.run. unfold seq.
    simpl Reports.step. unfold Reports.pickDocument, seq, set, effect.
    unfold fire, Reports.uploadReport. simpl.
    unfold reportsRefresh. reports_handlers. simpl.
    destruct (JS.opt_truthy (storage w !! "user_id")); simpl;
      destruct listReply; simpl; rewrite <- ?app_assoc; reflexivity.
Qed.

Lemma upload_lifecycle_witness :
  Reports.step
    (Reports.PressUpload (Resolved "JVBERi0xLjQK") (Resolved tt)
       (Resolved []))
    MoreSamples.listed Samples.registered =
    (MoreSamples.listed,
     Alert_alert "No File" (JS.VStr "Please select a PDF file first") []
       Samples.registered)
  /\ (let '(st', w') :=
        Reports.step
          (Reports.PressUpload (Resolved "JVBERi0xLjQK") (Resolved tt)
             (Resolved [MoreSamples.oneReport]))
          Samples.fileSelected Samples.registered in
      requests w' =
        requests Samples.registered
        ++ PostUpload (Reports.userId Samples.fileSelected)
             (pdfPart Samples.somePdf)
           :: reportsRefresh Samples.registered
      /\ alerts w' = alerts Samples.registered ++ [uploadedDialog]
      /\ Reports.selectedFile st' = None
      /\ Reports.uploading st' = false)
  /\ (let '(st', w') :=
        Reports.step
          (Reports.PressUpload (Resolved "JVBERi0xLjQK")
             (Rejected Samples.networkDown) (Resolved []))
          Samples.fileSelected Samples.registered in
      requests w' =
        requests Samples.registered
        ++ after (Resolved "JVBERi0xLjQK")
             [PostUpload (Reports.userId Samples.fileSelected)
                (pdfPart Samples.somePdf)]
      /\ Reports.selectedFile st' = Some Samples.somePdf
      /\ Reports.reports st' = Reports.reports Samples.fileSelected
      /\ Reports.uploading st' = false).
Proof.
  destruct (upload_lifecycle MoreSamples.listed Samples.registered)
    as (Hnone & _).
  destruct (upload_lifecycle Samples.fileSelected Samples.registered)
    as (_ & Hok & Hfail & _).
  refine (conj _ (conj _ _)).
  - apply Hnone. reflexivity.
  - exact (Hok Samples.somePdf "JVBERi0xLjQK"
             (Resolved [MoreSamples.oneReport]) eq_refl).
  - exact (Hfail Samples.somePdf (Resolved "JVBERi0xLjQK")
             Samples.networkDown (Resolved []) eq_refl).
Defined.

(** X8. A list that cannot be fetched tells the user nothing: when the
    GET of the reports, of the plans or of the profile fails, no dialog is
    raised, the failure goes to the console, the list shown stays the one
    of before, and the profile screen, which has no user yet, stays on its
    loading view. *)
Theorem failed_fetch_is_silent (w : World) (error : JsError) :
  JS.opt_truthy (storage w !! "user_id") = true ->
  (forall st : Reports.State,
     let '(st', w') := Reports.loadReports (Rejected error) st w in
     alerts w' = alerts w
     /\ console w' = console w ++ ["Error loading reports:"]
     /\ Reports.reports st' = Reports.reports st
     /\ Reports.loading st' = false)
  /\ (forall st : Workout.State,
        let '(st', w') := Workout.loadWorkoutPlans (Rejected error) st w in
        alerts w' = alerts w
        /\ console w' = console w ++ ["Error loading plans:"]
        /\ Workout.workoutPlans st' = Workout.workoutPlans st
        /\ Workout.loading st' = false)
  /\ (forall st : Profile.State,
        let '(st', w') := Profile.loadUserProfile (Rejected error) st w in
        alerts w' = alerts w
        /\ console w' = console w ++ ["Error loading profile:"]
        /\ st' = st
        /\ (Profile.user st = None ->
            ProfileView.render st' = ProfileView.Loading)).
Proof.
  intros Hid. refine (conj _ (conj _ _)); intros st.
  - unfold Reports.loadReports, getItem, AsyncStorage_getItem.
    rewrite Hid. simpl. repeat split.
  - unfold Workout.loadWorkoutPlans, getItem, AsyncStorage_getItem.
    rewrite Hid. simpl. repeat split.
  - unfold Profile.loadUserProfile, getItem, AsyncStorage_getItem.
    rewrite Hid. simpl. repeat split.
    unfold ProfileView.render. now intros ->.
Qed.

Lemma failed_fetch_is_silent_witness :
  (let '(st', w') :=
     Reports.loadReports (Rejected Samples.networkDown) MoreSamples.listed
       Samples.registered in
   alerts w' = alerts Samples.registered
   /\ console w' = console Samples.registered ++ ["Error loading reports:"]
   /\ Reports.reports st' = Reports.reports MoreSamples.listed
   /\ Reports.loading st' = false)
  /\ (let '(st', w') :=
        Profile.loadUserProfile (Rejected Samples.networkDown)
          Profile.initial Samples.registered in
      alerts w' = alerts Samples.registered
      /\ console w' =
         console Samples.registered ++ ["Error loading profile:"]
      /\ st' = Profile.initial
      /\ ProfileView.render st' = ProfileView.Loading).
Proof.
  assert (Hid : JS.opt_truthy (storage Samples.registered !! "user_id")
                = true) by (vm_compute; reflexivity).
  destruct (failed_fetch_is_silent Samples.registered Samples.networkDown
              Hid) as (Hreports & _ & Hprofile).
  split.
  - apply (Hreports MoreSamples.listed).
  - pose proof (Hprofile Profile.initial) as H.
    destruct (Profile.loadUserProfile (Rejected Samples.networkDown)
                Profile.initial Samples.registered) as [st' w'].
    destruct H as (Ha & Hc & Hs & Hv).
    repeat split; try assumption. apply Hv. reflexivity.
Defined.

(** ** The home screen *)

(** X9. The dashboard makes its two requests in one [try]: when the GET
    of the reports fails the GET of the logs is not made and the screen
    keeps what it showed; when it resolves the logs are asked for next,
    with a limit of 3.  The latest report is the first of the list, and an
    empty list leaves the report shown before in place, so the counter of
    reports keeps saying '1+'.  No failure raises a dialog. *)
Theorem dashboard_requests (id : string) (st : Home.State) (w : World)
  (logsRes : Reply (list LogData)) :
  (forall error : JsError,
     Home.loadDashboardData id (Rejected error) logsRes st w =
     (st, console_error "Error loading dashboard:"
            (axios (GetHealthReports id) w)))
  /\ (forall data : list Report,
        let '(st', w') :=
          Home.loadDashboardData id (Resolved data) logsRes st w in
        requests w' = requests w ++ [GetHealthReports id; GetDailyLogs id 3]
        /\ alerts w' = alerts w
        /\ Home.latestReport st' =
           match data with
           | first :: _ => Some first
           | [] => Home.latestReport st
           end
        /\ Home.recentLogs st' =
           match logsRes with
           | Resolved logs => logs
           | Rejected _ => Home.recentLogs st
           end)
  /\ (forall report : Report,
        Home.latestReport st = Some report ->
        HomeView.reportsStat
          (Home.loadDashboardData id (Resolved []) logsRes st w).1 = "1+").
Proof.
  refine (conj _ (conj _ _)).
  - intros error. reflexivity.
  - intros data. unfold Home.loadDashboardData, seq, set, effect, skip.
    destruct data, logsRes; simpl; rewrite <- ?app_assoc; repeat split.
  - intros report Hshown.
    unfold Home.loadDashboardData, seq, set, effect, skip,
      HomeView.reportsStat.
    destruct logsRes; simpl; now rewrite Hshown.
Qed.

Lemma dashboard_requests_witness :
  HomeView.reportsStat
    (Home.loadDashboardData "u-1" (Resolved []) (Resolved [])
       MoreSamples.homeWithReport Samples.registered).1 = "1+".
Proof.
  destruct (dashboard_requests "u-1" MoreSamples.homeWithReport
              Samples.registered (Resolved [])) as (_ & _ & Hstale).
  apply (Hstale MoreSamples.oneReport). reflexivity.
Defined.

(** ** Registration and what follows *)

Lemma checkExistingUser_route (st : Register.State) (w : World) :
  Register.checkExistingUser st w =
  (st, if JS.opt_truthy (storage w !! "user_id")
       then router_replace "/(tabs)/home" w else w).
Proof.
  unfold Register.checkExistingUser, getItem, AsyncStorage_getItem.
  destruct (JS.opt_truthy (storage w !! "user_id")); reflexivity.
Qed.

(** What a registration that resolved with a body leaves in the world. *)
Lemma register_world (st : Register.State) (w : World) (data : Registered) :
  Register.name st <> "" -> Register.email st <> "" ->
  Register.age st <> "" -> Register.height st <> "" ->
  (Register.onRegister (Resolved (Some data)) st w).2 =
  router_replace "/(tabs)/home"
    (Alert_alert "Success" (JS.VStr "Registration successful!") []
       (AsyncStorage_setItem "user_name" (reg_name data)
          (AsyncStorage_setItem "user_id" (reg_user_id data)
             (axios (PostUsers (Register.body st)) w)))).
Proof.
  intros Hn He Ha Hh.
  unfold Register.onRegister, fire, Register.handleRegister.
  rewrite (required_present st Hn He Ha Hh). reflexivity.
Qed.

(** What a confirmed logout leaves in the world. *)
Lemma logout_world (st : Profile.State) (w : World) :
  (Profile.handleLogout >>> Profile.onPress "Logout") st w =
  (st, router_replace "/"
         (AsyncStorage_clear
            (Alert_alert "Logout"
               (JS.VStr "Are you sure you want to logout?")
               (alert_buttons logoutDialog) w))).
Proof.
  unfold seq, Profile.handleLogout, effect, Profile.onPress.
  rewrite (pressButton_last Profile.press "Logout" logoutDialog
             {| btn_text := "Logout"; btn_onPress := ClearAndLeave |});
    [reflexivity | simpl; apply last_snoc | reflexivity].
Qed.

(** A daily log that passes validation, on a device that holds an
    identifier and on one that does not. *)
Lemma daily_log_with_identifier (st : DailyLog.State) (w : World)
  (today id : string) (reply : Reply unit) :
  DailyLog.breakfastFood st <> "" -> DailyLog.lunchFood st <> "" ->
  DailyLog.dinnerFood st <> "" ->
  storage w !! "user_id" = Some id -> id <> "" ->
  requests (DailyLog.onSubmit today reply st w).2 =
  requests w ++ [PostDailyLogs (DailyLog.logData st id today)].
Proof.
  intros Hb Hl Hd Hid Hne. apply str_truthy_true in Hne.
  unfold DailyLog.onSubmit, fire, DailyLog.handleSubmit.
  rewrite (meals_present st Hb Hl Hd).
  unfold seq, set, effect, getItem, AsyncStorage_getItem. simpl.
  rewrite Hid. simpl. rewrite Hne. destruct reply; reflexivity.
Qed.

Lemma daily_log_without_identifier (st : DailyLog.State) (w : World)
  (today : string) (reply : Reply unit) :
  DailyLog.breakfastFood st <> "" -> DailyLog.lunchFood st <> "" ->
  DailyLog.dinnerFood st <> "" ->
  JS.opt_truthy (storage w !! "user_id") = false ->
  (DailyLog.onSubmit today reply st w).2 =
  Alert_alert "Error" (JS.VStr "User not found. Please login again.") [] w.
Proof.
  intros Hb Hl Hd Hno.
  unfold DailyLog.onSubmit, fire, DailyLog.handleSubmit.
  rewrite (meals_present st Hb Hl Hd).
  unfold seq, set, effect, getItem, AsyncStorage_getItem. simpl.
  now rewrite Hno.
Qed.

(** X10. A registration that the server accepts stores the identifier
    and the name it answered under 'user_id' and 'user_name', touches no
    other key, raises the success dialog and shows the home screen; the
    next launch of the entry screen then goes straight to the home screen,
    provided the identifier answered is not empty.  When the server
    resolves with an empty body, nothing is stored, no dialog is raised and
    the route does not change. *)
Theorem registration_success (st : Register.State) (w : World) :
  Register.name st <> "" -> Register.email st <> "" ->
  Register.age st <> "" -> Register.height st <> "" ->
  (forall data : Registered,
     let w' := (Register.onRegister (Resolved (Some data)) st w).2 in
     storage w' !! "user_id" = Some (reg_user_id data)
     /\ storage w' !! "user_name" = Some (reg_name data)
     /\ (forall k : string, k <> "user_id" -> k <> "user_name" ->
         storage w' !! k = storage w !! k)
     /\ route w' = "/(tabs)/home"
     /\ alerts w' = alerts w ++ [registeredDialog]
     /\ (reg_user_id data <> "" ->
         forall entry : Register.State,
         route (Register.checkExistingUser entry (router_replace "/" w')).2
         = "/(tabs)/home"))
  /\ (Register.onRegister (Resolved None) st w).2 =
     axios (PostUsers (Register.body st)) w.
Proof.
  intros Hn He Ha Hh. split.
  - intros data. cbv zeta. rewrite (register_world st w data Hn He Ha Hh).
    simpl.
    refine (conj _ (conj _ (conj _ (conj _ (conj _ _))))).
    + rewrite lookup_insert_ne by discriminate. apply lookup_insert_eq.
    + apply lookup_insert_eq.
    + intros k Hid Hname. now rewrite !lookup_insert_ne by congruence.
    + reflexivity.
    + reflexivity.
    + intros Hid entry. rewrite checkExistingUser_route. simpl.
      rewrite lookup_insert_ne by discriminate. rewrite lookup_insert_eq.
      simpl. apply str_truthy_true in Hid. now rewrite Hid.
  - unfold Register.onRegister, fire, Register.handleRegister.
    rewrite (required_present st Hn He Ha Hh). reflexivity.
Qed.

Lemma registration_success_witness :
  storage (Register.onRegister (Resolved (Some MoreSamples.asha))
             MoreSamples.completeForm MoreSamples.atEntry).2 !! "user_id"
  = Some "u-7"
  /\ route (Register.onRegister (Resolved (Some MoreSamples.asha))
              MoreSamples.completeForm MoreSamples.atEntry).2
     = "/(tabs)/home"
  /\ route (Register.checkExistingUser Register.initial
              (router_replace "/"
                 (Register.onRegister (Resolved (Some MoreSamples.asha))
                    MoreSamples.completeForm MoreSamples.atEntry).2)).2
     = "/(tabs)/home"
  /\ (Register.onRegister (Resolved None) MoreSamples.completeForm
        MoreSamples.atEntry).2 =
     axios (PostUsers (Register.body MoreSamples.completeForm))
       MoreSamples.atEntry.
Proof.
  destruct (registration_success MoreSamples.completeForm MoreSamples.atEntry)
    as [Hsome Hnone]; try discriminate.
  destruct (Hsome MoreSamples.asha) as (Hid & _ & _ & Hroute & _ & Hnext).
  refine (conj Hid (conj Hroute (conj _ Hnone))).
  apply Hnext. discriminate.
Defined.

(** X11. From registration to logout, across the screens.  After a
    registration that resolved with an identifier that is not empty, a
    daily log that passes validation is posted under that identifier; after
    the logout that follows, the same submission is stopped by the 'user
    not found' dialog and sends nothing, and the entry screen no longer
    redirects. *)
Theorem identifier_round_trip (form : Register.State) (w : World)
  (data : Registered) (log : DailyLog.State) (today : string)
  (reply : Reply unit) (profile : Profile.State) :
  Register.name form <> "" -> Register.email form <> "" ->
  Register.age form <> "" -> Register.height form <> "" ->
  reg_user_id data <> "" ->
  DailyLog.breakfastFood log <> "" -> DailyLog.lunchFood log <> "" ->
  DailyLog.dinnerFood log <> "" ->
  let w1 := (Register.onRegister (Resolved (Some data)) form w).2 in
  let w2 := (DailyLog.onSubmit today reply log w1).2 in
  let w3 := ((Profile.handleLogout >>> Profile.onPress "Logout")
               profile w2).2 in
  let w4 := (DailyLog.onSubmit today reply log w3).2 in
  requests w2 =
    requests w1
    ++ [PostDailyLogs (DailyLog.logData log (reg_user_id data) today)]
  /\ requests w4 = requests w2
  /\ last (alerts w4) =
     Some (notFoundDialog "User not found. Please login again.")
  /\ forall entry : Register.State,
     Register.checkExistingUser entry w4 = (entry, w4).
Proof.
  intros Hn He Ha Hh Hid Hb Hl Hd. cbv zeta.
  rewrite (register_world form w data Hn He Ha Hh).
  set (w1 := router_replace _ _).
  assert (Hstored : storage w1 !! "user_id" = Some (reg_user_id data)).
  { unfold w1. simpl. rewrite lookup_insert_ne by discriminate.
    apply lookup_insert_eq. }
  pose proof (daily_log_with_identifier log w1 today (reg_user_id data)
                reply Hb Hl Hd Hstored Hid) as Hsubmit.
  set (w2 := (DailyLog.onSubmit today reply log w1).2) in *.
  rewrite (logout_world profile w2). simpl snd.
  set (w3 := router_replace "/" _).
  assert (Hno : JS.opt_truthy (storage w3 !! "user_id") = false)
    by reflexivity.
  rewrite (daily_log_without_identifier log w3 today reply Hb Hl Hd Hno).
  refine (conj Hsubmit (conj _ (conj _ _))).
  - reflexivity.
  - simpl. apply last_snoc.
  - intros entry. rewrite checkExistingUser_route. reflexivity.
Qed.

Lemma identifier_round_trip_witness :
  requests
    (DailyLog.onSubmit "2024-05-01" (Resolved tt) Samples.filledLog
       (Register.onRegister (Resolved (Some MoreSamples.asha))
          MoreSamples.completeForm MoreSamples.atEntry).2).2 =
  requests
    (Register.onRegister (Resolved (Some MoreSamples.asha))
       MoreSamples.completeForm MoreSamples.atEntry).2
  ++ [PostDailyLogs (DailyLog.logData Samples.filledLog "u-7" "2024-05-01")].
Proof.
  apply (identifier_round_trip MoreSamples.completeForm MoreSamples.atEntry
           MoreSamples.asha Samples.filledLog "2024-05-01" (Resolved tt)
           Profile.initial); discriminate.
Defined.

(** ** The exercise card *)

Lemma has_gt_strip (b : bool) (s : string) :
  Exercises.has_gt (Exercises.strip b s) = true -> Exercises.has_gt s = true.
Proof.
  revert b. induction s as [| c s IH]; intros b; simpl; [destruct b; auto |].
  destruct b.
  - destruct (Ascii.eqb c ">"); [reflexivity | apply IH].
  - destruct (Ascii.eqb c "<" && Exercises.has_gt s).
    + intros H. apply IH in H. rewrite H. now destruct (Ascii.eqb c ">").
    + simpl. destruct (Ascii.eqb c ">"); [reflexivity | apply IH].
Qed.

Lemma strip_tagless (b : bool) (s : string) :
  tagless (Exercises.strip b s) = true.
Proof.
  revert b. induction s as [| c s IH]; intros b; simpl; [now destruct b |].
  destruct b.
  - destruct (Ascii.eqb c ">"); apply IH.
  - destruct (Ascii.eqb c "<" && Exercises.has_gt s) eqn:Hopen;
      [apply IH |].
    simpl. rewrite IH, andb_true_r.
    destruct (Ascii.eqb c "<"); [| reflexivity]. simpl in *.
    destruct (Exercises.has_gt (Exercises.strip false s)) eqn:Hgt;
      [| reflexivity].
    apply has_gt_strip in Hgt. congruence.
Qed.

Lemma strip_of_tagless (s : string) :
  tagless s = true -> Exercises.strip false s = s.
Proof.
  induction s as [| c s IH]; simpl; [reflexivity |].
  intros H. apply andb_prop in H as [Hc Hs].
  apply negb_true_iff in Hc. rewrite Hc. now rewrite IH.
Qed.

Lemma strip_length (b : bool) (s : string) :
  (String.length (Exercises.strip b s) <= String.length s)%nat.
Proof.
  revert b. induction s as [| c s IH]; intros b; simpl; [destruct b; lia |].
  destruct b.
  - destruct (Ascii.eqb c ">"); [specialize (IH false) | specialize (IH true)];
      lia.
  - destruct (Ascii.eqb c "<" && Exercises.has_gt s);
      [specialize (IH true) | specialize (IH false)]; simpl; lia.
Qed.

(** X12. The description of an exercise, as the card shows it, holds no
    markup: after the replacement no [<] is followed by a [>] anywhere in
    the text.  A description that held none to begin with is shown as it
    is, so the replacement applied twice is the replacement applied once;
    and the text shown is never longer than the description. *)
Theorem description_has_no_tags (s : string) :
  tagless (Exercises.stripTags s) = true
  /\ (tagless s = true -> Exercises.stripTags s = s)
  /\ Exercises.stripTags (Exercises.stripTags s) = Exercises.stripTags s
  /\ (String.length (Exercises.stripTags s) <= String.length s)%nat.
Proof.
  unfold Exercises.stripTags. refine (conj _ (conj _ (conj _ _))).
  - apply strip_tagless.
  - apply strip_of_tagless.
  - apply strip_of_tagless, strip_tagless.
  - apply strip_length.
Qed.

Lemma description_has_no_tags_witness :
  tagless (Exercises.stripTags "<p>Lie on your <b>back</b></p>") = true
  /\ Exercises.stripTags "Keep a < b and rest" = "Keep a < b and rest"
  /\ Exercises.stripTags "<p>Lie on your <b>back</b></p>"
     = "Lie on your back".
Proof.
  destruct (description_has_no_tags "<p>Lie on your <b>back</b></p>")
    as (H1 & _).
  destruct (description_has_no_tags "Keep a < b and rest") as (_ & H2 & _).
  refine (conj H1 (conj _ _)).
  - apply H2. reflexivity.
  - reflexivity.
Defined.

(** ** The address of an exercise *)

Lemma all_chars_app (test : ascii -> bool) (a b : string) :
  all_chars test (a +:+ b) = all_chars test a && all_chars test b.
Proof.
  induction a as [| c a IH]; [reflexivity |].
  change (test c && all_chars test (a +:+ b)
          = test c && all_chars test a && all_chars test b).
  now rewrite IH, andb_assoc.
Qed.

Lemma string_app_cons (d : ascii) (a b : string) :
  String d a +:+ b = String d (a +:+ b).
Proof. reflexivity. Qed.

Lemma string_app_assoc (a b c : string) :
  (a +:+ b) +:+ c = a +:+ (b +:+ c).
Proof.
  induction a as [| d a IH]; [reflexivity |].
  rewrite !string_app_cons. now f_equal.
Qed.

Lemma encode_app (a b : string) :
  Exercises.encodeURIComponent (a +:+ b) =
  Exercises.encodeURIComponent a +:+ Exercises.encodeURIComponent b.
Proof.
  induction a as [| c a IH]; [reflexivity |].
  rewrite string_app_cons. simpl. now rewrite IH, string_app_assoc.
Qed.

Lemma encode_unit_safe (c : ascii) :
  all_chars query_safe (Exercises.encode_unit c) = true.
Proof. destruct c as [[] [] [] [] [] [] [] []]; vm_compute; reflexivity. Qed.

Lemma encode_safe (s : string) :
  all_chars query_safe (Exercises.encodeURIComponent s) = true.
Proof.
  induction s as [| c s IH]; simpl; [reflexivity |].
  now rewrite all_chars_app, encode_unit_safe, IH.
Qed.

Lemma decode_unit (c : ascii) (rest : string) :
  Exercises.decode (Exercises.encode_unit c +:+ rest) =
  option_map (String c) (Exercises.decode rest).
Proof.
  destruct c as [[] [] [] [] [] [] [] []]; reflexivity.
Qed.

Lemma decode_encode (s : string) :
  Exercises.decode (Exercises.encodeURIComponent s) = Some s.
Proof.
  induction s as [| c s IH]; simpl; [reflexivity |].
  now rewrite decode_unit, IH.
Qed.

Lemma string_app_cancel_r (a b s : string) : a +:+ s = b +:+ s -> a = b.
Proof.
  revert b. induction a as [| c a IH]; intros [| d b] H.
  - reflexivity.
  - apply (f_equal String.length) in H.
    rewrite !string_length_app in H. simpl in H. lia.
  - apply (f_equal String.length) in H.
    rewrite !string_length_app in H. simpl in H. lia.
  - rewrite !string_app_cons in H. injection H as -> H.
    f_equal. now apply IH.
Qed.

(** X13. The address opened for an exercise is the fixed search address,
    the encoded name of the exercise and the encoded words ' exercise how
    to'.  Whatever the name holds, its encoding is made of unreserved
    characters and [%] escapes only, so it cannot end the query or add a
    parameter, a fragment or a path to the address; the name can be read
    back from its encoding, so two exercises of different names open
    different addresses. *)
Theorem exercise_address (name : string) :
  Exercises.openExerciseInfo name =
    "https://www.youtube.com/results?search_query="
    +:+ Exercises.encodeURIComponent name +:+ "%20exercise%20how%20to"
  /\ all_chars query_safe (Exercises.encodeURIComponent name) = true
  /\ Exercises.decode (Exercises.encodeURIComponent name) = Some name
  /\ forall other : string,
     Exercises.openExerciseInfo other = Exercises.openExerciseInfo name ->
     other = name.
Proof.
  refine (conj _ (conj _ (conj _ _))).
  - unfold Exercises.openExerciseInfo. cbv zeta. now rewrite encode_app.
  - apply encode_safe.
  - apply decode_encode.
  - intros other H. unfold Exercises.openExerciseInfo in H. cbv zeta in H.
    apply String.app_inj in H.
    apply (f_equal Exercises.decode) in H.
    rewrite !decode_encode in H. injection H as H.
    now apply string_app_cancel_r in H.
Qed.

Lemma exercise_address_witness :
  Exercises.openExerciseInfo "Push-up (wide) & hold" =
    "https://www.youtube.com/results?search_query="
    +:+ "Push-up%20(wide)%20%26%20hold%20exercise%20how%20to"
  /\ Exercises.decode
       (Exercises.encodeURIComponent "Push-up (wide) & hold")
     = Some "Push-up (wide) & hold".
Proof.
  destruct (exercise_address "Push-up (wide) & hold")
    as (Haddress & _ & Hback & _).
  split; [rewrite Haddress; reflexivity | exact Hback].
Defined.

(** The characters that would split an address are not among those an
    encoding is made of. *)
Example query_safe_excludes :
  forallb (fun c => negb (query_safe c))
    [" "; "&"; "#"; "="; "?"; "/"; "+"; ":"; "<"; ">"]%char = true.
Proof. reflexivity. Qed.

(** ** Numbers typed with text after them *)

(** A digit, read after [acc]. *)
Lemma span_digit (b : N) (acc : Z) (count : nat) (s : string) :
  (b < 10)%N ->
  JS.span_digits 10 acc count (JS.decimal (Z.of_N b) +:+ s) =
  JS.span_digits 10 (acc * 10 + Z.of_N b) (S count) s.
Proof.
  revert b. apply (below_ten (fun b => _)). intros k Hk.
  each_digit k by reflexivity.
Qed.

(** The digits of a number, read back after [acc]. *)
Lemma span_decimal (n : Z) :
  (0 <= n)%Z ->
  forall (acc : Z) (count : nat) (s : string),
  JS.span_digits 10 acc count (JS.decimal n +:+ s) =
  JS.span_digits 10
    (acc * 10 ^ Z.of_nat (String.length (JS.decimal n)) + n)
    (count + String.length (JS.decimal n)) s.
Proof.
  intros Hn. pattern n. apply Zlt_0_ind; [| exact Hn].
  clear n Hn. intros n IH Hn acc count s.
  destruct (Z.lt_ge_cases n 10) as [Hlt | Hge].
  - rewrite (decimal_digit n) by lia.
    rewrite <- (Z2N.id n) at 1 by lia. rewrite span_digit by lia.
    rewrite Z2N.id by lia. change (Z.of_nat 1) with 1%Z.
    rewrite Z.pow_1_r. f_equal. lia.
  - pose proof (Z.div_mod n 10 ltac:(lia)) as Hdm.
    pose proof (Z.mod_pos_bound n 10 ltac:(lia)) as Hb.
    assert (Hq : (0 <= n / 10 < n)%Z)
      by (split; [apply Z.div_pos; lia | apply Z.div_lt; lia]).
    rewrite (decimal_step n Hge), string_app_assoc.
    rewrite (IH (n / 10)%Z) by lia.
    rewrite <- (Z2N.id (n mod 10)%Z) at 1 by lia.
    rewrite span_digit by lia. rewrite Z2N.id by lia.
    rewrite string_length_app, (decimal_digit (n mod 10)%Z) by lia.
    rewrite Nat2Z.inj_add, Z.pow_add_r by lia.
    change (10 ^ Z.of_nat 1)%Z with 10%Z.
    replace (count + (String.length (JS.decimal (n / 10)%Z) + 1))%nat
      with (S (count + String.length (JS.decimal (n / 10)%Z))) by lia.
    match goal with
    | |- JS.span_digits _ ?a _ _ = JS.span_digits _ ?b _ _ =>
        replace a with b by lia
    end.
    reflexivity.
Qed.

(** The digits of a number start with a digit, and with [0] for zero
    alone. *)
Lemma decimal_head (n : Z) :
  (0 <= n)%Z ->
  exists (c : ascii) (s : string),
    JS.decimal n = String c s /\ digit_char c = true
    /\ (c = "0"%char -> n = 0%Z /\ s = "").
Proof.
  intros Hn. pattern n. apply Zlt_0_ind; [| exact Hn].
  clear n Hn. intros n IH Hn.
  destruct (Z.lt_ge_cases n 10) as [Hlt | Hge].
  - rewrite <- (Z2N.id n) by lia.
    assert (Hb : (Z.to_N n < 10)%N) by lia. revert Hb.
    generalize (Z.to_N n). apply (below_ten (fun b => _)). intros k Hk.
    each_digit k by
      (eexists; eexists; split; [reflexivity |];
       split; [reflexivity |]; intros H; (discriminate H || now split)).
  - assert (Hq : (0 <= n / 10 < n)%Z)
      by (split; [apply Z.div_pos; lia | apply Z.div_lt; lia]).
    destruct (IH (n / 10)%Z Hq) as (c & s & Hdec & Hdigit & Hzero).
    exists c, (s +:+ JS.decimal (n mod 10)%Z).
    rewrite (decimal_step n Hge), Hdec. split; [reflexivity |].
    split; [exact Hdigit |]. intros Hc. apply Hzero in Hc as [Hc _].
    assert (1 <= n / 10)%Z by (apply Z.div_le_lower_bound; lia). lia.
Qed.

Lemma digit_char_plain (c : ascii) :
  digit_char c = true ->
  JS.is_white c = false /\ c <> "-"%char /\ c <> "+"%char
  /\ c <> "I"%char.
Proof.
  destruct c as [[] [] [] [] [] [] [] []]; vm_compute; intros H;
    try discriminate H; repeat split; discriminate.
Qed.

Lemma span_stop (acc : Z) (count : nat) (rest : string) :
  match rest with
  | EmptyString => true
  | String c _ => negb (digit_char c)
  end = true ->
  JS.span_digits 10 acc count rest = (acc, count, rest).
Proof.
  destruct rest as [| c rest]; [reflexivity |]. intros H. simpl.
  assert (Hd : JS.digit_value 10 c = None).
  { revert H. destruct c as [[] [] [] [] [] [] [] []]; vm_compute;
      intros H; (discriminate H || reflexivity). }
  now rewrite Hd.
Qed.

Lemma trimStart_digit (c : ascii) (s : string) :
  digit_char c = true -> JS.trimStart (String c s) = String c s.
Proof.
  intros H. apply digit_char_plain in H as (Hw & _). simpl.
  now rewrite Hw.
Qed.

Lemma strip_sign_digit (c : ascii) (s : string) :
  digit_char c = true -> JS.strip_sign (String c s) = (false, String c s).
Proof.
  destruct c as [[] [] [] [] [] [] [] []]; vm_compute; intros H;
    (discriminate H || reflexivity).
Qed.

(** [parseInt] reads the digits of [n] and ignores what follows them. *)
Lemma parseInt_decimal (n : Z) (rest : string) :
  (0 <= n)%Z -> ends_integer n rest = true ->
  JS.parseInt (JS.decimal n +:+ rest) = JS.float_of_Z n.
Proof.
  intros Hn Hend. unfold JS.parseInt.
  destruct (decimal_head n Hn) as (c & s & Hdec & Hdigit & Hzero).
  assert (Hsame : JS.strip_sign (JS.trimStart (JS.decimal n +:+ rest))
                  = (false, JS.decimal n +:+ rest)).
  { rewrite Hdec, string_app_cons, trimStart_digit by exact Hdigit.
    now apply strip_sign_digit. }
  rewrite Hsame.
  assert (Hradix :
    match JS.decimal n +:+ rest with
    | String "0" (String "x" r) | String "0" (String "X" r) => (16%Z, r)
    | _ => (10%Z, JS.decimal n +:+ rest)
    end = (10%Z, JS.decimal n +:+ rest)).
  { destruct (ascii_dec c "0") as [-> | Hc].
    - destruct (Hzero eq_refl) as [-> ->]. rewrite Hdec.
      change (String "0" "" +:+ rest) with (String "0" rest).
      destruct rest as [| d rest]; [reflexivity |].
      unfold ends_integer in Hend. revert Hend.
      destruct d as [[] [] [] [] [] [] [] []]; vm_compute;
        intros H; (discriminate H || reflexivity).
    - rewrite Hdec, string_app_cons. revert Hc Hdigit. clear.
      destruct c as [[] [] [] [] [] [] [] []]; vm_compute;
        intros Hc H; try discriminate H; try reflexivity;
        now destruct Hc. }
  rewrite Hradix, span_decimal by exact Hn.
  rewrite span_stop.
  - pose proof (decimal_nonempty n) as Hlen.
    destruct (String.length (JS.decimal n)) as [| k]; [lia |].
    simpl. f_equal; lia.
  - destruct rest as [| d rest]; [reflexivity |].
    unfold ends_integer in Hend.
    now apply andb_true_iff in Hend as [Hend _].
Qed.

(** [parseFloat] does the same when no point or exponent follows. *)
Lemma parseFloat_decimal (n : Z) (rest : string) :
  (0 <= n)%Z -> ends_decimal rest = true ->
  JS.parseFloat (JS.decimal n +:+ rest) = JS.float_of_Z n.
Proof.
  intros Hn Hend. unfold JS.parseFloat.
  destruct (decimal_head n Hn) as (c & s & Hdec & Hdigit & Hzero).
  assert (Hsame : JS.strip_sign (JS.trimStart (JS.decimal n +:+ rest))
                  = (false, JS.decimal n +:+ rest)).
  { rewrite Hdec, string_app_cons, trimStart_digit by exact Hdigit.
    now apply strip_sign_digit. }
  rewrite Hsame.
  assert (Hinf : String.prefix "Infinity" (JS.decimal n +:+ rest) = false).
  { rewrite Hdec, string_app_cons. revert Hdigit. clear.
    destruct c as [[] [] [] [] [] [] [] []]; vm_compute;
      intros H; (discriminate H || reflexivity). }
  rewrite Hinf, span_decimal by exact Hn.
  assert (Hdigits :
    match rest with
    | EmptyString => true
    | String d _ => negb (digit_char d)
    end = true).
  { destruct rest as [| d rest]; [reflexivity |].
    unfold ends_decimal in Hend.
    now apply andb_true_iff in Hend as [Hend _]. }
  replace (0 * 10 ^ Z.of_nat (String.length (JS.decimal n)) + n)%Z
    with n by lia.
  rewrite span_stop by exact Hdigits.
  assert (Hplain :
    match rest with
    | String "." r => JS.span_digits 10 n 0 r
    | _ => (n, O, rest)
    end = (n, O, rest)
    /\ JS.exponent_part rest = 0%Z).
  { destruct rest as [| d rest]; [now split |].
    unfold ends_decimal in Hend. revert Hend. clear.
    destruct d as [[] [] [] [] [] [] [] []]; vm_compute;
      intros H; (discriminate H || now split). }
  destruct Hplain as [Hpoint Hexp]. rewrite Hpoint, Hexp.
  pose proof (decimal_nonempty n) as Hlen.
  destruct (String.length (JS.decimal n)) as [| k]; [lia |].
  simpl. unfold JS.float_of_decimal. simpl. f_equal; lia.
Qed.

(** X14. The registration form reads the number at the start of the age
    and of the height and ignores the text after it: when the age field
    holds the digits of [a] followed by anything that is not a digit (nor
    an [x] after a lone [0]), and the height field the digits of [h]
    followed by anything that is not a digit, a point or an exponent mark,
    a form with a name and an email is accepted, and the request carries
    the age [a] and the height [h]. *)
Theorem register_reads_leading_number
  (st : Register.State) (w : World) (reply : Reply (option Registered))
  (a h : Z) (ra rh : string) :
  Register.name st <> "" -> Register.email st <> "" ->
  (0 <= a)%Z -> (0 <= h)%Z ->
  Register.age st = JS.decimal a +:+ ra -> ends_integer a ra = true ->
  Register.height st = JS.decimal h +:+ rh -> ends_decimal rh = true ->
  requests (Register.onRegister reply st w).2 =
    requests w ++ [PostUsers (Register.body st)]
  /\ rb_age (Register.body st) = JS.float_of_Z a
  /\ rb_height (Register.body st) = JS.float_of_Z h.
Proof.
  intros Hname Hemail Ha Hh Hage Hra Hheight Hrh.
  refine (conj _ (conj _ _)).
  - apply register_posts; try assumption.
    + destruct (decimal_head a Ha) as (c & s & Hdec & _).
      rewrite Hage, Hdec, string_app_cons. discriminate.
    + destruct (decimal_head h Hh) as (c & s & Hdec & _).
      rewrite Hheight, Hdec, string_app_cons. discriminate.
  - simpl. rewrite Hage. now apply parseInt_decimal.
  - simpl. rewrite Hheight. now apply parseFloat_decimal.
Qed.

Lemma register_reads_leading_number_witness :
  requests
    (Register.onRegister (Resolved (Some MoreSamples.asha))
       MoreSamples.withUnits MoreSamples.atEntry).2 =
    requests MoreSamples.atEntry
    ++ [PostUsers (Register.body MoreSamples.withUnits)]
  /\ rb_age (Register.body MoreSamples.withUnits) = JS.float_of_Z 30
  /\ rb_height (Register.body MoreSamples.withUnits) = JS.float_of_Z 170.
Proof.
  apply (register_reads_leading_number MoreSamples.withUnits
           MoreSamples.atEntry (Resolved (Some MoreSamples.asha))
           30 170 " years" "cm");
    (reflexivity || discriminate).
Defined.
